(** * threeML.utils.time_series.time_series : the TimeSeries background engine

    A shallow embedding of [TimeSeries] (interval validation, binned and
    unbinned polynomial background fits, grade selection, integrals over the
    fitted polynomials, persistence of a fit) and the properties of it that
    the design document states.

    Conventions of the embedding.
    - Python floats that are times, exposures, log-likelihoods and integrals
      are exact rationals ([Q]); the entries of stored coefficient tables
      are [pyfloat]s, which add the non-finite values that [np.isfinite]
      tells apart.
    - A method of the class is a computation in [M]: it reads and updates
      the object ([self]), the files on disk ([fs]) and the stream of
      warnings, prints and method entries ([log]). An exception keeps the
      updates made before it was raised, as in Python.
    - An attribute that [__init__] does not create is an [option] field:
      reading it while [None] raises [AttributeError]. *)

From Stdlib Require Import QArith Qround Ascii String.
From stdpp Require Import base list strings gmap pretty.

Local Open Scope Z_scope.

(** ** Exceptions and results *)

Inductive exn :=
  | IndexError
  | AttributeError (attribute : string)
  | KeyError (key : string)
  | AssertionError (message : string)
  | RuntimeError (message : string)
  | IOError (message : string).

Inductive result (A : Type) :=
  | Return (a : A)
  | Raise (e : exn).
Arguments Return {A} a.
Arguments Raise {A} e.

(** ** Numbers *)

Inductive pyfloat :=
  | Fin (q : Q)
  | PInf
  | NInf
  | NaN.

(** [np.isfinite] *)
Definition isfinite (x : pyfloat) : bool :=
  match x with Fin _ => true | _ => false end.

Definition Qleb (x y : Q) : bool := Qle_bool x y.
Definition Qltb (x y : Q) : bool := negb (Qle_bool y x).

Lemma Qleb_le x y : Qleb x y = true <-> (x <= y)%Q.
Proof. apply Qle_bool_iff. Qed.



(** ** The numpy operations the class uses *)

Module np.

(** [a[mask]] for a boolean [mask]: the entries of [a] whose mask entry is
    set. *)
Fixpoint select {A} (a : list A) (mask : list bool) : list A :=
  match a, mask with
  | x :: a', b :: mask' =>
      if b then x :: select a' mask' else select a' mask'
  | _, _ => []
  end.

Definition logical_and (m1 m2 : list bool) : list bool :=
  zip_with andb m1 m2.

Definition logical_or (m1 m2 : list bool) : list bool :=
  zip_with orb m1 m2.

(** [np.ones_like(a, dtype=np.bool)] *)
Definition ones_like {A} (a : list A) : list bool :=
  replicate (length a) true.

(** [mask.nonzero()[0]]: the positions that are set, increasing. *)
Fixpoint nonzero_from (i : nat) (mask : list bool) : list nat :=
  match mask with
  | [] => []
  | b :: mask' =>
      if b then i :: nonzero_from (S i) mask' else nonzero_from (S i) mask'
  end.

Definition nonzero (mask : list bool) : list nat := nonzero_from 0 mask.

(** [np.arange(start, stop, step)] for a positive step:
    [ceil((stop - start) / step)] values [start + i * step]. *)
Definition arange (start stop step : Q) : list Q :=
  let n := Z.to_nat (Qceiling ((stop - start) / step)) in
  map (fun i : nat => (start + inject_Z (Z.of_nat i) * step)%Q) (seq 0 n).

(** [np.histogram(a, bins=edges)[0]]: every bin is half open but the last,
    which is closed. *)
Definition in_bin (is_last : bool) (lo hi x : Q) : bool :=
  Qleb lo x && (if is_last then Qleb x hi else Qltb x hi).

Fixpoint histogram_edges (a : list Q) (edges : list Q) : list Z :=
  match edges with
  | lo :: ((hi :: rest) as edges') =>
      let is_last := match rest with [] => true | _ => false end in
      Z.of_nat (length (filter (fun x => in_bin is_last lo hi x = true) a))
        :: histogram_edges a edges'
  | _ => []
  end.

Definition histogram (a : list Q) (edges : list Q) : list Z * list Q :=
  (histogram_edges a edges, edges).

(** [np.mean((a, b))] *)
Definition mean2 (a b : Q) : Q := ((a + b) / 2)%Q.

End np.

(** ** Data model *)

(** Modelled from the spec: [threeML.utils.time_interval] is not part of the
    sources at hand. An interval set is an ordered collection of
    [start, stop) intervals with start, stop and duration accessors; reading
    it from strings and printing it are collaborators (see
    [Collaborators]). *)
Record TimeInterval := mkTimeInterval {
  start_time : Q;
  stop_time : Q
}.

Definition duration (iv : TimeInterval) : Q :=
  (stop_time iv - start_time iv)%Q.

Definition TimeIntervalSet := list TimeInterval.

Definition start_times (s : TimeIntervalSet) : list Q := map start_time s.
Definition stop_times (s : TimeIntervalSet) : list Q := map stop_time s.

(** [TimeIntervalSet.from_starts_and_stops] *)
Definition from_starts_and_stops (starts stops : list Q) : TimeIntervalSet :=
  zip_with mkTimeInterval starts stops.

(** Modelled from the spec: [threeML.utils.time_series.polynomial] is not
    part of the sources at hand. A fitted model is a coefficient vector and
    a covariance matrix; its integral, the error of the integral and the
    coefficient errors are collaborators. *)
Record Polynomial := mkPolynomial {
  coefficients : list pyfloat;
  covariance_matrix : list (list pyfloat)
}.

(** [Polynomial.from_previous_fit] *)
Definition from_previous_fit (coeff : list pyfloat)
    (cov : list (list pyfloat)) : Polynomial :=
  mkPolynomial coeff cov.

Record FitMethodInfo := mkFitMethodInfo {
  bin_type : option string;
  fit_method : option string
}.

Record TimeSeries := mkTimeSeries {
  _verbose : bool;
  _n_channels : Z;
  _first_channel : Z;
  _native_quality : option (list Z);
  _time_intervals : option TimeIntervalSet;
  _start_time : Q;
  _stop_time : Q;
  _instrument : string;
  _mission : string;
  _rsp_file : option string;
  _user_poly_order : Z;
  _time_selection_exists : bool;
  _poly_fit_exists : bool;
  _fit_method_info : FitMethodInfo;
  (* attributes created after construction *)
  _poly_intervals : option TimeIntervalSet;
  _polynomials : option (list Polynomial);
  _optimal_polynomial_grade : option Z;
  _unbinned : option bool;
  (* the event stream, owned by the subclass *)
  _arrival_times : list Q;
  _energies : list Z
}.

Definition set_user_poly_order (v : Z) (t : TimeSeries) : TimeSeries :=
  mkTimeSeries (_verbose t) (_n_channels t) (_first_channel t)
    (_native_quality t) (_time_intervals t) (_start_time t) (_stop_time t)
    (_instrument t) (_mission t) (_rsp_file t) v
    (_time_selection_exists t) (_poly_fit_exists t) (_fit_method_info t)
    (_poly_intervals t) (_polynomials t) (_optimal_polynomial_grade t)
    (_unbinned t) (_arrival_times t) (_energies t).

Definition set_poly_fit_exists (v : bool) (t : TimeSeries) : TimeSeries :=
  mkTimeSeries (_verbose t) (_n_channels t) (_first_channel t)
    (_native_quality t) (_time_intervals t) (_start_time t) (_stop_time t)
    (_instrument t) (_mission t) (_rsp_file t) (_user_poly_order t)
    (_time_selection_exists t) v (_fit_method_info t)
    (_poly_intervals t) (_polynomials t) (_optimal_polynomial_grade t)
    (_unbinned t) (_arrival_times t) (_energies t).

Definition set_fit_method_info (v : FitMethodInfo) (t : TimeSeries)
    : TimeSeries :=
  mkTimeSeries (_verbose t) (_n_channels t) (_first_channel t)
    (_native_quality t) (_time_intervals t) (_start_time t) (_stop_time t)
    (_instrument t) (_mission t) (_rsp_file t) (_user_poly_order t)
    (_time_selection_exists t) (_poly_fit_exists t) v
    (_poly_intervals t) (_polynomials t) (_optimal_polynomial_grade t)
    (_unbinned t) (_arrival_times t) (_energies t).

Definition set_poly_intervals (v : TimeIntervalSet) (t : TimeSeries)
    : TimeSeries :=
  mkTimeSeries (_verbose t) (_n_channels t) (_first_channel t)
    (_native_quality t) (_time_intervals t) (_start_time t) (_stop_time t)
    (_instrument t) (_mission t) (_rsp_file t) (_user_poly_order t)
    (_time_selection_exists t) (_poly_fit_exists t) (_fit_method_info t)
    (Some v) (_polynomials t) (_optimal_polynomial_grade t)
    (_unbinned t) (_arrival_times t) (_energies t).

Definition set_polynomials (v : list Polynomial) (t : TimeSeries)
    : TimeSeries :=
  mkTimeSeries (_verbose t) (_n_channels t) (_first_channel t)
    (_native_quality t) (_time_intervals t) (_start_time t) (_stop_time t)
    (_instrument t) (_mission t) (_rsp_file t) (_user_poly_order t)
    (_time_selection_exists t) (_poly_fit_exists t) (_fit_method_info t)
    (_poly_intervals t) (Some v) (_optimal_polynomial_grade t)
    (_unbinned t) (_arrival_times t) (_energies t).

Definition set_optimal_polynomial_grade (v : Z) (t : TimeSeries)
    : TimeSeries :=
  mkTimeSeries (_verbose t) (_n_channels t) (_first_channel t)
    (_native_quality t) (_time_intervals t) (_start_time t) (_stop_time t)
    (_instrument t) (_mission t) (_rsp_file t) (_user_poly_order t)
    (_time_selection_exists t) (_poly_fit_exists t) (_fit_method_info t)
    (_poly_intervals t) (_polynomials t) (Some v)
    (_unbinned t) (_arrival_times t) (_energies t).

Definition set_unbinned (v : bool) (t : TimeSeries) : TimeSeries :=
  mkTimeSeries (_verbose t) (_n_channels t) (_first_channel t)
    (_native_quality t) (_time_intervals t) (_start_time t) (_stop_time t)
    (_instrument t) (_mission t) (_rsp_file t) (_user_poly_order t)
    (_time_selection_exists t) (_poly_fit_exists t) (_fit_method_info t)
    (_poly_intervals t) (_polynomials t) (_optimal_polynomial_grade t)
    (Some v) (_arrival_times t) (_energies t).

(** The table that [get_poly_info] returns. *)
Record Panel := mkPanel {
  panel_coefficients : list (list pyfloat);
  panel_error : list (list pyfloat)
}.

(** ** Persistent container *)

(** The metadata block attached to the coefficient table. *)
Record Metadata := mkMetadata {
  md_poly_order : Z;
  md_poly_selections : list (Q * Q);
  md_unbinned : bool;
  md_fit_method : option string
}.

(** What an HDF store holds: the two tables, one row per channel, and the
    metadata block. A table that was never written is [None]. The container
    keeps what is written to it as it is. *)
Record HDFStore := mkHDFStore {
  tbl_coefficients : option (list (list pyfloat));
  tbl_covariance : option (list (list (list pyfloat)));
  attr_metadata : option Metadata
}.

Definition empty_store : HDFStore := mkHDFStore None None None.

(** A file on disk: its contents, and whether [os.remove] may delete it. *)
Record file := mkFile {
  contents : HDFStore;
  removable : bool
}.

(** ** Observable events *)

Inductive fmt_arg :=
  | AInt (z : Z)
  | AFloat (q : Q)
  | AStr (s : string).

Inductive event :=
  | Warning (format : string) (args : list fmt_arg)
  | Printed (format : string) (args : list fmt_arg)
  | Entered (method : string).

(** ** The monad of methods *)

Record World := mkWorld {
  self : TimeSeries;
  fs : gmap string file;
  log : list event
}.

Definition M (A : Type) : Type := World -> result A * World.

Definition ret {A} (a : A) : M A := fun w => (Return a, w).

Definition raise {A} (e : exn) : M A := fun w => (Raise e, w).

Definition bind {A B} (m : M A) (k : A -> M B) : M B :=
  fun w =>
    match m w with
    | (Return a, w') => k a w'
    | (Raise e, w') => (Raise e, w')
    end.

#[global] Instance M_ret : MRet M := @ret.
#[global] Instance M_bind : MBind M := fun A B k m => bind m k.

Definition get_self : M TimeSeries := fun w => (Return (self w), w).

Definition update_self (f : TimeSeries -> TimeSeries) : M unit :=
  fun w => (Return tt, mkWorld (f (self w)) (fs w) (log w)).

Definition emit (e : event) : M unit :=
  fun w => (Return tt, mkWorld (self w) (fs w) (log w ++ [e])).

Definition get_fs : M (gmap string file) := fun w => (Return (fs w), w).

Definition put_fs (d : gmap string file) : M unit :=
  fun w => (Return tt, mkWorld (self w) d (log w)).

(** Reading an attribute that may not have been created. *)
Definition attr {A} (name : string) (field : TimeSeries -> option A) : M A :=
  fun w =>
    match field (self w) with
    | Some a => (Return a, w)
    | None => (Raise (AttributeError name), w)
    end.

Definition warn (format : string) (args : list fmt_arg) : M unit :=
  emit (Warning format args).

Definition print (format : string) (args : list fmt_arg) : M unit :=
  emit (Printed format args).

(** A computation that only fails or returns, without touching the world. *)
Definition lift_result {A} (r : result A) : M A := fun w => (r, w).

Definition when (b : bool) (m : M unit) : M unit :=
  if b then m else ret tt.

(** A [for] loop run for its effects. *)
Fixpoint for_each {A} (l : list A) (body : A -> M unit) : M unit :=
  match l with
  | [] => ret tt
  | x :: l' => body x;; for_each l' body
  end.

(** ** Python values and builtins *)

(** The values a keyword argument can carry. *)
Inductive pyvalue :=
  | PyNone
  | PyBool (b : bool)
  | PyInt (z : Z)
  | PyFloat (q : Q)
  | PyStr (s : string).

(** [range(a, b)] *)
Definition range (a b : Z) : list Z :=
  map (fun i : nat => a + Z.of_nat i) (seq 0 (Z.to_nat (b - a))).

(** [s.split(sep)] for a one-character separator. *)
Fixpoint split_on (sep : ascii) (s : string) : list string :=
  match s with
  | EmptyString => [EmptyString]
  | String c s' =>
      if Ascii.eqb c sep then EmptyString :: split_on sep s'
      else match split_on sep s' with
           | [] => [String c EmptyString]
           | h :: t => String c h :: t
           end
  end.

Definition comma : ascii := Ascii.ascii_of_nat 44.

(** [l[0]] *)
Definition first_item {A} (l : list A) : M A :=
  match l with
  | [] => raise IndexError
  | x :: _ => ret x
  end.

Definition opt_str (o : option string) : fmt_arg :=
  match o with
  | Some s => AStr s
  | None => AStr "None"
  end.

(** ** Collaborators

    The parts of threeML and of the subclass that [TimeSeries] calls and
    that are outside the file: the regression primitives, the polynomial
    integrals, reading and printing interval sets, the subclass hooks, the
    configured fit method names and the file name helpers. *)

Class Collaborators := {
  polyfit : list Q -> list Z -> Z -> list Q -> Polynomial * Q;
  unbinned_polyfit : list Q -> Z -> list Q -> list Q -> Q -> Polynomial * Q;
  integral : Polynomial -> Q -> Q -> Q;
  integral_error : Polynomial -> Q -> Q -> Q;
  error : Polynomial -> list pyfloat;
  from_strings : list string -> result TimeIntervalSet;
  to_string : TimeIntervalSet -> string;
  exposure_over_interval : TimeSeries -> Q -> Q -> Q;
  set_active_time_intervals :
    TimeSeries -> list string -> result unit * TimeSeries;
  binned_fit_method : string;
  unbinned_fit_method : string;
  sanitize_filename : string -> string;
  splitext : string -> string * string;
  np_sqrt : Q -> Q
}.

(** ** Splitting into chunks *)

(** [ceildiv(a, b)]: [-(-a // b)]. Python's [//] rounds towards minus
    infinity and raises [ZeroDivisionError] on a zero divisor ([None]). *)
Definition ceildiv (a b : Z) : option Z :=
  if Z.eqb b 0 then None else Some (- (- a / b)).

(** ** Construction *)

(** [__init__]; the last two arguments are the event stream that the
    subclass installs. The warnings of the constructor are returned with the
    object. *)
Definition __init__ (start_time stop_time : Q) (n_channels : Z)
    (native_quality : option (list Z)) (first_channel : Z)
    (rsp_file mission instrument : option string) (verbose : bool)
    (arrival_times : list Q) (energies : list Z)
    : result TimeSeries * list event :=
  let quality_ok :=
    match native_quality with
    | Some q => Z.eqb (Z.of_nat (length q)) n_channels
    | None => true
    end in
  if negb quality_ok then
    (Raise (AssertionError
       "the native quality has length %d but you specified there were %d channels"),
     [])
  else
    let warn_instrument :=
      match instrument with
      | None => [Warning "No instrument name is given. Setting to UNKNOWN" []]
      | Some _ => []
      end in
    let warn_mission :=
      match mission with
      | None => [Warning "No mission name is given. Setting to UNKNOWN" []]
      | Some _ => []
      end in
    (Return
       {| _verbose := verbose;
          _n_channels := n_channels;
          _first_channel := first_channel;
          _native_quality := native_quality;
          _time_intervals := None;
          _start_time := start_time;
          _stop_time := stop_time;
          _instrument := default "UNKNOWN" instrument;
          _mission := default "UNKNOWN" mission;
          _rsp_file := rsp_file;
          _user_poly_order := -1;
          _time_selection_exists := false;
          _poly_fit_exists := false;
          _fit_method_info := mkFitMethodInfo None None;
          _poly_intervals := None;
          _polynomials := None;
          _optimal_polynomial_grade := None;
          _unbinned := None;
          _arrival_times := arrival_times;
          _energies := energies |},
     warn_instrument ++ warn_mission).

(** ** Grade selection *)

(** [np.array(map(lambda x: 2 * (x[0] - x[1]),
               zip(log_likelihoods[:-1], log_likelihoods[1:])))] *)
Definition delta_loglike (log_likelihoods : list Q) : list Q :=
  map (fun x : Q * Q => (2 * (x.1 - x.2))%Q)
      (zip (removelast log_likelihoods) (tail log_likelihoods)).

Definition delta_threshold : Q := 9.

(** The choice made from the log-likelihoods, the same statements in both
    selectors:
    [mask = (delta_loglike >= delta_threshold)], then [0] when
    [mask.nonzero()[0]] is empty and [mask.nonzero()[0][-1] + 1]
    otherwise. *)
Definition best_grade (log_likelihoods : list Q) : Z :=
  let mask := map (fun d => Qleb delta_threshold d)
                  (delta_loglike log_likelihoods) in
  let positions := np.nonzero mask in
  if Nat.eqb (length positions) 0 then 0
  else Z.of_nat (List.last positions 0%nat) + 1.

Definition min_grade : Z := 0.
Definition max_grade : Z := 4.

Section Methods.

Context `{Collaborators}.

Definition _fit_global_and_determine_optimum_grade
    (cnts : list Z) (bins exposure : list Q) : M Z :=
  emit (Entered "_fit_global_and_determine_optimum_grade");;
  let log_likelihoods :=
    map (fun grade => (polyfit bins cnts grade exposure).2)
        (range min_grade (max_grade + 1)) in
  ret (best_grade log_likelihoods).

Definition _unbinned_fit_global_and_determine_optimum_grade
    (events : list Q) (exposure : Q) : M Z :=
  emit (Entered "_unbinned_fit_global_and_determine_optimum_grade");;
  poly_intervals ← attr "_poly_intervals" _poly_intervals;
  let t_start := start_times poly_intervals in
  let t_stop := stop_times poly_intervals in
  let log_likelihoods :=
    map (fun grade =>
           (unbinned_polyfit events grade t_start t_stop exposure).2)
        (range min_grade (max_grade + 1)) in
  ret (best_grade log_likelihoods).

(** ** Fitting *)

(** [np.logical_and(times >= selection.start_time,
                    times <= selection.stop_time)] *)
Definition interval_mask (times : list Q) (selection : TimeInterval)
    : list bool :=
  np.logical_and (map (fun t => Qleb (start_time selection) t) times)
                 (map (fun t => Qleb t (stop_time selection)) times).

(** [m = masks[0]], then [m = np.logical_or(m, mask)] over [masks[1:]]. *)
Definition union_mask (masks : list (list bool)) : M (list bool) :=
  poly_mask ← first_item masks;
  ret (fold_left np.logical_or (tail masks) poly_mask).

Definition bin_width : Q := 1.

Definition _fit_polynomials : M unit :=
  emit (Entered "_fit_polynomials");;
  update_self (set_poly_fit_exists true);;
  update_self (fun t =>
    set_fit_method_info
      (mkFitMethodInfo (Some "Binned") (fit_method (_fit_method_info t))) t);;
  update_self (fun t =>
    set_fit_method_info
      (mkFitMethodInfo (bin_type (_fit_method_info t))
                       (Some binned_fit_method)) t);;
  s ← get_self;
  poly_intervals ← attr "_poly_intervals" _poly_intervals;
  let all_bkg_masks :=
    map (interval_mask (_arrival_times s)) poly_intervals in
  poly_mask ← union_mask all_bkg_masks;
  let total_poly_events := np.select (_arrival_times s) poly_mask in
  let total_poly_energies := np.select (_energies s) poly_mask in
  let these_bins := np.arange (_start_time s) (_stop_time s) bin_width in
  let '(cnts, bins) := np.histogram total_poly_events these_bins in
  let edges := zip bins (tail bins) in
  let mean_time := map (fun e : Q * Q => np.mean2 e.1 e.2) edges in
  let exposure_per_bin :=
    map (fun e : Q * Q => exposure_over_interval s e.1 e.2) edges in
  let all_non_zero_mask := map (interval_mask mean_time) poly_intervals in
  first_mask ← first_item all_non_zero_mask;
  let non_zero_mask :=
    fold_left (fun acc mask => np.logical_or mask acc)
              (tail all_non_zero_mask) first_mask in
  (if Z.eqb (_user_poly_order s) (-1) then
     grade ← _fit_global_and_determine_optimum_grade
               (np.select cnts non_zero_mask)
               (np.select mean_time non_zero_mask)
               (np.select exposure_per_bin non_zero_mask);
     update_self (set_optimal_polynomial_grade grade);;
     when (_verbose s)
       (print "Auto-determined polynomial order: %d" [AInt grade])
   else
     update_self (set_optimal_polynomial_grade (_user_poly_order s)));;
  grade ← attr "_optimal_polynomial_grade" _optimal_polynomial_grade;
  let channels :=
    range (_first_channel s) (_n_channels s + _first_channel s) in
  let polynomials :=
    map (fun channel =>
           let channel_mask :=
             map (fun e => Z.eqb e channel) total_poly_energies in
           let current_events := np.select total_poly_events channel_mask in
           let '(cnts, bins) := np.histogram current_events these_bins in
           (polyfit (np.select mean_time non_zero_mask)
                    (np.select cnts non_zero_mask)
                    grade
                    (np.select exposure_per_bin non_zero_mask)).1)
        channels in
  update_self (set_polynomials polynomials).

Definition _unbinned_fit_polynomials : M unit :=
  emit (Entered "_unbinned_fit_polynomials");;
  update_self (set_poly_fit_exists true);;
  update_self (fun t =>
    set_fit_method_info
      (mkFitMethodInfo (Some "Unbinned")
                       (fit_method (_fit_method_info t))) t);;
  update_self (fun t =>
    set_fit_method_info
      (mkFitMethodInfo (bin_type (_fit_method_info t))
                       (Some unbinned_fit_method)) t);;
  s ← get_self;
  poly_intervals ← attr "_poly_intervals" _poly_intervals;
  let poly_exposure :=
    fold_left
      (fun acc selection =>
         (acc + exposure_over_interval s (start_time selection)
                                         (stop_time selection))%Q)
      poly_intervals 0%Q in
  let all_bkg_masks :=
    map (interval_mask (_arrival_times s)) poly_intervals in
  poly_mask ← union_mask all_bkg_masks;
  let total_poly_events := np.select (_arrival_times s) poly_mask in
  let total_poly_energies := np.select (_energies s) poly_mask in
  (if Z.eqb (_user_poly_order s) (-1) then
     grade ← _unbinned_fit_global_and_determine_optimum_grade
               total_poly_events poly_exposure;
     update_self (set_optimal_polynomial_grade grade);;
     when (_verbose s)
       (print "Auto-determined polynomial order: %d" [AInt grade])
   else
     update_self (set_optimal_polynomial_grade (_user_poly_order s)));;
  grade ← attr "_optimal_polynomial_grade" _optimal_polynomial_grade;
  let channels :=
    range (_first_channel s) (_n_channels s + _first_channel s) in
  poly_intervals ← attr "_poly_intervals" _poly_intervals;
  let t_start := start_times poly_intervals in
  let t_stop := stop_times poly_intervals in
  let polynomials :=
    map (fun channel =>
           let channel_mask :=
             map (fun e => Z.eqb e channel) total_poly_energies in
           let current_events := np.select total_poly_events channel_mask in
           (unbinned_polyfit current_events grade t_start t_stop
                             poly_exposure).1)
        channels in
  update_self (set_polynomials polynomials).

(** ** Setting the background intervals *)

Definition call_set_active_time_intervals (args : list string) : M unit :=
  fun w =>
    let '(r, t) := set_active_time_intervals (self w) args in
    (r, mkWorld t (fs w) (log w)).

(** The tail shared by [set_polynomial_fit_interval] and [restore_fit]:
    [if self._time_selection_exists:
       self.set_active_time_intervals(
         *self._time_intervals.to_string().split(','))] *)
Definition recompute_active_selection : M unit :=
  s ← get_self;
  when (_time_selection_exists s)
    (time_intervals ← attr "to_string" _time_intervals;
     call_set_active_time_intervals
       (split_on comma (to_string time_intervals))).

(** The body of the loop over the intervals given by the user: [t1] and
    [t2] are local names. *)
Definition check_interval (time_interval : TimeInterval) : M unit :=
  s ← get_self;
  let t1 := start_time time_interval in
  let t2 := stop_time time_interval in
  t1 ← (if Qltb t1 (_start_time s) then
          warn "The time interval %f-%f started before the first arrival time (%f), so we are changing the intervals to %f-%f"
               [AFloat t1; AFloat t2; AFloat (_start_time s);
                AFloat (_start_time s); AFloat t2];;
          ret (_start_time s)
        else ret t1);
  t2 ← (if Qltb (_stop_time s) t2 then
          warn "The time interval %f-%f ended after the last arrival time (%f), so we are changing the intervals to %f-%f"
               [AFloat t1; AFloat t2; AFloat (_stop_time s);
                AFloat t1; AFloat (_stop_time s)];;
          ret (_stop_time s)
        else ret t2);
  when (Qleb (_stop_time s) t1 || Qleb t2 (_start_time s))
    (warn "The time interval %f-%f is out side of the arrival times and will be dropped"
          [AFloat t1; AFloat t2]).

Definition set_polynomial_fit_interval (time_intervals : list string)
    (options : gmap string pyvalue) : M unit :=
  emit (Entered "set_polynomial_fit_interval");;
  unbinned ← (match options !! "unbinned" with
              | Some (PyBool b) => ret b
              | Some _ =>
                  raise (AssertionError
                           "unbinned option must be True or False")
              | None => ret true
              end : M bool);
  poly_intervals ← lift_result (from_strings time_intervals);
  for_each poly_intervals check_interval;;
  update_self (set_poly_intervals poly_intervals);;
  (if unbinned : bool then
     update_self (set_unbinned true);;
     _unbinned_fit_polynomials
   else
     update_self (set_unbinned false);;
     _fit_polynomials);;
  update_self (set_poly_fit_exists true);;
  s ← get_self;
  when (_verbose s)
    (grade ← attr "_optimal_polynomial_grade" _optimal_polynomial_grade;
     print "%s %d-order polynomial fit with the %s method"
           [opt_str (bin_type (_fit_method_info s)); AInt grade;
            opt_str (fit_method (_fit_method_info s))]);;
  recompute_active_selection.

(** ** The polynomial order *)

Definition __set_poly_order (value : pyvalue) : M unit :=
  emit (Entered "__set_poly_order");;
  value ← (match value with
           | PyInt z => ret z
           | _ => raise (AssertionError "Polynomial order must be integer")
           end : M Z);
  (if Z.leb (-1) value && Z.leb value 4 then ret tt
   else raise (AssertionError
                 "Polynomial order must be 0-4 or -1 to have it determined"));;
  update_self (set_user_poly_order value);;
  s ← get_self;
  when (_poly_fit_exists s)
    (print "Refitting background with new polynomial order (%d) and existing selections"
           [AInt value];;
     if _time_selection_exists s then
       poly_intervals ← attr "_poly_intervals" _poly_intervals;
       unbinned ← attr "_unbinned" _unbinned;
       set_polynomial_fit_interval
         (split_on comma (to_string poly_intervals))
         {[ "unbinned" := PyBool unbinned ]}
     else
       (* RuntimeError("This is a bug. Should never get here") is built
          and not raised *)
       ret tt).

Definition __get_poly_order : M Z :=
  attr "_optimal_polynomial_grade" _optimal_polynomial_grade.

(** ** Reading the fit *)

(** [None] is Python's [None]: what a call returns when it runs off the
    end of the function. *)
Definition polynomials : M (option (list Polynomial)) :=
  s ← get_self;
  if _poly_fit_exists s then
    p ← attr "_polynomials" _polynomials;
    ret (Some p)
  else
    (* RuntimeError('A polynomial fit has not been made.') is built and
       not raised *)
    ret None.

Definition get_poly_info : M (option Panel) :=
  emit (Entered "get_poly_info");;
  s ← get_self;
  if _poly_fit_exists s then
    polys ← attr "_polynomials" _polynomials;
    let coeff := map coefficients polys in
    let err := map error polys in
    print "Coefficients" [];;
    print "Coefficient Error" [];;
    ret (Some (mkPanel coeff err))
  else
    (* RuntimeError('A polynomial fit has not been made.') is built and
       not raised *)
    ret None.

(** [np.asarray(self._polynomials)[mask]]; a boolean mask of another
    length than the array is refused by numpy. *)
Definition masked_polynomials (mask : option (list bool))
    : M (list Polynomial) :=
  mask ← (match mask with
          | None =>
              polys ← attr "_polynomials" _polynomials;
              ret (np.ones_like polys)
          | Some m => ret m
          end : M (list bool));
  polys ← attr "_polynomials" _polynomials;
  if Nat.eqb (length mask) (length polys) then ret (np.select polys mask)
  else raise IndexError.

Definition get_total_poly_count (start stop : Q)
    (mask : option (list bool)) : M Q :=
  emit (Entered "get_total_poly_count");;
  selected ← masked_polynomials mask;
  ret (fold_left (fun total_counts p =>
                    (total_counts + integral p start stop)%Q)
                 selected 0%Q).

Definition get_total_poly_error (start stop : Q)
    (mask : option (list bool)) : M Q :=
  emit (Entered "get_total_poly_error");;
  selected ← masked_polynomials mask;
  ret (np_sqrt
         (fold_left (fun total_counts p =>
                       (total_counts + integral_error p start stop ^ 2)%Q)
                    selected 0%Q)).

End Methods.


(** ** The PHA container: [get_pha_information] *)

(** What the subclass computes for the active selection: the counts and the
    polynomial counts per channel, the errors of the latter, and the
    exposure of the selection. *)
Record SelectionProducts := mkSelectionProducts {
  _counts : list Q;
  _poly_counts : list Q;
  _poly_count_err : list Q;
  _exposure : Q
}.

(** The aggregate bounds of an interval set, read by
    [get_pha_information]. *)
Class IntervalSetBounds := {
  absolute_start_time : TimeIntervalSet -> Q;
  absolute_stop_time : TimeIntervalSet -> Q
}.

(** Division as numpy does it: a zero divisor gives [nan] or an infinity. *)
Definition fdiv (x y : Q) : pyfloat :=
  if Qeq_bool y 0 then
    if Qeq_bool x 0 then NaN else if Qltb 0 x then PInf else NInf
  else Fin (x / y).

(** [r < 0.] *)
Definition negative (r : pyfloat) : bool :=
  match r with
  | Fin q => Qltb q 0
  | NInf => true
  | PInf | NaN => false
  end.

(** [a[idx] = v] for a boolean [idx]. *)
Definition assign_where (a : list pyfloat) (idx : list bool) (v : pyfloat)
    : result (list pyfloat) :=
  if Nat.eqb (length idx) (length a)
  then Return (zip_with (fun x (b : bool) => if b then v else x) a idx)
  else Raise IndexError.

Record PHAContainer := mkPHAContainer {
  pha_instrument : string;
  pha_telescope : string;
  pha_tstart : Q;
  pha_telapse : Q;
  pha_channel : list Z;
  pha_rate : list pyfloat;
  pha_rate_error : option (list pyfloat);
  pha_quality : list Z;
  pha_backfile : string;
  pha_grouping : list Z;
  pha_exposure : Q;
  pha_response_file : option string
}.

Definition no_selection_message : string :=
  "No time selection exists! Cannot calculate rates".

Section PHA.

Context `{IntervalSetBounds}.

Definition get_pha_information (products : SelectionProducts)
    (use_poly : bool) : M PHAContainer :=
  emit (Entered "get_pha_information");;
  s ← get_self;
  (if negb (_time_selection_exists s)
   then raise (RuntimeError no_selection_message) else mret tt);;
  '(rate_err, rates) ←
    (if use_poly then
       let rate_err :=
         map (fun e => fdiv e (_exposure products))
             (_poly_count_err products) in
       let rates :=
         map (fun c => fdiv c (_exposure products)) (_poly_counts products) in
       let idx := map negative rates in
       rates ← lift_result (assign_where rates idx (Fin 0));
       rate_err ← lift_result (assign_where rate_err idx (Fin 0));
       mret (Some rate_err, rates)
     else
       mret (None,
             map (fun c => fdiv c (_exposure products)) (_counts products))
     : M (option (list pyfloat) * list pyfloat));
  let quality :=
    match _native_quality s with
    | None => replicate (length rates) 0
    | Some q => q
    end in
  time_intervals ← attr "absolute_start_time" _time_intervals;
  mret {| pha_instrument := _instrument s;
          pha_telescope := _mission s;
          pha_tstart := absolute_start_time time_intervals;
          pha_telapse := (absolute_stop_time time_intervals
                          - absolute_start_time time_intervals)%Q;
          pha_channel :=
            map (fun i => i + _first_channel s) (range 0 (_n_channels s));
          pha_rate := rates;
          pha_rate_error := rate_err;
          pha_quality := quality;
          pha_backfile := "NONE";
          pha_grouping := replicate (Z.to_nat (_n_channels s)) 1;
          pha_exposure := _exposure products;
          pha_response_file := _rsp_file s |}.

End PHA.

(** ** Binning: the events handed to the temporal binner

    [bin_by_significance], [bin_by_constant] and [bin_by_bayesian_blocks]
    select events from the stream and pass them to [TemporalBinner], which
    is outside the file. The selections are modelled; they read the object
    and change nothing. *)

(** What numpy refuses in them: a boolean index of another length than the
    array ([IndexError]) and operands of two lengths, neither of them 1
    ([ValueError]). *)
Inductive numpy_error :=
  | BooleanIndexError
  | BroadcastError.

(** [a[mask]] for a boolean [mask], with the check of the length. *)
Definition boolean_index {A} (a : list A) (mask : list bool)
    : numpy_error + list A :=
  if Nat.eqb (length mask) (length a) then inr (np.select a mask)
  else inl BooleanIndexError.

(** [np.logical_or(m1, m2)] on one-dimensional arrays: an array of length
    one is stretched to the other. *)
Definition broadcast_or (m1 m2 : list bool) : numpy_error + list bool :=
  if Nat.eqb (length m1) (length m2) then inr (np.logical_or m1 m2)
  else match m1, m2 with
       | [b], _ => inr (map (orb b) m2)
       | _, [b] => inr (map (fun x => orb x b) m1)
       | _, _ => inl BroadcastError
       end.

(** [for channel in phas:
       this_mask = np.logical_or(this_mask, self._energies == channel)] *)
Fixpoint channel_mask (energies : list Z) (phas : list Z)
    (this_mask : list bool) : numpy_error + list bool :=
  match phas with
  | [] => inr this_mask
  | channel :: phas' =>
      match broadcast_or this_mask (map (fun e => Z.eqb e channel) energies)
      with
      | inr this_mask' => channel_mask energies phas' this_mask'
      | inl e => inl e
      end
  end.

(** [events[np.logical_and(events <= stop, events >= start)]] *)
Definition events_in_window (events : list Q) (start stop : Q) : list Q :=
  np.select events
    (np.logical_and (map (fun t => Qleb t stop) events)
                    (map (fun t => Qleb start t) events)).

(** The events of [bin_by_significance]. *)
Definition bin_by_significance_events (s : TimeSeries) (start stop : Q)
    (mask : option (list bool)) : numpy_error + list Q :=
  match
    match mask with
    | Some mask =>
        match boolean_index (range (_first_channel s) (_n_channels s)) mask
        with
        | inr phas =>
            match channel_mask (_energies s) phas
                    (replicate (length (_arrival_times s)) false)
            with
            | inr this_mask => boolean_index (_arrival_times s) this_mask
            | inl e => inl e
            end
        | inl e => inl e
        end
    | None => inr (_arrival_times s)
    end
  with
  | inr events => inr (events_in_window events start stop)
  | inl e => inl e
  end.

(** The events of [bin_by_constant] and of [bin_by_bayesian_blocks]:
    [self._arrival_times[np.logical_and(self._arrival_times >= start,
                                        self._arrival_times <= stop)]] *)
Definition bin_by_constant_events (s : TimeSeries) (start stop : Q)
    : list Q :=
  np.select (_arrival_times s)
    (np.logical_and (map (fun t => Qleb start t) (_arrival_times s))
                    (map (fun t => Qleb t stop) (_arrival_times s))).

(** ** Persistence *)

(** [HDFStore(path)] opens in append mode: a file that is not there is
    created empty. *)
Definition open_store (path : string) : M unit :=
  d ← get_fs;
  match d !! path with
  | Some _ => ret tt
  | None => put_fs (<[path := mkFile empty_store true]> d)
  end.

Definition read_store (path : string) : M HDFStore :=
  d ← get_fs;
  match d !! path with
  | Some f => ret (contents f)
  | None => raise (IOError path)
  end.

Definition write_store (path : string) (f : HDFStore -> HDFStore) : M unit :=
  d ← get_fs;
  put_fs (alter (fun fl => mkFile (f (contents fl)) (removable fl)) path d).

Definition put_coefficients (v : list (list pyfloat)) (s : HDFStore)
    : HDFStore :=
  mkHDFStore (Some v) (tbl_covariance s) (attr_metadata s).

Definition put_covariance (v : list (list (list pyfloat))) (s : HDFStore)
    : HDFStore :=
  mkHDFStore (tbl_coefficients s) (Some v) (attr_metadata s).

Definition put_metadata (v : Metadata) (s : HDFStore) : HDFStore :=
  mkHDFStore (tbl_coefficients s) (tbl_covariance s) (Some v).

(** [store[key]] *)
Definition table {A} (key : string) (t : option A) : M A :=
  match t with
  | Some v => ret v
  | None => raise (KeyError key)
  end.

(** [self._polynomials.append(p)] *)
Definition append_polynomial (p : Polynomial) (t : TimeSeries) : TimeSeries :=
  mkTimeSeries (_verbose t) (_n_channels t) (_first_channel t)
    (_native_quality t) (_time_intervals t) (_start_time t) (_stop_time t)
    (_instrument t) (_mission t) (_rsp_file t) (_user_poly_order t)
    (_time_selection_exists t) (_poly_fit_exists t) (_fit_method_info t)
    (_poly_intervals t)
    (option_map (fun ps => ps ++ [p]) (_polynomials t))
    (_optimal_polynomial_grade t)
    (_unbinned t) (_arrival_times t) (_energies t).

(** [poly_selections[:, k]] of [np.array(pairs)]: an empty list makes a
    one-dimensional array, which has no columns. *)
Definition column {A} (proj : Q * Q -> A) (pairs : list (Q * Q))
    : M (list A) :=
  match pairs with
  | [] => raise IndexError
  | _ => ret (map proj pairs)
  end.

Definition exists_message (path : string) : string :=
  "The file " +:+ path +:+ " already exists!".

Definition cannot_remove_message (path : string) : string :=
  "The file " +:+ path +:+
  " already exists and cannot be removed (maybe you do not have permissions to do so?). ".

Section Persistence.

Context `{Collaborators}.

(** The name of the file that [save_background filename] writes. *)
Definition saved_path (filename : string) : string :=
  sanitize_filename ((splitext filename).1 +:+ ".h5").

Definition save_background (filename : string) (overwrite : bool)
    : M unit :=
  emit (Entered "save_background");;
  let filename := (splitext filename).1 +:+ ".h5" in
  let filename_sanitized := sanitize_filename filename in
  d ← get_fs;
  match d !! filename_sanitized with
  | Some f =>
      if overwrite then
        if removable f then put_fs (delete filename_sanitized d)
        else raise (IOError (cannot_remove_message filename_sanitized))
      else raise (IOError (exists_message filename_sanitized))
  | None => ret tt
  end;;
  open_store filename_sanitized;;
  s ← get_self;
  '(coeff, err) ←
    (if _poly_fit_exists s then
       polys ← attr "_polynomials" _polynomials;
       ret (map coefficients polys, map covariance_matrix polys)
     else raise (RuntimeError "the polynomials have not been fit yet")
     : M (list (list pyfloat) * list (list (list pyfloat))));
  write_store filename_sanitized (put_coefficients coeff);;
  write_store filename_sanitized (put_covariance err);;
  grade ← attr "_optimal_polynomial_grade" _optimal_polynomial_grade;
  poly_intervals ← attr "_poly_intervals" _poly_intervals;
  unbinned ← attr "_unbinned" _unbinned;
  write_store filename_sanitized
    (put_metadata
       {| md_poly_order := grade;
          md_poly_selections :=
            zip (start_times poly_intervals) (stop_times poly_intervals);
          md_unbinned := unbinned;
          md_fit_method := fit_method (_fit_method_info s) |});;
  when (_verbose s)
    (print "\nSaved fitted background to %s.\n" [AStr filename]).

(** One turn of the loop of [restore_fit] over the stored rows. *)
Definition restore_row (coefficients : list (list pyfloat))
    (covariance : list (list (list pyfloat))) (i : nat) : M unit :=
  coeff ← table "coefficients.loc" (coefficients !! i);
  let coeff := List.filter isfinite coeff in
  cov ← table "covariance.loc" (covariance !! i);
  update_self (append_polynomial (from_previous_fit coeff cov)).

Definition restore_fit (filename : string) : M unit :=
  emit (Entered "restore_fit");;
  let filename_sanitized := sanitize_filename filename in
  open_store filename_sanitized;;
  store ← read_store filename_sanitized;
  coefficients ← table "coefficients" (tbl_coefficients store);
  covariance ← table "covariance" (tbl_covariance store);
  update_self (set_polynomials []);;
  for_each (seq 0 (length coefficients))
           (restore_row coefficients covariance);;
  metadata ← (match attr_metadata store with
              | Some m => ret m
              | None => raise (AttributeError "metadata")
              end : M Metadata);
  update_self (set_optimal_polynomial_grade (md_poly_order metadata));;
  starts ← column fst (md_poly_selections metadata);
  stops ← column snd (md_poly_selections metadata);
  update_self (set_poly_intervals (from_starts_and_stops starts stops));;
  update_self (set_unbinned (md_unbinned metadata));;
  update_self (fun t =>
    set_fit_method_info
      (mkFitMethodInfo
         (Some (if md_unbinned metadata then "unbinned" else "binned"))
         (fit_method (_fit_method_info t))) t);;
  update_self (fun t =>
    set_fit_method_info
      (mkFitMethodInfo (bin_type (_fit_method_info t))
                       (md_fit_method metadata)) t);;
  update_self (set_poly_fit_exists true);;
  recompute_active_selection.

End Persistence.

(** ** A small instrument to run the methods on

    Stand-ins for the collaborators, simple enough to evaluate: interval
    strings with integer bounds, an exposure equal to the elapsed time, a
    regression that returns the total of the counts as a constant
    polynomial and a fixed log-likelihood per grade. *)

Module Demo.

Definition is_digit (c : ascii) : bool :=
  let n := Ascii.nat_of_ascii c in
  (Nat.leb 48 n && Nat.leb n 57)%bool.

Fixpoint read_digits (acc : Z) (seen : bool) (s : string)
    : option (Z * string) :=
  match s with
  | String c s' =>
      if is_digit c then
        read_digits (10 * acc + Z.of_nat (Ascii.nat_of_ascii c - 48)) true s'
      else if seen then Some (acc, s) else None
  | EmptyString => if seen then Some (acc, s) else None
  end.

Definition minus_sign : ascii := Ascii.ascii_of_nat 45.

Definition read_int (s : string) : option (Z * string) :=
  match s with
  | String c s' =>
      if Ascii.eqb c minus_sign then
        match read_digits 0 false s' with
        | Some (z, r) => Some (- z, r)
        | None => None
        end
      else read_digits 0 false s
  | EmptyString => None
  end.

(** ["tmin-tmax"] *)
Definition read_interval (s : string) : option TimeInterval :=
  match read_int s with
  | Some (a, String c r) =>
      if Ascii.eqb c minus_sign then
        match read_int r with
        | Some (b, EmptyString) =>
            Some (mkTimeInterval (inject_Z a) (inject_Z b))
        | _ => None
        end
      else None
  | _ => None
  end.

Fixpoint read_intervals (l : list string) : result TimeIntervalSet :=
  match l with
  | [] => Return []
  | s :: l' =>
      match read_interval s, read_intervals l' with
      | Some iv, Return ivs => Return (iv :: ivs)
      | None, _ => Raise (RuntimeError "cannot read the interval")
      | _, Raise e => Raise e
      end
  end.

Definition show_interval (iv : TimeInterval) : string :=
  pretty (Qfloor (start_time iv)) +:+ "-" +:+ pretty (Qfloor (stop_time iv)).

Fixpoint show_intervals (s : TimeIntervalSet) : string :=
  match s with
  | [] => ""
  | [iv] => show_interval iv
  | iv :: s' => show_interval iv +:+ "," +:+ show_intervals s'
  end.

(** [os.path.splitext], for names without directories. *)
Fixpoint split_extension (s : string) : string * string :=
  match s with
  | EmptyString => (EmptyString, EmptyString)
  | String c s' =>
      let '(r, e) := split_extension s' in
      match e with
      | EmptyString =>
          if Ascii.eqb c (Ascii.ascii_of_nat 46)
          then (EmptyString, String c s')
          else (String c r, EmptyString)
      | _ => (String c r, e)
      end
  end.

Definition log_like_of_grade (grade : Z) : Q :=
  match grade with
  | 0 => 100
  | 1 => 90
  | 2 => 80
  | 3 => 79
  | _ => 78
  end.

Definition constant_fit (n : Z) (grade : Z) : Polynomial :=
  mkPolynomial
    (Fin (inject_Z n) :: replicate (Z.to_nat grade) (Fin 0))
    [[Fin 1]].

Definition first_coefficient (p : Polynomial) : Q :=
  match coefficients p with
  | Fin c :: _ => c
  | _ => 0
  end.

Definition activate (t : TimeSeries) (args : list string)
    : result unit * TimeSeries :=
  match read_intervals args with
  | Return ivs =>
      (Return tt,
       mkTimeSeries (_verbose t) (_n_channels t) (_first_channel t)
         (_native_quality t) (Some ivs) (_start_time t) (_stop_time t)
         (_instrument t) (_mission t) (_rsp_file t) (_user_poly_order t)
         true (_poly_fit_exists t) (_fit_method_info t)
         (_poly_intervals t) (_polynomials t) (_optimal_polynomial_grade t)
         (_unbinned t) (_arrival_times t) (_energies t))
  | Raise e => (Raise e, t)
  end.

#[export] Instance toy : Collaborators := {|
  polyfit := fun x y grade exposure =>
    (constant_fit (fold_left Z.add y 0) grade, log_like_of_grade grade);
  unbinned_polyfit := fun events grade t_start t_stop exposure =>
    (constant_fit (Z.of_nat (length events)) grade,
     log_like_of_grade grade);
  integral := fun p a b => (first_coefficient p * (b - a))%Q;
  integral_error := fun p a b => (b - a)%Q;
  error := fun p => map (fun row => default NaN (head row))
                        (covariance_matrix p);
  from_strings := read_intervals;
  to_string := show_intervals;
  exposure_over_interval := fun t a b => (b - a)%Q;
  set_active_time_intervals := activate;
  binned_fit_method := "bayes";
  unbinned_fit_method := "mle";
  sanitize_filename := fun s => s;
  splitext := split_extension;
  np_sqrt := fun q => (Z.sqrt (Qnum q) # Pos.sqrt (Qden q))%Q
|}.

(** Two channels, events between [0] and [100]. *)
Definition fresh : TimeSeries :=
  match (__init__ 0 100 2 None 0 None (Some "demo") (Some "DET") false
                  [5; 6; 20; 55; 60; 70; 99]%Q
                  [0; 1; 0; 1; 0; 0; 1]).1 with
  | Return t => t
  | Raise _ => mkTimeSeries false 0 0 None None 0 0 "" "" None 0 false
                 false (mkFitMethodInfo None None) None None None None [] []
  end.

Definition world0 : World := mkWorld fresh ∅ [].

(** After a binned fit on two intervals inside the data; no active
    selection has been made. *)
Definition fitted_world : World :=
  (set_polynomial_fit_interval ["0-50"; "60-100"]
     {[ "unbinned" := PyBool false ]} world0).2.

(** The same object with the order set to 2 before any fit. *)
Definition order2_world : World :=
  mkWorld (set_poly_intervals [mkTimeInterval 0 50]
             (set_user_poly_order 2 fresh)) ∅ [].

(** After a call that gave no interval at all. *)
Definition no_interval_world : World :=
  (set_polynomial_fit_interval [] ∅ world0).2.

(** The fitted object next to a file that cannot be removed. *)
Definition locked_world : World :=
  mkWorld (self fitted_world)
          {[ "bkg.h5" := mkFile empty_store false ]} [].

End Demo.

(** ** Further states of the small instrument *)

Module DemoStates.

Import Demo.

(** The aggregate bounds of a set: the first start and the last stop. *)
#[export] Instance toy_bounds : IntervalSetBounds := {|
  absolute_start_time := fun s => default 0%Q (head (start_times s));
  absolute_stop_time := fun s => default 0%Q (last (stop_times s))
|}.

(** The fit of [fitted_world] and the intervals it was made on. *)
Definition fitted_polynomials : list Polynomial :=
  [mkPolynomial [Fin 4; Fin 0; Fin 0] [[Fin 1]];
   mkPolynomial [Fin 2; Fin 0; Fin 0] [[Fin 1]]].

Definition fitted_intervals : TimeIntervalSet :=
  [mkTimeInterval 0 50; mkTimeInterval 60 100].

(** The fitted object with the selection 10-20 active. *)
Definition selected_world : World :=
  (call_set_active_time_intervals ["10-20"] fitted_world).2.

(** The fitted object saved to "bkg.h5", and a fresh object next to that
    file. *)
Definition saved_world : World :=
  (save_background "bkg" false fitted_world).2.

Definition reader_world : World := mkWorld fresh (fs saved_world) [].

Definition saved_metadata : Metadata :=
  mkMetadata 2 [(0, 50); (60, 100)]%Q false (Some "bayes").

Definition saved_file : file :=
  mkFile (mkHDFStore (Some (map coefficients fitted_polynomials))
            (Some (map covariance_matrix fitted_polynomials))
            (Some saved_metadata)) true.

(** Counts per channel in the selection: the polynomial of the second
    channel gives a negative count. *)
Definition products : SelectionProducts :=
  mkSelectionProducts [3; 1]%Q [40; -20]%Q [2; 1]%Q 10.

(** Two channels numbered from 1, and a binned fit on them. *)
Definition fresh_from_one : TimeSeries :=
  match (__init__ 0 100 2 None 1 None (Some "demo") (Some "DET") false
                  [5; 6; 20; 55; 60; 70; 99]%Q
                  [1; 2; 1; 2; 1; 1; 2]).1 with
  | Return t => t
  | Raise _ => fresh
  end.

Definition fitted_from_one : World :=
  (set_polynomial_fit_interval ["0-50"; "60-100"]
     {[ "unbinned" := PyBool false ]} (mkWorld fresh_from_one ∅ [])).2.




End DemoStates.

(** * Properties *)

(** ** Stepping through a method *)

Ltac unfold_M :=
  unfold when, warn, print, mbind, M_bind, mret, M_ret, bind, ret, raise,
    emit, update_self, get_self, get_fs, put_fs, attr, lift_result,
    first_item, table in *.

Lemma bind_Return {A B} (m : M A) (k : A -> M B) w a w' :
  m w = (Return a, w') -> (m ≫= k) w = k a w'.
Proof. intros E. unfold mbind, M_bind, bind. now rewrite E. Qed.

Lemma bind_Raise {A B} (m : M A) (k : A -> M B) w e w' :
  m w = (Raise e, w') -> (m ≫= k) w = (Raise e, w').
Proof. intros E. unfold mbind, M_bind, bind. now rewrite E. Qed.

(** ** Grade selection (C3) *)

(** The last position that [nonzero] reports is the largest position that
    is set. *)
Lemma nonzero_from_last (mask : list bool) (s d : nat) :
  (np.nonzero_from s mask = [] /\ forall j, mask !! j <> Some true)
  \/ (exists k,
        mask !! k = Some true
        /\ (forall j, (k < j)%nat -> mask !! j <> Some true)
        /\ np.nonzero_from s mask <> []
        /\ List.last (np.nonzero_from s mask) d = (s + k)%nat).
Proof.
  revert s. induction mask as [|b mask IH]; intros s.
  - left. split; [reflexivity|]. intros j. now destruct j.
  - destruct (IH (S s)) as [[Hnil Hnone]|(k & Hk & Hlater & Hne & Hlast)].
    + destruct b; simpl; rewrite Hnil.
      * right. exists 0%nat. split; [reflexivity|]. split; [|split].
        -- intros [|j] Hj; [lia|]. simpl. apply Hnone.
        -- easy.
        -- simpl. lia.
      * left. split; [reflexivity|]. intros [|j]; simpl; [easy|apply Hnone].
    + right. exists (S k). simpl. split; [exact Hk|]. split.
      * intros [|j] Hj; [lia|]. simpl. apply Hlater. lia.
      * destruct b.
        -- split; [easy|].
           destruct (np.nonzero_from (S s) mask) eqn:E; [easy|].
           simpl in *. rewrite Hlast. lia.
        -- split; [exact Hne|]. rewrite Hlast. lia.
Qed.

(** The likelihood-ratio statistic between the grades [k] and [k + 1]. *)
Definition D (L : nat -> Q) (k : nat) : Q := (2 * (L k - L (S k)))%Q.

(** [g] is the largest [k + 1], [k] from 0 to 3, whose statistic reaches the
    threshold, and 0 when none does. *)
Definition largest_significant (L : nat -> Q) (g : Z) : Prop :=
  (g = 0 /\ forall k, (k < 4)%nat -> ~ (9 <= D L k)%Q)
  \/ (exists k, (k < 4)%nat /\ g = Z.of_nat k + 1 /\ (9 <= D L k)%Q
                /\ forall j, (k < j < 4)%nat -> ~ (9 <= D L j)%Q).

Lemma best_grade_largest (L : nat -> Q) :
  largest_significant L (best_grade [L 0; L 1; L 2; L 3; L 4]%nat).
Proof.
  unfold best_grade, np.nonzero.
  set (mask := map (fun d => Qleb delta_threshold d)
                   (delta_loglike [L 0; L 1; L 2; L 3; L 4]%nat)).
  assert (Hmask : forall k, (k < 4)%nat ->
            mask !! k = Some (Qleb 9 (D L k))).
  { intros k Hk. do 4 (destruct k as [|k]; [reflexivity|]). lia. }
  assert (Hout : forall k, (4 <= k)%nat -> mask !! k = None).
  { intros k Hk. do 4 (destruct k as [|k]; [lia|]). reflexivity. }
  destruct (nonzero_from_last mask 0 0)
    as [[Hnil Hnone]|(k & Hk & Hlater & Hne & Hlast)].
  - rewrite Hnil. simpl. left. split; [reflexivity|].
    intros k Hk Hle. apply (Hnone k). rewrite (Hmask k Hk).
    f_equal. now apply Qleb_le.
  - destruct (np.nonzero_from 0 mask) as [|i l] eqn:E; [easy|].
    change (Nat.eqb (length (i :: l)) 0) with false. cbv iota.
    rewrite Hlast. right. exists k.
    assert (Hk4 : (k < 4)%nat).
    { destruct (Nat.lt_ge_cases k 4) as [?|Hge]; [easy|].
      rewrite (Hout k Hge) in Hk. discriminate. }
    split; [exact Hk4|]. split; [simpl; lia|]. split.
    + rewrite (Hmask k Hk4) in Hk. apply Qleb_le. congruence.
    + intros j [Hkj Hj4] Hle. apply (Hlater j Hkj).
      rewrite (Hmask j Hj4). f_equal. now apply Qleb_le.
Qed.

Section GradeSelection.

Context `{Collaborators}.

(** C3. With the log-likelihoods of the fits of grades 0 to 4 in hand,
    both grade selectors, the binned and the unbinned one, return the
    largest [k + 1] (for [k] from 0 to 3) whose statistic
    [D_k = 2 * (L_k - L_(k+1))] is at least 9, and return 0 when no
    statistic reaches 9. The unbinned selector reads the stored
    background intervals, so they have to be there. *)
Theorem grade_selectors_pick_largest_significant
    (cnts : list Z) (bins exposure events : list Q) (total_exposure : Q)
    (w : World) (ivs : TimeIntervalSet) :
  _poly_intervals (self w) = Some ivs ->
  (exists g,
     (_fit_global_and_determine_optimum_grade cnts bins exposure w).1
       = Return g
     /\ largest_significant
          (fun k => (polyfit bins cnts (Z.of_nat k) exposure).2) g)
  /\ (exists g,
        (_unbinned_fit_global_and_determine_optimum_grade
           events total_exposure w).1 = Return g
        /\ largest_significant
             (fun k => (unbinned_polyfit events (Z.of_nat k)
                          (start_times ivs) (stop_times ivs)
                          total_exposure).2) g).
Proof.
  intros Hivs. split.
  - eexists. split; [reflexivity|].
    apply (best_grade_largest
             (fun k => (polyfit bins cnts (Z.of_nat k) exposure).2)).
  - unfold _unbinned_fit_global_and_determine_optimum_grade.
    unfold_M. simpl. rewrite Hivs. eexists. split; [reflexivity|].
    apply (best_grade_largest
             (fun k => (unbinned_polyfit events (Z.of_nat k)
                          (start_times ivs) (stop_times ivs)
                          total_exposure).2)).
Qed.

End GradeSelection.

(** ** Totals over the fitted polynomials (C7) *)

(** The sum of a list of numbers. *)
Definition Qsum (l : list Q) : Q := foldr Qplus 0%Q l.

Lemma fold_left_Qsum {A} (f : A -> Q) (l : list A) (acc : Q) :
  (fold_left (fun total p => total + f p) l acc == acc + Qsum (map f l))%Q.
Proof.
  revert acc. induction l as [|p l IH]; intros acc; simpl.
  - ring.
  - rewrite IH. ring.
Qed.

Lemma select_ones_like {A} (l : list A) : np.select l (np.ones_like l) = l.
Proof.
  unfold np.ones_like. induction l as [|x l IH]; simpl; [|rewrite IH]; easy.
Qed.

Section Totals.

Context `{Collaborators}.

Lemma masked_polynomials_ok w polys mask :
  _polynomials (self w) = Some polys ->
  (forall m, mask = Some m -> length m = length polys) ->
  masked_polynomials mask w
    = (Return (np.select polys (default (np.ones_like polys) mask)), w).
Proof.
  intros Hp Hlen. unfold masked_polynomials. unfold_M.
  destruct mask as [m|]; rewrite Hp; cbn beta iota; rewrite ?Hp;
    cbn beta iota.
  - rewrite (Hlen m eq_refl), Nat.eqb_refl. reflexivity.
  - unfold np.ones_like at 1. rewrite length_replicate, Nat.eqb_refl.
    reflexivity.
Qed.

(** C7. Once polynomials are installed, for every interval [start, stop]
    and every channel mask of the length of the channel list (no mask
    stands for all channels), [get_total_poly_count] returns the sum of
    [integral(start, stop)] over the selected channels, and
    [get_total_poly_error] returns the square root of the sum of the
    squares of [integral_error(start, stop)] over the selected
    channels. *)
Theorem total_poly_count_and_error_over_selected
    (w : World) (polys : list Polynomial) (start stop : Q)
    (mask : option (list bool)) :
  _polynomials (self w) = Some polys ->
  (forall m, mask = Some m -> length m = length polys) ->
  let selected := np.select polys (default (np.ones_like polys) mask) in
  (mask = None -> selected = polys)
  /\ (exists total,
        (get_total_poly_count start stop mask w).1 = Return total
        /\ (total == Qsum (map (fun p => integral p start stop) selected))%Q)
  /\ (exists squares,
        (get_total_poly_error start stop mask w).1
          = Return (np_sqrt squares)
        /\ (squares ==
            Qsum (map (fun p => integral_error p start stop ^ 2) selected))%Q).
Proof.
  intros Hp Hlen selected. split; [|split].
  - intros ->. apply select_ones_like.
  - unfold get_total_poly_count.
    rewrite (bind_Return _ _ w tt
               (mkWorld (self w) (fs w)
                  (log w ++ [Entered "get_total_poly_count"])) eq_refl).
    erewrite bind_Return by (apply masked_polynomials_ok; eassumption).
    eexists. split; [reflexivity|].
    rewrite fold_left_Qsum. fold selected. ring.
  - unfold get_total_poly_error.
    rewrite (bind_Return _ _ w tt
               (mkWorld (self w) (fs w)
                  (log w ++ [Entered "get_total_poly_error"])) eq_refl).
    erewrite bind_Return by (apply masked_polynomials_ok; eassumption).
    eexists. split; [reflexivity|].
    rewrite (fold_left_Qsum (fun p => integral_error p start stop ^ 2)%Q).
    fold selected. ring.
Qed.

End Totals.

(** ** Reading fit products before a fit (C4) *)

Section NoFit.

Context `{Collaborators}.

(** C4. While no fit exists, [get_poly_info] does not raise: the
    [RuntimeError] is built and dropped, and the call returns [None]. *)
Theorem get_poly_info_without_fit_returns_None (w : World) :
  _poly_fit_exists (self w) = false ->
  get_poly_info w
    = (Return None,
       mkWorld (self w) (fs w) (log w ++ [Entered "get_poly_info"])).
Proof.
  intros Hfit. unfold get_poly_info. unfold_M. simpl. now rewrite Hfit.
Qed.

(** The totals do raise while the polynomials are missing, with the
    interpreter's [AttributeError]. *)
Lemma totals_without_polynomials_raise (w : World) start stop mask :
  _polynomials (self w) = None ->
  (get_total_poly_count start stop mask w).1
    = Raise (AttributeError "_polynomials")
  /\ (get_total_poly_error start stop mask w).1
    = Raise (AttributeError "_polynomials").
Proof.
  intros Hp. unfold get_total_poly_count, get_total_poly_error,
    masked_polynomials. unfold_M.
  destruct mask; simpl; rewrite Hp; easy.
Qed.

(** The [polynomials] property has the same shape as [get_poly_info]. *)
Lemma polynomials_without_fit_returns_None (w : World) :
  _poly_fit_exists (self w) = false -> polynomials w = (Return None, w).
Proof.
  intros Hfit. unfold polynomials. unfold_M. now rewrite Hfit.
Qed.

End NoFit.

(** ** Changing the polynomial order (C5) *)

Definition refit_message : string :=
  "Refitting background with new polynomial order (%d) and existing selections".

Section PolyOrder.

Context `{Collaborators}.

Lemma order_in_range (v : Z) :
  -1 <= v <= 4 -> Z.leb (-1) v && Z.leb v 4 = true.
Proof.
  intros [? ?]. apply andb_true_iff. split; now apply Z.leb_le.
Qed.

(** C5. A fit exists and no active time selection does: setting the order
    stores the new order, prints that the background is being refitted,
    and returns. No fit routine is entered; the polynomials and the grade
    in use stay those of the earlier fit. *)
Theorem set_poly_order_without_selection_does_not_refit
    (w : World) (v : Z) :
  _poly_fit_exists (self w) = true ->
  _time_selection_exists (self w) = false ->
  -1 <= v <= 4 ->
  __set_poly_order (PyInt v) w
    = (Return tt,
       mkWorld (set_user_poly_order v (self w)) (fs w)
         (log w ++ [Entered "__set_poly_order";
                    Printed refit_message [AInt v]])).
Proof.
  intros Hfit Hsel Hv. unfold __set_poly_order. unfold_M. simpl.
  rewrite (order_in_range v Hv). simpl. rewrite Hfit, Hsel.
  cbn [self fs log]. rewrite <- app_assoc. reflexivity.
Qed.

(** With an active time selection the order change does refit, on the
    stored intervals printed and read again, in the stored mode. *)
Lemma set_poly_order_with_selection_refits
    (w : World) (v : Z) (ivs : TimeIntervalSet) (b : bool) :
  _poly_fit_exists (self w) = true ->
  _time_selection_exists (self w) = true ->
  _poly_intervals (self w) = Some ivs ->
  _unbinned (self w) = Some b ->
  -1 <= v <= 4 ->
  __set_poly_order (PyInt v) w
    = set_polynomial_fit_interval
        (split_on comma (to_string ivs)) {[ "unbinned" := PyBool b ]}
        (mkWorld (set_user_poly_order v (self w)) (fs w)
           (log w ++ [Entered "__set_poly_order";
                      Printed refit_message [AInt v]])).
Proof.
  intros Hfit Hsel Hivs Hb Hv. unfold __set_poly_order. unfold_M. simpl.
  rewrite (order_in_range v Hv). simpl. rewrite Hfit, Hsel. simpl.
  rewrite Hivs. simpl. rewrite Hb. simpl.
  rewrite <- app_assoc. reflexivity.
Qed.

End PolyOrder.

(** ** The events of a run *)

(** What a computation appended to the log when run from [w]. *)
Definition events_during {A} (m : M A) (w : World) : list event :=
  drop (length (log w)) (log (m w).2).

Lemma events_during_app {A} (m : M A) (w : World) (evs : list event) :
  log (m w).2 = log w ++ evs -> events_during m w = evs.
Proof. intros E. unfold events_during. rewrite E. apply drop_app_length. Qed.

Definition binned_selector : string :=
  "_fit_global_and_determine_optimum_grade".
Definition unbinned_selector : string :=
  "_unbinned_fit_global_and_determine_optimum_grade".

(** The object after a fit has installed its products on [t]. *)
Definition install_fit (bin method : string) (grade : Z)
    (polys : list Polynomial) (t : TimeSeries) : TimeSeries :=
  set_polynomials polys
    (set_optimal_polynomial_grade grade
       (set_fit_method_info (mkFitMethodInfo (Some bin) (Some method))
          (set_poly_fit_exists true t))).

(** The object after a fit has started on [t] and stopped before the grade
    is chosen. *)
Definition start_fit (bin method : string) (t : TimeSeries) : TimeSeries :=
  set_fit_method_info (mkFitMethodInfo (Some bin) (Some method))
    (set_poly_fit_exists true t).

Definition auto_message : string := "Auto-determined polynomial order: %d".

Lemma Forall_map_intro {A B} (P : B -> Prop) (f : A -> B) (l : list A) :
  (forall x, P (f x)) -> Forall P (map f l).
Proof. intros HP. induction l; simpl; constructor; auto. Qed.

Lemma length_range (a n : Z) : length (range a (n + a)) = Z.to_nat n.
Proof.
  unfold range. rewrite length_map, length_seq. f_equal. lia.
Qed.

Ltac flatten_log := repeat rewrite <- app_assoc; cbn [app].

Ltac log_le := cbn [self fs log]; rewrite ?length_app; simpl; lia.

(** Stepping through a sequence of binds, one computation at a time. *)
Lemma attr_Some {A} name (field : TimeSeries -> option A) w a :
  field (self w) = Some a -> attr name field w = (Return a, w).
Proof. intros E. unfold attr. now rewrite E. Qed.

Lemma attr_None {A} name (field : TimeSeries -> option A) w :
  field (self w) = None ->
  attr name field w = (Raise (AttributeError name), w).
Proof. intros E. unfold attr. now rewrite E. Qed.

Ltac step_with tac :=
  etransitivity; [apply bind_Return; tac|cbv beta zeta].
Ltac step_ok := step_with ltac:(reflexivity).
Ltac step_attr E := step_with ltac:(apply attr_Some; exact E).
Ltac stop_with tac := etransitivity; [apply bind_Raise; tac|].

(** Projections of the records met along the way. *)
Ltac proj_norm :=
  cbn [self fs log _verbose _n_channels _first_channel _native_quality
       _time_intervals _start_time _stop_time _instrument _mission _rsp_file
       _user_poly_order _time_selection_exists _poly_fit_exists
       _fit_method_info _poly_intervals _polynomials
       _optimal_polynomial_grade _unbinned _arrival_times _energies
       set_user_poly_order set_poly_fit_exists set_fit_method_info
       set_poly_intervals set_polynomials set_optimal_polynomial_grade
       set_unbinned bin_type fit_method].

Section Fits.

Context `{Collaborators}.

(** What a binned fit over at least one interval does. *)
Lemma fit_polynomials_runs (w : World) iv ivs :
  _poly_intervals (self w) = Some (iv :: ivs) ->
  exists g polys evs,
    _fit_polynomials w
      = (Return tt,
         mkWorld (install_fit "Binned" binned_fit_method g polys (self w))
           (fs w) (log w ++ Entered "_fit_polynomials" :: evs))
    /\ length polys = Z.to_nat (_n_channels (self w))
    /\ Forall (fun p => exists x y e, p = (polyfit x y g e).1) polys
    /\ (if Z.eqb (_user_poly_order (self w)) (-1)
        then evs = Entered binned_selector
                     :: (if _verbose (self w)
                         then [Printed auto_message [AInt g]] else [])
        else evs = [] /\ g = _user_poly_order (self w)).
Proof.
  intros Hivs.
  destruct (Z.eqb (_user_poly_order (self w)) (-1)) eqn:E;
    [destruct (_verbose (self w)) eqn:V|];
    (eexists _, _, _; split;
     [ unfold _fit_polynomials;
       do 5 step_ok; step_attr Hivs; step_ok;
       unfold np.histogram; cbv beta iota zeta;
       step_ok; proj_norm; rewrite E;
       first
         [ step_with ltac:(step_ok; step_ok; proj_norm; rewrite V;
                           reflexivity)
         | step_ok ];
       step_ok; proj_norm; unfold update_self; proj_norm; flatten_log;
       reflexivity
     | ]);
    (split; [rewrite length_map; apply length_range|]);
    (split; [apply Forall_map_intro; intros ch; eexists _, _, _;
             reflexivity|]);
    try reflexivity.
  split; reflexivity.
Qed.

(** What an unbinned fit over at least one interval does. *)
Lemma unbinned_fit_polynomials_runs (w : World) iv ivs :
  _poly_intervals (self w) = Some (iv :: ivs) ->
  exists g polys evs,
    _unbinned_fit_polynomials w
      = (Return tt,
         mkWorld
           (install_fit "Unbinned" unbinned_fit_method g polys (self w))
           (fs w) (log w ++ Entered "_unbinned_fit_polynomials" :: evs))
    /\ length polys = Z.to_nat (_n_channels (self w))
    /\ Forall (fun p => exists ev ts te x,
                         p = (unbinned_polyfit ev g ts te x).1) polys
    /\ (if Z.eqb (_user_poly_order (self w)) (-1)
        then evs = Entered unbinned_selector
                     :: (if _verbose (self w)
                         then [Printed auto_message [AInt g]] else [])
        else evs = [] /\ g = _user_poly_order (self w)).
Proof.
  intros Hivs.
  destruct (Z.eqb (_user_poly_order (self w)) (-1)) eqn:E;
    [destruct (_verbose (self w)) eqn:V|];
    (eexists _, _, _; split;
     [ unfold _unbinned_fit_polynomials;
       do 5 step_ok; step_attr Hivs; step_ok;
       proj_norm; rewrite E;
       first
         [ step_with ltac:(
             step_with ltac:(
               unfold _unbinned_fit_global_and_determine_optimum_grade;
               step_ok; step_attr Hivs; reflexivity);
             step_ok; proj_norm; rewrite V; reflexivity)
         | step_ok ];
       step_ok; step_attr Hivs;
       proj_norm; unfold update_self; proj_norm; flatten_log;
       reflexivity
     | ]);
    (split; [rewrite length_map; apply length_range|]);
    (split; [apply Forall_map_intro; intros ch; eexists _, _, _, _;
             reflexivity|]);
    try reflexivity.
  split; reflexivity.
Qed.

(** What both fits do when there is no interval to fit on. *)
Lemma fit_polynomials_no_interval (w : World) :
  _poly_intervals (self w) = Some [] ->
  _fit_polynomials w
    = (Raise IndexError,
       mkWorld (start_fit "Binned" binned_fit_method (self w)) (fs w)
         (log w ++ [Entered "_fit_polynomials"])).
Proof.
  intros Hivs. unfold _fit_polynomials.
  do 5 step_ok. step_attr Hivs. stop_with ltac:(reflexivity). reflexivity.
Qed.

Lemma unbinned_fit_polynomials_no_interval (w : World) :
  _poly_intervals (self w) = Some [] ->
  _unbinned_fit_polynomials w
    = (Raise IndexError,
       mkWorld (start_fit "Unbinned" unbinned_fit_method (self w)) (fs w)
         (log w ++ [Entered "_unbinned_fit_polynomials"])).
Proof.
  intros Hivs. unfold _unbinned_fit_polynomials.
  do 5 step_ok. step_attr Hivs. stop_with ltac:(reflexivity). reflexivity.
Qed.

Lemma fit_polynomials_no_attribute (w : World) :
  _poly_intervals (self w) = None ->
  _fit_polynomials w
    = (Raise (AttributeError "_poly_intervals"),
       mkWorld (start_fit "Binned" binned_fit_method (self w)) (fs w)
         (log w ++ [Entered "_fit_polynomials"])).
Proof.
  intros Hivs. unfold _fit_polynomials.
  do 5 step_ok. stop_with ltac:(apply attr_None; exact Hivs). reflexivity.
Qed.

Lemma unbinned_fit_polynomials_no_attribute (w : World) :
  _poly_intervals (self w) = None ->
  _unbinned_fit_polynomials w
    = (Raise (AttributeError "_poly_intervals"),
       mkWorld (start_fit "Unbinned" unbinned_fit_method (self w)) (fs w)
         (log w ++ [Entered "_unbinned_fit_polynomials"])).
Proof.
  intros Hivs. unfold _unbinned_fit_polynomials.
  do 5 step_ok. stop_with ltac:(apply attr_None; exact Hivs). reflexivity.
Qed.

End Fits.

(** ** An explicit degree is used as it is (C9) *)

Section ExplicitDegree.

Context `{Collaborators}.

(** C9. With a stored order [d] between 0 and 4 and at least one
    background interval, the binned and the unbinned fit each return,
    enter no grade selector (the only event of the run is the entry of
    the fit itself), store [d] as the grade in use and install one
    polynomial per channel, each the regression of grade [d]. And whenever
    a run of a fit enters its grade selector, the stored order is -1. *)
Theorem explicit_degree_skips_grade_selection
    (w : World) (d : Z) (iv : TimeInterval) (ivs : list TimeInterval) :
  0 <= d <= 4 ->
  _user_poly_order (self w) = d ->
  _poly_intervals (self w) = Some (iv :: ivs) ->
  ((_fit_polynomials w).1 = Return tt
   /\ events_during _fit_polynomials w = [Entered "_fit_polynomials"]
   /\ _optimal_polynomial_grade (self (_fit_polynomials w).2) = Some d
   /\ exists polys,
        _polynomials (self (_fit_polynomials w).2) = Some polys
        /\ length polys = Z.to_nat (_n_channels (self w))
        /\ Forall (fun p => exists x y e, p = (polyfit x y d e).1) polys)
  /\ ((_unbinned_fit_polynomials w).1 = Return tt
      /\ events_during _unbinned_fit_polynomials w
           = [Entered "_unbinned_fit_polynomials"]
      /\ _optimal_polynomial_grade (self (_unbinned_fit_polynomials w).2)
           = Some d
      /\ exists polys,
           _polynomials (self (_unbinned_fit_polynomials w).2) = Some polys
           /\ length polys = Z.to_nat (_n_channels (self w))
           /\ Forall (fun p => exists ev ts te x,
                                p = (unbinned_polyfit ev d ts te x).1)
                     polys)
  /\ (forall w0,
        (In (Entered binned_selector) (events_during _fit_polynomials w0)
         -> _user_poly_order (self w0) = -1)
        /\ (In (Entered unbinned_selector)
               (events_during _unbinned_fit_polynomials w0)
            -> _user_poly_order (self w0) = -1)).
Proof.
  intros Hd Hord Hivs.
  assert (Hne : Z.eqb (_user_poly_order (self w)) (-1) = false)
    by (apply Z.eqb_neq; lia).
  split; [|split].
  - destruct (fit_polynomials_runs w iv ivs Hivs)
      as (g & polys & evs & Hrun & Hlen & Hall & Hev).
    rewrite Hne in Hev. destruct Hev as [-> ->].
    rewrite (events_during_app _ w [Entered "_fit_polynomials"])
      by now rewrite Hrun.
    rewrite Hrun. simpl. rewrite Hord in *. eauto 10.
  - destruct (unbinned_fit_polynomials_runs w iv ivs Hivs)
      as (g & polys & evs & Hrun & Hlen & Hall & Hev).
    rewrite Hne in Hev. destruct Hev as [-> ->].
    rewrite (events_during_app _ w [Entered "_unbinned_fit_polynomials"])
      by now rewrite Hrun.
    rewrite Hrun. simpl. rewrite Hord in *. eauto 10.
  - intros w0. split; intros Hin.
    + destruct (_poly_intervals (self w0)) as [[|iv0 ivs0]|] eqn:E.
      * rewrite (events_during_app _ w0 [Entered "_fit_polynomials"]) in Hin
          by now rewrite (fit_polynomials_no_interval w0 E).
        destruct Hin as [Hin|[]]. discriminate Hin.
      * destruct (fit_polynomials_runs w0 iv0 ivs0 E)
          as (g & polys & evs & Hrun & _ & _ & Hev).
        destruct (Z.eqb (_user_poly_order (self w0)) (-1)) eqn:E1;
          [now apply Z.eqb_eq|].
        destruct Hev as [-> _].
        rewrite (events_during_app _ w0 [Entered "_fit_polynomials"]) in Hin
          by now rewrite Hrun.
        destruct Hin as [Hin|[]]. discriminate Hin.
      * rewrite (events_during_app _ w0 [Entered "_fit_polynomials"]) in Hin
          by now rewrite (fit_polynomials_no_attribute w0 E).
        destruct Hin as [Hin|[]]. discriminate Hin.
    + destruct (_poly_intervals (self w0)) as [[|iv0 ivs0]|] eqn:E.
      * rewrite (events_during_app _ w0
                   [Entered "_unbinned_fit_polynomials"]) in Hin
          by now rewrite (unbinned_fit_polynomials_no_interval w0 E).
        destruct Hin as [Hin|[]]. discriminate Hin.
      * destruct (unbinned_fit_polynomials_runs w0 iv0 ivs0 E)
          as (g & polys & evs & Hrun & _ & _ & Hev).
        destruct (Z.eqb (_user_poly_order (self w0)) (-1)) eqn:E1;
          [now apply Z.eqb_eq|].
        destruct Hev as [-> _].
        rewrite (events_during_app _ w0
                   [Entered "_unbinned_fit_polynomials"]) in Hin
          by now rewrite Hrun.
        destruct Hin as [Hin|[]]. discriminate Hin.
      * rewrite (events_during_app _ w0
                   [Entered "_unbinned_fit_polynomials"]) in Hin
          by now rewrite (unbinned_fit_polynomials_no_attribute w0 E).
        destruct Hin as [Hin|[]]. discriminate Hin.
Qed.

End ExplicitDegree.

(** ** Fitting on an empty interval set (C6) *)

(** An error that the class raises itself, with a message for the caller;
    the others are raised by the interpreter on a failed access. *)
Definition descriptive (e : exn) : bool :=
  match e with
  | AssertionError _ | RuntimeError _ | IOError _ => true
  | IndexError | AttributeError _ | KeyError _ => false
  end.

Section EmptyIntervals.

Context `{Collaborators}.

(** C6, as the code has it. On an empty background interval set both
    fits fail: they raise [IndexError], from reading the first of an empty
    list of masks, and install nothing: the polynomials and the grade in
    use stay what they were. *)
Theorem fit_on_empty_interval_set_raises_IndexError (w : World) :
  _poly_intervals (self w) = Some [] ->
  ((_fit_polynomials w).1 = Raise IndexError
   /\ _polynomials (self (_fit_polynomials w).2) = _polynomials (self w)
   /\ _optimal_polynomial_grade (self (_fit_polynomials w).2)
        = _optimal_polynomial_grade (self w))
  /\ ((_unbinned_fit_polynomials w).1 = Raise IndexError
      /\ _polynomials (self (_unbinned_fit_polynomials w).2)
           = _polynomials (self w)
      /\ _optimal_polynomial_grade (self (_unbinned_fit_polynomials w).2)
           = _optimal_polynomial_grade (self w)).
Proof.
  intros Hivs.
  rewrite (fit_polynomials_no_interval w Hivs),
    (unbinned_fit_polynomials_no_interval w Hivs).
  simpl. easy.
Qed.

End EmptyIntervals.

(** ** Which events a computation can emit *)

(** Every event that [m] appends to the log, from any world, satisfies
    [P]. *)
Definition only (P : event -> Prop) {A} (m : M A) : Prop :=
  forall w, exists evs, log (m w).2 = log w ++ evs /\ Forall P evs.

Create HintDb only discriminated.

Section Only.

Variable P : event -> Prop.

Lemma only_quiet {A} (m : M A) :
  (forall w, log (m w).2 = log w) -> only P m.
Proof.
  intros Hq w. exists []. rewrite app_nil_r. split; [apply Hq|constructor].
Qed.

Lemma only_ret {A} (a : A) : only P (mret a).
Proof. now apply only_quiet. Qed.

Lemma only_ret' {A} (a : A) : only P (ret a).
Proof. now apply only_quiet. Qed.

Lemma only_raise {A} (e : exn) : only P (@raise A e).
Proof. now apply only_quiet. Qed.

Lemma only_get_self : only P get_self.
Proof. now apply only_quiet. Qed.

Lemma only_update_self f : only P (update_self f).
Proof. now apply only_quiet. Qed.

Lemma only_lift_result {A} (r : result A) : only P (lift_result r).
Proof. now apply only_quiet. Qed.

Lemma only_attr {A} name (field : TimeSeries -> option A) :
  only P (attr name field).
Proof.
  apply only_quiet. intros w. unfold attr. now destruct (field (self w)).
Qed.

Lemma only_first_item {A} (l : list A) : only P (first_item l).
Proof. destruct l; now apply only_quiet. Qed.

Lemma only_emit e : P e -> only P (emit e).
Proof. intros He w. exists [e]. split; [reflexivity|]. now constructor. Qed.

Lemma only_bind {A B} (m : M A) (k : A -> M B) :
  only P m -> (forall a, only P (k a)) -> only P (m ≫= k).
Proof.
  intros Hm Hk w. destruct (Hm w) as (e1 & E1 & F1).
  unfold mbind, M_bind, bind. destruct (m w) as [[a|e] w1]; simpl in *.
  - destruct (Hk a w1) as (e2 & E2 & F2). exists (e1 ++ e2).
    rewrite E2, E1, app_assoc. split; [reflexivity|].
    apply Forall_app. easy.
  - exists e1. easy.
Qed.

Lemma only_when b m : only P m -> only P (when b m).
Proof. intros Hm. destruct b; [exact Hm|apply only_ret']. Qed.

Lemma only_for_each {A} (l : list A) body :
  (forall x, only P (body x)) -> only P (for_each l body).
Proof.
  intros Hb. induction l as [|x l IH]; simpl.
  - apply only_ret'.
  - apply only_bind; [apply Hb|intros _; exact IH].
Qed.

End Only.

#[export] Hint Resolve only_ret only_ret' only_raise only_get_self
  only_update_self only_lift_result only_attr only_first_item : only.

Ltac only_steps :=
  repeat first
    [ apply only_bind; [|intros ?]
    | apply only_when
    | apply only_for_each; intros ?
    | apply only_emit
    | solve [auto with only] ].

Definition not_entering (method : string) (e : event) : Prop :=
  e <> Entered method.

Definition is_warning_b (e : event) : bool :=
  match e with
  | Warning _ _ => true
  | _ => false
  end.

Definition is_warning (e : event) : Prop :=
  match e with
  | Warning _ _ => True
  | _ => False
  end.

Lemma in_drop_le {A} (x : A) (l : list A) (n m : nat) :
  (m <= n)%nat -> In x (drop n l) -> In x (drop m l).
Proof.
  intros Hle Hin. replace n with (m + (n - m))%nat in Hin by lia.
  rewrite <- drop_drop in Hin.
  apply list_elem_of_In. apply list_elem_of_In in Hin.
  eapply subseteq_drop. exact Hin.
Qed.

(** An event of the continuation is an event of the whole. *)
Lemma in_events_bind_later {A B} (m : M A) (k : A -> M B) w a w1 e :
  m w = (Return a, w1) ->
  (length (log w) <= length (log w1))%nat ->
  In e (events_during (k a) w1) ->
  In e (events_during (m ≫= k) w).
Proof.
  intros Hm Hle Hin. unfold events_during in *.
  rewrite (bind_Return m k w a w1 Hm). eapply in_drop_le; eassumption.
Qed.

(** An event of the first part is an event of the whole, when the
    continuation only appends to the log. *)
Lemma in_events_bind_first {A B} (m : M A) (k : A -> M B) w e :
  (forall a, only (fun _ => True) (k a)) ->
  In e (events_during m w) ->
  In e (events_during (m ≫= k) w).
Proof.
  intros Hk Hin. unfold events_during in *.
  unfold mbind, M_bind, bind. destruct (m w) as [[a|x] w1]; simpl in *.
  - destruct (Hk a w1) as (e2 & E2 & _). rewrite E2.
    destruct (Nat.le_gt_cases (length (log w)) (length (log w1))) as [Hl|Hl].
    + rewrite drop_app_le by exact Hl. apply in_or_app. now left.
    + rewrite drop_ge in Hin by lia. destruct Hin.
  - exact Hin.
Qed.

Lemma only_no_event {A} (m : M A) (w : World) (e : event) :
  only (fun x => x <> e) m -> ~ In e (events_during m w).
Proof.
  intros Ho Hin. destruct (Ho w) as (evs & E & F).
  rewrite (events_during_app m w evs E) in Hin.
  rewrite List.Forall_forall in F. now apply (F e Hin).
Qed.

(** ** The default fit mode (C10) and what the interval loop does (C1) *)

Section FitInterval.

Context `{Collaborators}.

Lemma only_call_set_active_time_intervals P args :
  only P (call_set_active_time_intervals args).
Proof.
  apply only_quiet. intros w. unfold call_set_active_time_intervals.
  now destruct (set_active_time_intervals (self w) args).
Qed.

Lemma only_recompute_active_selection P :
  only P recompute_active_selection.
Proof.
  unfold recompute_active_selection. only_steps.
  apply only_call_set_active_time_intervals.
Qed.

(** The loop over the intervals warns and does nothing else: the object
    is the same after it, and so are the intervals that were read. *)
Lemma check_interval_only_warns (iv : TimeInterval) (w : World) :
  exists evs,
    check_interval iv w
      = (Return tt, mkWorld (self w) (fs w) (log w ++ evs))
    /\ Forall is_warning evs.
Proof.
  unfold check_interval. unfold_M.
  destruct w as [t d l]. simpl.
  destruct (Qltb (start_time iv) (_start_time t));
    destruct (Qltb (_stop_time t) (stop_time iv)); simpl;
    match goal with
    | |- context [if ?c then _ else _] => destruct c
    end; simpl; flatten_log;
    (eexists; split; [try reflexivity; rewrite app_nil_r; reflexivity|]);
    repeat constructor.
Qed.

Lemma check_intervals_only_warn (ivs : TimeIntervalSet) (w : World) :
  exists evs,
    for_each ivs check_interval w
      = (Return tt, mkWorld (self w) (fs w) (log w ++ evs))
    /\ Forall is_warning evs.
Proof.
  revert w. induction ivs as [|iv ivs IH]; intros w.
  - exists []. rewrite app_nil_r. destruct w. split; [reflexivity|constructor].
  - destruct (check_interval_only_warns iv w) as (e1 & E1 & F1).
    simpl. rewrite (bind_Return _ _ _ _ _ E1).
    destruct (IH (mkWorld (self w) (fs w) (log w ++ e1)))
      as (e2 & E2 & F2).
    rewrite E2. cbn [self fs log]. exists (e1 ++ e2).
    rewrite app_assoc. split; [reflexivity|]. now apply Forall_app.
Qed.

Lemma only_check_interval P :
  (forall f a, P (Warning f a)) -> forall iv, only P (check_interval iv).
Proof.
  intros HP iv w. destruct (check_interval_only_warns iv w) as (evs & E & F).
  exists evs. rewrite E. split; [reflexivity|].
  eapply Forall_impl; [exact F|]. intros [] Hx; try easy.
Qed.

Lemma only_unbinned_fit P :
  P (Entered "_unbinned_fit_polynomials") ->
  P (Entered unbinned_selector) ->
  (forall f a, P (Printed f a)) ->
  only P _unbinned_fit_polynomials.
Proof.
  intros P1 P2 P3 w.
  destruct (_poly_intervals (self w)) as [[|iv ivs]|] eqn:E.
  - rewrite (unbinned_fit_polynomials_no_interval w E).
    eexists. split; [reflexivity|]. repeat constructor. exact P1.
  - destruct (unbinned_fit_polynomials_runs w iv ivs E)
      as (g & polys & evs & Hrun & _ & _ & Hev).
    rewrite Hrun. eexists. split; [reflexivity|].
    constructor; [exact P1|].
    destruct (Z.eqb (_user_poly_order (self w)) (-1)).
    + subst evs. constructor; [exact P2|].
      destruct (_verbose (self w)); repeat constructor. apply P3.
    + destruct Hev as [-> _]. constructor.
  - rewrite (unbinned_fit_polynomials_no_attribute w E).
    eexists. split; [reflexivity|]. repeat constructor. exact P1.
Qed.

Lemma only_binned_fit P :
  P (Entered "_fit_polynomials") ->
  P (Entered binned_selector) ->
  (forall f a, P (Printed f a)) ->
  only P _fit_polynomials.
Proof.
  intros P1 P2 P3 w.
  destruct (_poly_intervals (self w)) as [[|iv ivs]|] eqn:E.
  - rewrite (fit_polynomials_no_interval w E).
    eexists. split; [reflexivity|]. repeat constructor. exact P1.
  - destruct (fit_polynomials_runs w iv ivs E)
      as (g & polys & evs & Hrun & _ & _ & Hev).
    rewrite Hrun. eexists. split; [reflexivity|].
    constructor; [exact P1|].
    destruct (Z.eqb (_user_poly_order (self w)) (-1)).
    + subst evs. constructor; [exact P2|].
      destruct (_verbose (self w)); repeat constructor. apply P3.
    + destruct Hev as [-> _]. constructor.
  - rewrite (fit_polynomials_no_attribute w E).
    eexists. split; [reflexivity|]. repeat constructor. exact P1.
Qed.

Lemma unbinned_fit_is_entered (w : World) :
  In (Entered "_unbinned_fit_polynomials")
     (events_during _unbinned_fit_polynomials w).
Proof.
  destruct (_poly_intervals (self w)) as [[|iv ivs]|] eqn:E.
  - rewrite (events_during_app _ w [Entered "_unbinned_fit_polynomials"])
      by now rewrite (unbinned_fit_polynomials_no_interval w E).
    now left.
  - destruct (unbinned_fit_polynomials_runs w iv ivs E)
      as (g & polys & evs & Hrun & _).
    rewrite (events_during_app _ w
               (Entered "_unbinned_fit_polynomials" :: evs))
      by now rewrite Hrun.
    now left.
  - rewrite (events_during_app _ w [Entered "_unbinned_fit_polynomials"])
      by now rewrite (unbinned_fit_polynomials_no_attribute w E).
    now left.
Qed.

Lemma only_bind_ret P {A B} (a : A) (k : A -> M B) :
  only P (k a) -> only P (ret a ≫= k).
Proof. intros Hk w. exact (Hk w). Qed.

Lemma only_bind_raise P {A B} (e : exn) (k : A -> M B) :
  only P (raise e ≫= k).
Proof. now apply only_quiet. Qed.

(** A call that does not say [unbinned=False] never enters the binned
    fit. *)
Lemma only_unbinned_path (time_intervals : list string)
    (options : gmap string pyvalue) :
  options !! "unbinned" <> Some (PyBool false) ->
  only (not_entering "_fit_polynomials")
       (set_polynomial_fit_interval time_intervals options).
Proof.
  intros Hopt. unfold set_polynomial_fit_interval.
  apply only_bind; [apply only_emit; discriminate|intros _].
  assert (Hrest : only (not_entering "_fit_polynomials")
    (ret true ≫= (fun unbinned : bool =>
       poly_intervals ← lift_result (from_strings time_intervals);
       for_each poly_intervals check_interval;;
       update_self (set_poly_intervals poly_intervals);;
       (if unbinned : bool then
          update_self (set_unbinned true);;
          _unbinned_fit_polynomials
        else
          update_self (set_unbinned false);;
          _fit_polynomials);;
       update_self (set_poly_fit_exists true);;
       s ← get_self;
       when (_verbose s)
         (grade ← attr "_optimal_polynomial_grade"
                       _optimal_polynomial_grade;
          print "%s %d-order polynomial fit with the %s method"
                [opt_str (bin_type (_fit_method_info s)); AInt grade;
                 opt_str (fit_method (_fit_method_info s))]);;
       recompute_active_selection))).
  { apply only_bind_ret.
    apply only_bind; [apply only_lift_result|intros ivs].
    apply only_bind;
      [apply only_for_each, only_check_interval; discriminate|intros _].
    apply only_bind; [apply only_update_self|intros _].
    apply only_bind.
    { apply only_bind; [apply only_update_self|intros _].
      apply only_unbinned_fit; discriminate. }
    intros _.
    apply only_bind; [apply only_update_self|intros _].
    apply only_bind; [apply only_get_self|intros s].
    apply only_bind; [|intros _; apply only_recompute_active_selection].
    apply only_when. apply only_bind; [apply only_attr|intros g].
    apply only_emit. discriminate. }
  destruct (options !! "unbinned") as [[| [|] | | |]|] eqn:E;
    try apply only_bind_raise; try exact Hrest.
  congruence.
Qed.

(** A call without the [unbinned] option is the call with
    [unbinned=True]: it enters the unbinned fit as soon as the intervals
    are read, and never the binned fit. Whatever the options, a run that
    enters the binned fit was given [unbinned=False]. *)
Lemma call_without_option_enters_unbinned_fit (w : World)
    (time_intervals : list string) (options : gmap string pyvalue)
    (ivs : TimeIntervalSet) :
  options !! "unbinned" = None ->
  from_strings time_intervals = Return ivs ->
  set_polynomial_fit_interval time_intervals options w
    = set_polynomial_fit_interval time_intervals
        (<["unbinned" := PyBool true]> options) w
  /\ In (Entered "_unbinned_fit_polynomials")
        (events_during
           (set_polynomial_fit_interval time_intervals options) w)
  /\ ~ In (Entered "_fit_polynomials")
          (events_during
             (set_polynomial_fit_interval time_intervals options) w)
  /\ (forall options' w',
        In (Entered "_fit_polynomials")
           (events_during
              (set_polynomial_fit_interval time_intervals options') w')
        -> options' !! "unbinned" = Some (PyBool false)).
Proof.
  intros Hopt Hivs. split; [|split; [|split]].
  - unfold set_polynomial_fit_interval.
    rewrite Hopt, lookup_insert_eq. reflexivity.
  - unfold set_polynomial_fit_interval. rewrite Hopt, Hivs.
    eapply in_events_bind_later; [reflexivity|log_le|].
    eapply in_events_bind_later; [reflexivity|log_le|].
    eapply in_events_bind_later; [reflexivity|log_le|].
    destruct (check_intervals_only_warn ivs
                (mkWorld (self w) (fs w)
                   (log w ++ [Entered "set_polynomial_fit_interval"])))
      as (evs & Hloop & _).
    eapply in_events_bind_later; [exact Hloop|log_le|].
    eapply in_events_bind_later; [reflexivity|log_le|].
    apply in_events_bind_first.
    { intros _.
      apply only_bind; [apply only_update_self|intros _].
      apply only_bind; [apply only_get_self|intros s].
      apply only_bind; [|intros _; apply only_recompute_active_selection].
      apply only_when. apply only_bind; [apply only_attr|intros g].
      apply only_emit. exact I. }
    eapply in_events_bind_later; [reflexivity|log_le|].
    apply unbinned_fit_is_entered.
  - apply only_no_event. apply only_unbinned_path. rewrite Hopt. discriminate.
  - intros options' w' Hin.
    destruct (options' !! "unbinned") as [[| [|] | | |]|] eqn:E;
      try reflexivity; exfalso; revert Hin; apply only_no_event;
      apply only_unbinned_path; rewrite E; discriminate.
Qed.

End FitInterval.

(** ** Interval validation (C1) *)

(** The validation as the design document words it: an interval that starts
    before the data is moved to the start of the data, one that ends after
    the data is cut at the end of the data, and one that lies wholly
    outside the data is dropped. *)
Definition spec_clip (start stop : Q) (iv : TimeInterval)
    : option TimeInterval :=
  let t1 := if Qltb (start_time iv) start then start else start_time iv in
  let t2 := if Qltb stop (stop_time iv) then stop else stop_time iv in
  if Qleb stop t1 || Qleb t2 start then None
  else Some (mkTimeInterval t1 t2).

Definition spec_clip_intervals (start stop : Q) (ivs : list TimeInterval)
    : list TimeInterval :=
  omap (spec_clip start stop) ivs.

Section StoredIntervals.

Context `{Collaborators}.

(** The call stores the intervals it was given, as they were read: the
    bounds of the data play no part in what is stored, and the fit runs on
    them. *)
Lemma given_intervals_are_stored (w : World)
    (time_intervals : list string) (options : gmap string pyvalue)
    (b : bool) (iv : TimeInterval) (ivs : TimeIntervalSet) :
  options !! "unbinned" = Some (PyBool b) ->
  from_strings time_intervals = Return (iv :: ivs) ->
  _time_selection_exists (self w) = false ->
  exists t evs,
    set_polynomial_fit_interval time_intervals options w
      = (Return tt, mkWorld t (fs w) (log w ++ evs))
    /\ _poly_intervals t = Some (iv :: ivs)
    /\ _unbinned t = Some b
    /\ _poly_fit_exists t = true
    /\ (exists polys, _polynomials t = Some polys)
    /\ (exists g, _optimal_polynomial_grade t = Some g)
    /\ is_Some (fit_method (_fit_method_info t)).
Proof.
  intros Hopt Hivs Hsel.
  destruct (check_intervals_only_warn (iv :: ivs)
              (mkWorld (self w) (fs w)
                 (log w ++ [Entered "set_polynomial_fit_interval"])))
    as (evs & Hloop & _).
  destruct b.
  - destruct (unbinned_fit_polynomials_runs
                (mkWorld (set_unbinned true
                            (set_poly_intervals (iv :: ivs) (self w)))
                   (fs w)
                   ((log w ++ [Entered "set_polynomial_fit_interval"])
                      ++ evs)) iv ivs eq_refl)
      as (g & polys & evs' & Hrun & _).
    destruct (_verbose (self w)) eqn:V;
      (eexists _, _; split;
       [ unfold set_polynomial_fit_interval;
         step_ok; rewrite Hopt; step_ok; rewrite Hivs; step_ok;
         step_with ltac:(exact Hloop); step_ok;
         step_with ltac:(step_ok; exact Hrun);
         step_ok; step_ok; unfold install_fit; proj_norm; rewrite V;
         unfold when;
         first [ step_with ltac:(step_with ltac:(apply attr_Some;
                                                 reflexivity);
                                 reflexivity)
               | step_ok ];
         unfold recompute_active_selection; step_ok; proj_norm;
         rewrite Hsel; unfold when, ret; proj_norm; flatten_log;
         reflexivity
       | proj_norm; eauto 10 ]).
  - destruct (fit_polynomials_runs
                (mkWorld (set_unbinned false
                            (set_poly_intervals (iv :: ivs) (self w)))
                   (fs w)
                   ((log w ++ [Entered "set_polynomial_fit_interval"])
                      ++ evs)) iv ivs eq_refl)
      as (g & polys & evs' & Hrun & _).
    destruct (_verbose (self w)) eqn:V;
      (eexists _, _; split;
       [ unfold set_polynomial_fit_interval;
         step_ok; rewrite Hopt; step_ok; rewrite Hivs; step_ok;
         step_with ltac:(exact Hloop); step_ok;
         step_with ltac:(step_ok; exact Hrun);
         step_ok; step_ok; unfold install_fit; proj_norm; rewrite V;
         unfold when;
         first [ step_with ltac:(step_with ltac:(apply attr_Some;
                                                 reflexivity);
                                 reflexivity)
               | step_ok ];
         unfold recompute_active_selection; step_ok; proj_norm;
         rewrite Hsel; unfold when, ret; proj_norm; flatten_log;
         reflexivity
       | proj_norm; eauto 10 ]).
Qed.

End StoredIntervals.

(** ** Saving over an existing file (C8) *)

(** What a saved fit holds. *)
Definition saved_store (polys : list Polynomial) (grade : Z)
    (ivs : TimeIntervalSet) (unbinned : bool) (method : option string)
    : HDFStore :=
  {| tbl_coefficients := Some (map coefficients polys);
     tbl_covariance := Some (map covariance_matrix polys);
     attr_metadata :=
       Some {| md_poly_order := grade;
               md_poly_selections := zip (start_times ivs) (stop_times ivs);
               md_unbinned := unbinned;
               md_fit_method := method |} |}.

Section Saving.

Context `{Collaborators}.

(** What a save does when the destination is in the way. *)
Lemma save_background_stops (w : World) (filename : string)
    (overwrite : bool) (f : file) :
  fs w !! saved_path filename = Some f ->
  overwrite = false \/ removable f = false ->
  save_background filename overwrite w
    = (Raise (IOError
                (if overwrite
                 then cannot_remove_message (saved_path filename)
                 else exists_message (saved_path filename))),
       mkWorld (self w) (fs w) (log w ++ [Entered "save_background"])).
Proof.
  intros Hf Hcase. unfold save_background, saved_path in *.
  step_ok. step_ok. proj_norm. rewrite Hf.
  destruct overwrite.
  - destruct Hcase as [Hcase|Hcase]; [discriminate|]. rewrite Hcase.
    stop_with ltac:(reflexivity). reflexivity.
  - stop_with ltac:(reflexivity). reflexivity.
Qed.

(** C8. The destination exists. Without leave to overwrite,
    [save_background] raises an [IOError]; with leave to overwrite and a
    file that cannot be removed it raises an [IOError] too. The message
    names the path in both cases, and the files on disk are what they
    were. *)
Theorem save_background_refuses_existing_destination
    (w : World) (filename : string) (overwrite : bool) (f : file) :
  fs w !! saved_path filename = Some f ->
  overwrite = false \/ removable f = false ->
  save_background filename overwrite w
    = (Raise (IOError
                (if overwrite
                 then cannot_remove_message (saved_path filename)
                 else exists_message (saved_path filename))),
       mkWorld (self w) (fs w) (log w ++ [Entered "save_background"]))
  /\ exists_message (saved_path filename)
     = "The file " +:+ saved_path filename +:+ " already exists!"
  /\ exists rest,
       cannot_remove_message (saved_path filename)
       = "The file " +:+ saved_path filename +:+ rest.
Proof.
  intros Hf Hcase. split; [|split].
  - exact (save_background_stops w filename overwrite f Hf Hcase).
  - reflexivity.
  - eexists. reflexivity.
Qed.

Lemma open_store_existing (w : World) (path : string) (f : file) :
  fs w !! path = Some f -> open_store path w = (Return tt, w).
Proof.
  intros Hf. unfold open_store. step_ok. rewrite Hf. reflexivity.
Qed.

Lemma read_store_existing (w : World) (path : string) (f : file) :
  fs w !! path = Some f -> read_store path w = (Return (contents f), w).
Proof.
  intros Hf. unfold read_store. step_ok. rewrite Hf. reflexivity.
Qed.


End Saving.

(** ** Restoring a saved fit (C2) *)

(** What [restore_fit] makes of a stored channel: the stored covariance and
    the stored coefficients without the entries that are not finite. *)
Definition restored (p : Polynomial) : Polynomial :=
  from_previous_fit (List.filter isfinite (coefficients p))
                    (covariance_matrix p).

Lemma filter_isfinite_id (c : list pyfloat) :
  Forall (fun x => isfinite x = true) c -> List.filter isfinite c = c.
Proof.
  induction 1 as [|x c Hx _ IH]; simpl; [reflexivity|].
  now rewrite Hx, IH.
Qed.

Lemma restored_finite (p : Polynomial) :
  Forall (fun x => isfinite x = true) (coefficients p) -> restored p = p.
Proof.
  intros Hfin. unfold restored, from_previous_fit.
  rewrite (filter_isfinite_id _ Hfin). now destruct p.
Qed.





Lemma zip_with_restored (polys : list Polynomial) :
  zip_with (fun c v => from_previous_fit (List.filter isfinite c) v)
           (map coefficients polys) (map covariance_matrix polys)
  = map restored polys.
Proof. induction polys as [|p polys IH]; simpl; [|rewrite IH]; easy. Qed.


Section Restoring.

Context `{Collaborators}.

(** The loop over the stored rows appends one polynomial per row. *)
Lemma restore_rows (C : list (list pyfloat))
    (V : list (list (list pyfloat))) (t : TimeSeries) d l :
  length C = length V ->
  forall (n k : nat) (acc : list Polynomial),
    (k + n)%nat = length C ->
    for_each (seq k n) (restore_row C V)
             (mkWorld (set_polynomials acc t) d l)
    = (Return tt,
       mkWorld
         (set_polynomials
            (acc ++ zip_with
                      (fun c v =>
                         from_previous_fit (List.filter isfinite c) v)
                      (drop k C) (drop k V)) t) d l).
Proof.
  intros Hlen n. induction n as [|n IH]; intros k acc Hk.
  - rewrite drop_ge by lia. simpl. rewrite app_nil_r. reflexivity.
  - destruct (lookup_lt_is_Some_2 C k ltac:(lia)) as [c Hc].
    destruct (lookup_lt_is_Some_2 V k ltac:(lia)) as [v Hv].
    rewrite (drop_S _ _ _ Hc), (drop_S _ _ _ Hv).
    cbn [seq for_each zip_with].
    step_with ltac:(
      unfold restore_row; rewrite Hc, Hv;
      step_ok; step_ok; reflexivity).
    etransitivity; [apply (IH (S k) (acc ++ [from_previous_fit
                                (List.filter isfinite c) v]));lia|].
    rewrite <- app_assoc. reflexivity.
Qed.


End Restoring.

(** * Further properties of the class *)

Lemma run_fst {A} (m : M A) (w : World) (r : result A) (w' : World) :
  m w = (r, w') -> (m w).1 = r.
Proof. now intros ->. Qed.

(** ** Splitting into chunks: [ceildiv] *)

(** X1. For a positive divisor [ceildiv a b] is the quotient rounded up:
    the least [q] with [a <= q * b]. A zero divisor is an error. *)
Theorem ceildiv_rounds_up (a b : Z) :
  0 < b ->
  exists q, ceildiv a b = Some q
            /\ a <= q * b < a + b
            /\ (forall q', a <= q' * b -> q <= q').
Proof.
  intros Hb. unfold ceildiv.
  destruct (Z.eqb_spec b 0) as [->|_]; [lia|].
  eexists. split; [reflexivity|].
  pose proof (Z.div_mod (- a) b ltac:(lia)) as Hdm.
  pose proof (Z.mod_pos_bound (- a) b Hb) as Hmod.
  split; [nia|]. intros q' Hq'. nia.
Qed.

Lemma ceildiv_zero_divisor (a : Z) : ceildiv a 0 = None.
Proof. reflexivity. Qed.

(** ** The polynomial order: what the setter refuses, what the getter reads *)

(** An order that the setter accepts. *)
Definition valid_order (value : pyvalue) : Prop :=
  exists z, value = PyInt z /\ -1 <= z <= 4.

Section OrderAccess.

Context `{Collaborators}.

(** X2. A value that is not an integer between -1 and 4 (a float, a string,
    [None], a boolean, 5, -2) is refused with an [AssertionError], and the
    object is left as it was: the stored order is not touched and nothing
    is refitted. *)
Theorem set_poly_order_refuses_invalid_value (w : World) (value : pyvalue) :
  ~ valid_order value ->
  exists message,
    __set_poly_order value w
      = (Raise (AssertionError message),
         mkWorld (self w) (fs w) (log w ++ [Entered "__set_poly_order"])).
Proof.
  intros Hbad. unfold __set_poly_order.
  destruct value as [| b | z | q | s];
    try (eexists; step_ok; stop_with ltac:(reflexivity); reflexivity).
  destruct (Z.leb (-1) z && Z.leb z 4) eqn:E.
  - exfalso. apply Hbad. exists z. split; [reflexivity|].
    apply andb_true_iff in E. destruct E as [E1 E2].
    apply Z.leb_le in E1. apply Z.leb_le in E2. lia.
  - eexists. step_ok. step_ok. rewrite E.
    stop_with ltac:(reflexivity). reflexivity.
Qed.

Lemma set_poly_order_without_fit (w : World) (v : Z) :
  _poly_fit_exists (self w) = false ->
  -1 <= v <= 4 ->
  __set_poly_order (PyInt v) w
    = (Return tt,
       mkWorld (set_user_poly_order v (self w)) (fs w)
         (log w ++ [Entered "__set_poly_order"])).
Proof.
  intros Hfit Hv. unfold __set_poly_order.
  step_ok. step_ok. rewrite (order_in_range v Hv).
  step_ok. step_ok. step_ok. proj_norm. rewrite Hfit. reflexivity.
Qed.

(** X3. Before any fit the order that was set cannot be read back: the
    setter stores it as the user's order, and the getter reads the grade in
    use, an attribute that only a fit creates. *)
Theorem poly_order_set_then_get_before_fit (w : World) (v : Z) :
  _poly_fit_exists (self w) = false ->
  _optimal_polynomial_grade (self w) = None ->
  -1 <= v <= 4 ->
  (__set_poly_order (PyInt v);; __get_poly_order) w
    = (Raise (AttributeError "_optimal_polynomial_grade"),
       mkWorld (set_user_poly_order v (self w)) (fs w)
         (log w ++ [Entered "__set_poly_order"])).
Proof.
  intros Hfit Hgrade Hv.
  step_with ltac:(exact (set_poly_order_without_fit w v Hfit Hv)).
  unfold __get_poly_order. apply attr_None. exact Hgrade.
Qed.




End OrderAccess.

(** ** Which events a fit selects *)

(** [t] lies in the interval, both ends included. *)
Definition in_interval (iv : TimeInterval) (t : Q) : bool :=
  Qleb (start_time iv) t && Qleb t (stop_time iv).

Lemma zip_with_map_same {A B C D} (f : B -> C -> D) (g : A -> B) (h : A -> C)
    (l : list A) :
  zip_with f (map g l) (map h l) = map (fun x => f (g x) (h x)) l.
Proof. induction l as [|x l IH]; simpl; [|rewrite IH]; reflexivity. Qed.

Lemma select_map {A} (f : A -> bool) (l : list A) :
  np.select l (map f l) = List.filter f l.
Proof.
  induction l as [|x l IH]; simpl; [reflexivity|].
  rewrite IH. reflexivity.
Qed.

Lemma select_map_other {A B} (f : A -> bool) (l : list A) (k : list B) :
  length l = length k ->
  np.select k (map f l) = map snd (List.filter (fun p => f p.1) (zip l k)).
Proof.
  revert k. induction l as [|x l IH]; intros [|y k] Hlen; simpl in *;
    try discriminate; [reflexivity|].
  rewrite (IH k) by lia. now destruct (f x).
Qed.

Section EventSelection.

Context `{Collaborators}.

Lemma interval_mask_map (times : list Q) (iv : TimeInterval) :
  interval_mask times iv = map (in_interval iv) times.
Proof.
  exact (zip_with_map_same andb (fun t => Qleb (start_time iv) t)
           (fun t => Qleb t (stop_time iv)) times).
Qed.

Lemma fold_logical_or (times : list Q) (ivs : list TimeInterval)
    (g : Q -> bool) :
  fold_left np.logical_or (map (interval_mask times) ivs) (map g times)
  = map (fun t => g t || existsb (fun iv => in_interval iv t) ivs) times.
Proof.
  revert g. induction ivs as [|iv ivs IH]; intros g; simpl.
  - apply map_ext. intros t. now rewrite orb_false_r.
  - rewrite interval_mask_map.
    change (np.logical_or (map g times) (map (in_interval iv) times))
      with (zip_with orb (map g times) (map (in_interval iv) times)).
    rewrite (zip_with_map_same orb g (in_interval iv) times), IH.
    apply map_ext. intros t. now rewrite orb_assoc.
Qed.

(** X5. The mask that the fits build from the background intervals selects
    exactly the events that lie in at least one interval, both ends
    included; the events keep their order and their channels. *)
Theorem background_events_lie_in_some_interval
    (w : World) (times : list Q) (energies : list Z)
    (iv : TimeInterval) (ivs : list TimeInterval) :
  length times = length energies ->
  exists mask,
    union_mask (map (interval_mask times) (iv :: ivs)) w = (Return mask, w)
    /\ np.select times mask
       = List.filter (fun t => existsb (fun i => in_interval i t) (iv :: ivs))
                     times
    /\ np.select energies mask
       = map snd
           (List.filter
              (fun p => existsb (fun i => in_interval i p.1) (iv :: ivs))
              (zip times energies))
    /\ (forall t,
          In t (np.select times mask)
          <-> In t times
              /\ exists i, In i (iv :: ivs)
                           /\ (start_time i <= t)%Q /\ (t <= stop_time i)%Q).
Proof.
  intros Hlen.
  exists (map (fun t => existsb (fun i => in_interval i t) (iv :: ivs)) times).
  split; [|split; [|split]].
  - unfold union_mask. step_ok. cbn [tail map].
    rewrite (interval_mask_map times iv), fold_logical_or. reflexivity.
  - exact (select_map
             (fun t => existsb (fun i => in_interval i t) (iv :: ivs))
             times).
  - exact (select_map_other
             (fun t => existsb (fun i => in_interval i t) (iv :: ivs))
             times energies Hlen).
  - intros t. rewrite select_map, List.filter_In, existsb_exists.
    unfold in_interval. split.
    + intros (Ht & i & Hi & Hb). split; [exact Ht|]. exists i.
      apply andb_true_iff in Hb. destruct Hb as [H1 H2].
      apply Qleb_le in H1. apply Qleb_le in H2. easy.
    + intros (Ht & i & Hi & H1 & H2). split; [exact Ht|]. exists i.
      split; [exact Hi|]. apply andb_true_iff.
      split; now apply Qleb_le.
Qed.

End EventSelection.

(** ** When the interval loop warns *)


Section Warnings.

Context `{Collaborators}.



End Warnings.

(** ** Calls that fail *)


Section FailingCalls.

Context `{Collaborators}.

(** X7. A call whose [unbinned] option is not a boolean, or whose intervals
    cannot be read, fails before anything is stored: the object and the
    files are what they were, and no fit is entered. *)
Theorem set_polynomial_fit_interval_fails_before_storing
    (w : World) (time_intervals : list string)
    (options : gmap string pyvalue) :
  (exists v, options !! "unbinned" = Some v /\ forall b, v <> PyBool b)
  \/ ((options !! "unbinned" = None
       \/ exists b, options !! "unbinned" = Some (PyBool b))
      /\ exists e, from_strings time_intervals = Raise e) ->
  exists e,
    set_polynomial_fit_interval time_intervals options w
      = (Raise e,
         mkWorld (self w) (fs w)
           (log w ++ [Entered "set_polynomial_fit_interval"])).
Proof.
  intros [(v & Hv & Hnb)|(Hopt & e & He)]; unfold set_polynomial_fit_interval.
  - eexists. step_ok. rewrite Hv.
    destruct v as [| b | z | q | s];
      try (stop_with ltac:(reflexivity); reflexivity).
    now destruct (Hnb b).
  - exists e. step_ok.
    destruct Hopt as [Hopt|(b & Hopt)]; rewrite Hopt; step_ok; rewrite He;
      (stop_with ltac:(reflexivity)); reflexivity.
Qed.

(** What a call that reads no interval does. *)
Lemma call_without_intervals_stops
    (w : World) (time_intervals : list string)
    (options : gmap string pyvalue) :
  options !! "unbinned" = None
  \/ (exists b, options !! "unbinned" = Some (PyBool b)) ->
  from_strings time_intervals = Return [] ->
  exists b : bool,
    set_polynomial_fit_interval time_intervals options w
      = (Raise IndexError,
         mkWorld
           (start_fit (if b then "Unbinned" else "Binned")
              (if b then unbinned_fit_method else binned_fit_method)
              (set_unbinned b (set_poly_intervals [] (self w))))
           (fs w)
           (log w ++ [Entered "set_polynomial_fit_interval";
                      Entered (if b then "_unbinned_fit_polynomials"
                               else "_fit_polynomials")])).
Proof.
  intros Hopt Hivs.
  destruct Hopt as [Hopt|([|] & Hopt)];
    [exists true|exists true|exists false];
    unfold set_polynomial_fit_interval; step_ok; rewrite Hopt, Hivs;
    do 4 step_ok.
  - stop_with ltac:(
      step_ok; apply unbinned_fit_polynomials_no_interval; reflexivity).
    cbn [self fs log]. flatten_log. reflexivity.
  - stop_with ltac:(
      step_ok; apply unbinned_fit_polynomials_no_interval; reflexivity).
    cbn [self fs log]. flatten_log. reflexivity.
  - stop_with ltac:(
      step_ok; apply fit_polynomials_no_interval; reflexivity).
    cbn [self fs log]. flatten_log. reflexivity.
Qed.

(** X8. A call that reads no interval at all fails with [IndexError] only
    after the fit has marked itself as existing: the object then says that
    a fit exists, holds an empty interval set and the polynomials it had
    before. On an object that had no polynomials, [get_poly_info] from then
    on raises [AttributeError] where it returned [None] before. *)
Theorem failed_fit_leaves_fit_flag_set
    (w : World) (time_intervals : list string)
    (options : gmap string pyvalue) :
  options !! "unbinned" = None
  \/ (exists b, options !! "unbinned" = Some (PyBool b)) ->
  from_strings time_intervals = Return [] ->
  let w' := (set_polynomial_fit_interval time_intervals options w).2 in
  (set_polynomial_fit_interval time_intervals options w).1 = Raise IndexError
  /\ _poly_fit_exists (self w') = true
  /\ _poly_intervals (self w') = Some []
  /\ _polynomials (self w') = _polynomials (self w)
  /\ (_polynomials (self w) = None ->
      (get_poly_info w').1 = Raise (AttributeError "_polynomials")).
Proof.
  intros Hopt Hivs.
  destruct (call_without_intervals_stops w time_intervals options Hopt Hivs)
    as (b & Hrun).
  intros w'. subst w'. rewrite Hrun.
  cbn [fst snd self]. unfold start_fit. proj_norm.
  repeat split.
  intros Hnone. eapply run_fst. unfold get_poly_info.
  step_ok. step_ok. proj_norm.
  stop_with ltac:(apply attr_None; exact Hnone). reflexivity.
Qed.

End FailingCalls.

(** ** Files that a failed call leaves behind *)

Definition not_fitted_message : string :=
  "the polynomials have not been fit yet".

Section LeftBehind.

Context `{Collaborators}.

(** X9. Saving an object that has no fit raises [RuntimeError], but only
    after the store was opened: an empty store is left at the destination.
    A second save to the same name without leave to overwrite is then
    refused because the file exists. *)
Theorem save_background_without_fit_leaves_empty_store
    (w : World) (filename : string) (overwrite : bool) :
  _poly_fit_exists (self w) = false ->
  fs w !! saved_path filename = None ->
  let w1 :=
    mkWorld (self w)
      (<[saved_path filename := mkFile empty_store true]> (fs w))
      (log w ++ [Entered "save_background"]) in
  save_background filename overwrite w
    = (Raise (RuntimeError not_fitted_message), w1)
  /\ (save_background filename false w1).1
     = Raise (IOError (exists_message (saved_path filename))).
Proof.
  intros Hfit Hfree w1. split.
  - unfold save_background, saved_path in *.
    step_ok. step_ok. proj_norm. rewrite Hfree. step_ok.
    step_with ltac:(unfold open_store; step_ok; proj_norm; rewrite Hfree;
                    reflexivity).
    step_ok. proj_norm. rewrite Hfit.
    stop_with ltac:(reflexivity). reflexivity.
  - eapply run_fst.
    apply (save_background_stops w1 filename false
             (mkFile empty_store true)).
    + apply lookup_insert_eq.
    + now left.
Qed.

(** X10. [restore_fit] on a name where there is no file does not report a
    missing file: it creates an empty store there and raises [KeyError] for
    the coefficient table. The object is untouched. *)
Theorem restore_fit_of_missing_file (w : World) (filename : string) :
  fs w !! sanitize_filename filename = None ->
  restore_fit filename w
    = (Raise (KeyError "coefficients"),
       mkWorld (self w)
         (<[sanitize_filename filename := mkFile empty_store true]> (fs w))
         (log w ++ [Entered "restore_fit"])).
Proof.
  intros Hfree. unfold restore_fit.
  step_ok.
  step_with ltac:(unfold open_store; step_ok; proj_norm; rewrite Hfree;
                  reflexivity).
  step_with ltac:(
    eapply (read_store_existing _ _ (mkFile empty_store true));
    apply lookup_insert_eq).
  stop_with ltac:(reflexivity). reflexivity.
Qed.

(** What a save of a fitted object does to the files. *)
Lemma save_background_result
    (w : World) (filename : string) (overwrite : bool)
    (polys : list Polynomial) (g : Z) (ivs : TimeIntervalSet) (b : bool) :
  _poly_fit_exists (self w) = true ->
  _polynomials (self w) = Some polys ->
  _optimal_polynomial_grade (self w) = Some g ->
  _poly_intervals (self w) = Some ivs ->
  _unbinned (self w) = Some b ->
  (fs w !! saved_path filename = None
   \/ overwrite = true
      /\ exists f, fs w !! saved_path filename = Some f
                   /\ removable f = true) ->
  exists evs,
    save_background filename overwrite w
      = (Return tt,
         mkWorld (self w)
           (<[saved_path filename :=
                mkFile (saved_store polys g ivs b
                          (fit_method (_fit_method_info (self w)))) true]>
              (fs w))
           (log w ++ evs)).
Proof.
  intros Hfit Hp Hg Hivs Hb Hdest.
  destruct (_verbose (self w)) eqn:V;
    destruct Hdest as [Hnone|(-> & f & Hsome & Hrem)];
    (eexists;
     unfold save_background, saved_path in *; step_ok; step_ok;
     proj_norm; rewrite ?Hnone, ?Hsome, ?Hrem; step_ok;
     step_with ltac:(unfold open_store; step_ok; proj_norm;
                     rewrite ?lookup_delete_eq, ?Hnone; reflexivity);
     step_ok; proj_norm; rewrite Hfit;
     step_with ltac:(step_attr Hp; reflexivity);
     cbv beta iota; step_ok; step_ok;
     step_attr Hg; step_attr Hivs; step_attr Hb; step_ok;
     proj_norm; rewrite V; unfold when, print, emit, ret, mret, M_ret;
     proj_norm; flatten_log;
     unfold write_store, get_fs, put_fs, mbind, M_bind, bind; proj_norm;
     rewrite !alter_insert_eq, ?insert_delete_eq;
     reflexivity).
Qed.

(** X11. A save of a fitted object to a free name, or over a file that may
    be and can be removed, changes one file only: the destination now holds
    the tables and the metadata of the object, whatever it held before; the
    other files and the object itself are as they were. *)
Theorem save_background_writes_only_the_destination
    (w : World) (filename : string) (overwrite : bool)
    (polys : list Polynomial) (g : Z) (ivs : TimeIntervalSet) (b : bool) :
  _poly_fit_exists (self w) = true ->
  _polynomials (self w) = Some polys ->
  _optimal_polynomial_grade (self w) = Some g ->
  _poly_intervals (self w) = Some ivs ->
  _unbinned (self w) = Some b ->
  (fs w !! saved_path filename = None
   \/ overwrite = true
      /\ exists f, fs w !! saved_path filename = Some f
                   /\ removable f = true) ->
  exists evs,
    save_background filename overwrite w
      = (Return tt,
         mkWorld (self w)
           (<[saved_path filename :=
                mkFile (saved_store polys g ivs b
                          (fit_method (_fit_method_info (self w)))) true]>
              (fs w))
           (log w ++ evs))
    /\ forall other, other <> saved_path filename ->
         fs (save_background filename overwrite w).2 !! other
         = fs w !! other.
Proof.
  intros Hfit Hp Hg Hivs Hb Hdest.
  destruct (save_background_result w filename overwrite polys g ivs b
              Hfit Hp Hg Hivs Hb Hdest) as (evs & Hrun).
  exists evs. split; [exact Hrun|].
  intros other Hother. rewrite Hrun. cbn [snd fs].
  now apply lookup_insert_ne.
Qed.

End LeftBehind.


(** ** Reading a store back *)

(** The rows of a restored fit: one polynomial per pair of stored rows. *)
Definition restored_rows (C : list (list pyfloat))
    (V : list (list (list pyfloat))) : list Polynomial :=
  zip_with (fun c v => from_previous_fit (List.filter isfinite c) v) C V.

(** The object after [restore_fit] has read the tables [C], [V] and the
    metadata [md]. *)
Definition restored_object (C : list (list pyfloat))
    (V : list (list (list pyfloat))) (md : Metadata) (t : TimeSeries)
    : TimeSeries :=
  set_poly_fit_exists true
    (set_fit_method_info
       (mkFitMethodInfo
          (Some (if md_unbinned md then "unbinned" else "binned"))
          (md_fit_method md))
       (set_unbinned (md_unbinned md)
          (set_poly_intervals
             (from_starts_and_stops (map fst (md_poly_selections md))
                                    (map snd (md_poly_selections md)))
             (set_optimal_polynomial_grade (md_poly_order md)
                (set_polynomials (restored_rows C V) t))))).

Lemma restored_object_twice C V md t :
  restored_object C V md (restored_object C V md t) = restored_object C V md t.
Proof. destruct t. lazy. reflexivity. Qed.

Section ReadingBack.

Context `{Collaborators}.

Lemma restore_fit_reads_store (w : World) (filename : string) (f : file)
    C V md :
  fs w !! sanitize_filename filename = Some f ->
  contents f = mkHDFStore (Some C) (Some V) (Some md) ->
  length C = length V ->
  restore_fit filename w
  = match md_poly_selections md with
    | [] =>
        (Raise IndexError,
         mkWorld
           (set_optimal_polynomial_grade (md_poly_order md)
              (set_polynomials (restored_rows C V) (self w)))
           (fs w) (log w ++ [Entered "restore_fit"]))
    | _ :: _ =>
        recompute_active_selection
          (mkWorld (restored_object C V md (self w)) (fs w)
             (log w ++ [Entered "restore_fit"]))
    end.
Proof.
  intros Hfile Hcont Hlen. unfold restore_fit.
  step_ok.
  step_with ltac:(eapply open_store_existing; exact Hfile).
  step_with ltac:(eapply read_store_existing; exact Hfile).
  rewrite Hcont.
  cbn [tbl_coefficients tbl_covariance attr_metadata].
  step_ok. step_ok. step_ok.
  step_with ltac:(
    apply (restore_rows C V (self w) (fs w)
             (log w ++ [Entered "restore_fit"]) Hlen
             (length C) 0%nat [] eq_refl)).
  step_ok. step_ok.
  rewrite !drop_0. cbn [app].
  destruct (md_poly_selections md) as [|sel sels] eqn:Hsel.
  - stop_with ltac:(reflexivity). reflexivity.
  - do 6 step_ok.
    etransitivity; [apply bind_Return; reflexivity|].
    unfold restored_object. rewrite Hsel. reflexivity.
Qed.

(** X12. A refit that read no interval fails, but what it leaves can still
    be saved; the file written this way holds an empty list of intervals,
    and [restore_fit] cannot read it: it raises [IndexError]. *)
Theorem save_after_failed_refit_cannot_be_restored
    (w : World) (time_intervals : list string)
    (options : gmap string pyvalue) (filename : string)
    (polys : list Polynomial) (g : Z)
    (target : TimeSeries) (l : list event) :
  _polynomials (self w) = Some polys ->
  _optimal_polynomial_grade (self w) = Some g ->
  (options !! "unbinned" = None
   \/ exists b, options !! "unbinned" = Some (PyBool b)) ->
  from_strings time_intervals = Return [] ->
  fs w !! saved_path filename = None ->
  let w1 := (set_polynomial_fit_interval time_intervals options w).2 in
  let w2 := (save_background filename false w1).2 in
  (set_polynomial_fit_interval time_intervals options w).1 = Raise IndexError
  /\ (save_background filename false w1).1 = Return tt
  /\ forall path, sanitize_filename path = saved_path filename ->
       (restore_fit path (mkWorld target (fs w2) l)).1 = Raise IndexError.
Proof.
  intros Hp Hg Hopt Hivs Hfree.
  destruct (call_without_intervals_stops w time_intervals options Hopt Hivs)
    as (b & Hcall).
  intros w1 w2. subst w2 w1. rewrite Hcall. cbn [fst snd].
  match goal with
  | |- context [save_background filename false ?W] => set (w1 := W)
  end.
  destruct (save_background_result w1 filename false polys g [] b)
    as (evs & Hsave);
    try reflexivity; try assumption; [now left|].
  rewrite Hsave. cbn [fst snd fs].
  split; [reflexivity|]. split; [reflexivity|].
  intros path Hpath. eapply run_fst.
  etransitivity.
  - eapply (restore_fit_reads_store _ path _
              (map coefficients polys) (map covariance_matrix polys)).
    + cbn [fs]. rewrite Hpath. apply lookup_insert_eq.
    + reflexivity.
    + now rewrite !length_map.
  - reflexivity.
Qed.

(** A total depends on the object through its polynomials only. *)
Lemma total_poly_count_of_polynomials (w w' : World) start stop mask :
  _polynomials (self w) = _polynomials (self w') ->
  (get_total_poly_count start stop mask w).1
  = (get_total_poly_count start stop mask w').1.
Proof.
  intros Heq. unfold get_total_poly_count, masked_polynomials. unfold_M.
  destruct (_polynomials (self w')) as [ps|] eqn:E';
    destruct mask as [m|]; simpl; repeat (rewrite ?Heq, ?E'; simpl);
    try reflexivity;
    match goal with
    | |- context [if ?c then _ else _] => destruct c
    end; reflexivity.
Qed.

Lemma total_poly_error_of_polynomials (w w' : World) start stop mask :
  _polynomials (self w) = _polynomials (self w') ->
  (get_total_poly_error start stop mask w).1
  = (get_total_poly_error start stop mask w').1.
Proof.
  intros Heq. unfold get_total_poly_error, masked_polynomials. unfold_M.
  destruct (_polynomials (self w')) as [ps|] eqn:E';
    destruct mask as [m|]; simpl; repeat (rewrite ?Heq, ?E'; simpl);
    try reflexivity;
    match goal with
    | |- context [if ?c then _ else _] => destruct c
    end; reflexivity.
Qed.

(** X13. A fit whose coefficients are all finite is saved to a free name
    and restored into an object without an active selection: the totals
    and their errors over any interval and any channel mask are then the
    same on the restored object as on the saved one. *)
Theorem totals_survive_save_and_restore
    (w : World) (filename path : string) (overwrite : bool)
    (polys : list Polynomial) (g : Z) (iv : TimeInterval)
    (ivs : TimeIntervalSet) (b : bool)
    (target : TimeSeries) (l : list event)
    (start stop : Q) (mask : option (list bool)) :
  _poly_fit_exists (self w) = true ->
  _polynomials (self w) = Some polys ->
  _optimal_polynomial_grade (self w) = Some g ->
  _poly_intervals (self w) = Some (iv :: ivs) ->
  _unbinned (self w) = Some b ->
  Forall (fun p => Forall (fun x => isfinite x = true) (coefficients p))
         polys ->
  fs w !! saved_path filename = None ->
  sanitize_filename path = saved_path filename ->
  _time_selection_exists target = false ->
  let w1 := (save_background filename overwrite w).2 in
  let w2 := (restore_fit path (mkWorld target (fs w1) l)).2 in
  (restore_fit path (mkWorld target (fs w1) l)).1 = Return tt
  /\ (get_total_poly_count start stop mask w2).1
     = (get_total_poly_count start stop mask w).1
  /\ (get_total_poly_error start stop mask w2).1
     = (get_total_poly_error start stop mask w).1.
Proof.
  intros Hfit Hp Hg Hivs Hb Hfin Hfree Hpath Hsel.
  destruct (save_background_result w filename overwrite polys g (iv :: ivs) b
              Hfit Hp Hg Hivs Hb (or_introl Hfree)) as (evs & Hsave).
  intros w1 w2. subst w2 w1. rewrite Hsave. cbn [snd fs].
  match goal with
  | |- context [restore_fit path ?W] => set (w0 := W)
  end.
  assert (Hrestore :
    restore_fit path w0
    = (Return tt,
       mkWorld
         (restored_object (map coefficients polys)
            (map covariance_matrix polys)
            {| md_poly_order := g;
               md_poly_selections :=
                 zip (start_times (iv :: ivs)) (stop_times (iv :: ivs));
               md_unbinned := b;
               md_fit_method := fit_method (_fit_method_info (self w)) |}
            target)
         (fs w0) (l ++ [Entered "restore_fit"]))).
  { etransitivity.
    - eapply (restore_fit_reads_store w0 path _
                (map coefficients polys) (map covariance_matrix polys)).
      + subst w0. cbn [fs]. rewrite Hpath. apply lookup_insert_eq.
      + reflexivity.
      + now rewrite !length_map.
    - cbn [md_poly_selections start_times stop_times map zip zip_with].
      unfold recompute_active_selection. step_ok.
      unfold restored_object. proj_norm. subst w0. cbn [self].
      rewrite Hsel. reflexivity. }
  rewrite Hrestore. cbn [fst snd].
  assert (Hpolys :
    _polynomials
      (self (mkWorld
         (restored_object (map coefficients polys)
            (map covariance_matrix polys)
            {| md_poly_order := g;
               md_poly_selections :=
                 zip (start_times (iv :: ivs)) (stop_times (iv :: ivs));
               md_unbinned := b;
               md_fit_method := fit_method (_fit_method_info (self w)) |}
            target)
         (fs w0) (l ++ [Entered "restore_fit"])))
    = _polynomials (self w)).
  { unfold restored_object, restored_rows. proj_norm.
    rewrite zip_with_restored, Hp. f_equal.
    clear -Hfin. induction Hfin as [|p ps Hpf _ IH]; simpl; [reflexivity|].
    now rewrite (restored_finite p Hpf), IH. }
  split; [reflexivity|]. split.
  - now apply total_poly_count_of_polynomials.
  - now apply total_poly_error_of_polynomials.
Qed.

End ReadingBack.


(** ** The table of a fit *)

Section FitTable.

Context `{Collaborators}.

(** X15. Right after a fit over at least one interval, [get_poly_info]
    returns a table, not [None]: one row of coefficients and one row of
    errors per channel. *)
Theorem get_poly_info_after_fit_has_a_row_per_channel
    (w : World) (iv : TimeInterval) (ivs : list TimeInterval) :
  _poly_intervals (self w) = Some (iv :: ivs) ->
  (exists panel,
     ((_fit_polynomials;; get_poly_info) w).1 = Return (Some panel)
     /\ length (panel_coefficients panel) = Z.to_nat (_n_channels (self w))
     /\ length (panel_error panel) = Z.to_nat (_n_channels (self w)))
  /\ (exists panel,
        ((_unbinned_fit_polynomials;; get_poly_info) w).1
          = Return (Some panel)
        /\ length (panel_coefficients panel)
           = Z.to_nat (_n_channels (self w))
        /\ length (panel_error panel) = Z.to_nat (_n_channels (self w))).
Proof.
  intros Hivs. split.
  - destruct (fit_polynomials_runs w iv ivs Hivs)
      as (g & polys & evs & Hrun & Hlen & _).
    exists (mkPanel (map coefficients polys) (map error polys)).
    split; [|cbn [panel_coefficients panel_error];
             now rewrite !length_map].
    eapply run_fst. step_with ltac:(exact Hrun).
    unfold get_poly_info. step_ok. step_ok.
    unfold install_fit. proj_norm.
    step_with ltac:(apply attr_Some; reflexivity).
    step_ok. step_ok. reflexivity.
  - destruct (unbinned_fit_polynomials_runs w iv ivs Hivs)
      as (g & polys & evs & Hrun & Hlen & _).
    exists (mkPanel (map coefficients polys) (map error polys)).
    split; [|cbn [panel_coefficients panel_error];
             now rewrite !length_map].
    eapply run_fst. step_with ltac:(exact Hrun).
    unfold get_poly_info. step_ok. step_ok.
    unfold install_fit. proj_norm.
    step_with ltac:(apply attr_Some; reflexivity).
    step_ok. step_ok. reflexivity.
Qed.

End FitTable.

(** ** The PHA container *)

Section PHAContainers.

Context `{IntervalSetBounds}.

Lemma assign_where_negative (a : list pyfloat) :
  assign_where a (map negative a) (Fin 0)
  = Return (map (fun r => if negative r then Fin 0 else r) a).
Proof.
  unfold assign_where. rewrite length_map, Nat.eqb_refl. f_equal.
  induction a as [|r a IH]; simpl; [|rewrite IH]; reflexivity.
Qed.

Lemma lookup_map_Some {A B} (f : A -> B) (l : list A) (i : nat) (x : A) :
  l !! i = Some x -> map f l !! i = Some (f x).
Proof.
  revert i. induction l as [|y l IH]; intros [|i] Hx; simpl in *;
    try discriminate.
  - now inversion Hx.
  - now apply IH.
Qed.

Lemma lookup_zip_with_Some_2 {A B C} (f : A -> B -> C) (a : list A)
    (b : list B) (i : nat) x y :
  a !! i = Some x -> b !! i = Some y -> zip_with f a b !! i = Some (f x y).
Proof.
  revert b i. induction a as [|x' a IH]; intros [|y' b] [|i] Hx Hy;
    simpl in *; try discriminate.
  - inversion Hx. inversion Hy. reflexivity.
  - now apply IH.
Qed.

Lemma range_shift (first n : Z) :
  map (fun i => i + first) (range 0 n) = range first (n + first).
Proof.
  unfold range. rewrite map_map.
  replace (Z.to_nat (n + first - first)) with (Z.to_nat (n - 0))
    by (f_equal; lia).
  apply map_ext. intros i. lia.
Qed.

(** X16. With an active selection, [get_pha_information(use_poly=True)]
    reports no negative rate: a channel whose polynomial rate is negative
    gets the rate 0 and the rate error 0, and every other channel keeps the
    quotient of its polynomial counts, and of their error, by the
    exposure. *)
Theorem pha_rates_from_polynomials_are_not_negative
    (w : World) (products : SelectionProducts) (ti : TimeIntervalSet) :
  _time_selection_exists (self w) = true ->
  _time_intervals (self w) = Some ti ->
  length (_poly_count_err products) = length (_poly_counts products) ->
  exists c errors,
    (get_pha_information products true w).1 = Return c
    /\ pha_rate_error c = Some errors
    /\ Forall (fun r => negative r = false) (pha_rate c)
    /\ forall (i : nat) counts err,
         _poly_counts products !! i = Some counts ->
         _poly_count_err products !! i = Some err ->
         if negative (fdiv counts (_exposure products))
         then pha_rate c !! i = Some (Fin 0) /\ errors !! i = Some (Fin 0)
         else pha_rate c !! i = Some (fdiv counts (_exposure products))
              /\ errors !! i = Some (fdiv err (_exposure products)).
Proof.
  intros Hsel Hti Hlen.
  set (X := _exposure products).
  set (raw := map (fun c => fdiv c X) (_poly_counts products)).
  set (raw_err := map (fun e => fdiv e X) (_poly_count_err products)).
  exists {| pha_instrument := _instrument (self w);
            pha_telescope := _mission (self w);
            pha_tstart := absolute_start_time ti;
            pha_telapse :=
              (absolute_stop_time ti - absolute_start_time ti)%Q;
            pha_channel :=
              map (fun i => i + _first_channel (self w))
                  (range 0 (_n_channels (self w)));
            pha_rate := map (fun r => if negative r then Fin 0 else r) raw;
            pha_rate_error :=
              Some (zip_with (fun x (b : bool) => if b then Fin 0 else x)
                             raw_err (map negative raw));
            pha_quality :=
              match _native_quality (self w) with
              | None => replicate (length raw) 0
              | Some q => q
              end;
            pha_backfile := "NONE";
            pha_grouping := replicate (Z.to_nat (_n_channels (self w))) 1;
            pha_exposure := X;
            pha_response_file := _rsp_file (self w) |}.
  eexists. split; [|split; [reflexivity|split]].
  - eapply run_fst. unfold get_pha_information.
    step_ok. step_ok. proj_norm. rewrite Hsel. cbn [negb]. step_ok.
    step_with ltac:(
      fold X; fold raw; fold raw_err;
      step_with ltac:(unfold lift_result; rewrite assign_where_negative;
                      reflexivity);
      step_with ltac:(
        unfold lift_result, assign_where;
        subst raw raw_err; rewrite !length_map, Hlen, Nat.eqb_refl;
        reflexivity);
      reflexivity).
    cbv beta iota. step_attr Hti.
    rewrite length_map. reflexivity.
  - cbn [pha_rate]. apply Forall_map_intro. intros r.
    destruct (negative r) eqn:E; [reflexivity|exact E].
  - intros i counts err Hc He. cbn [pha_rate].
    assert (Hraw : raw !! i = Some (fdiv counts X))
      by exact (lookup_map_Some (fun c => fdiv c X) _ i counts Hc).
    assert (Hraw_err : raw_err !! i = Some (fdiv err X))
      by exact (lookup_map_Some (fun e => fdiv e X) _ i err He).
    rewrite (lookup_map_Some (fun r => if negative r then Fin 0 else r)
               raw i _ Hraw).
    rewrite (lookup_zip_with_Some_2
               (fun x (b : bool) => if b then Fin 0 else x)
               raw_err (map negative raw) i _ _ Hraw_err
               (lookup_map_Some negative raw i _ Hraw)).
    now destruct (negative (fdiv counts X)).
Qed.

(** X17. Whenever [get_pha_information] returns, the channels it lists
    are the channels that the fits iterate over, in the same order, with
    one grouping flag per channel; without native quality flags there is
    one quality flag per rate. Without an active selection it raises
    [RuntimeError] whatever is asked. *)
Theorem pha_channels_are_the_fitted_channels
    (w : World) (products : SelectionProducts) (use_poly : bool) :
  (_time_selection_exists (self w) = false ->
   (get_pha_information products use_poly w).1
   = Raise (RuntimeError no_selection_message))
  /\ (forall c,
        (get_pha_information products use_poly w).1 = Return c ->
        pha_channel c
        = range (_first_channel (self w))
                (_n_channels (self w) + _first_channel (self w))
        /\ length (pha_grouping c) = length (pha_channel c)
        /\ (_native_quality (self w) = None ->
            length (pha_quality c) = length (pha_rate c))).
Proof.
  split.
  - intros Hsel. eapply run_fst. unfold get_pha_information.
    step_ok. step_ok. proj_norm. rewrite Hsel.
    stop_with ltac:(reflexivity). reflexivity.
  - intros c. unfold get_pha_information. unfold_M.
    destruct w as [t d l]. simpl.
    destruct (_time_selection_exists t); simpl; [|discriminate].
    destruct use_poly; simpl.
    + destruct (assign_where _ _ _) as [rates|e]; simpl; [|discriminate].
      destruct (assign_where _ _ _) as [errs|e]; simpl; [|discriminate].
      destruct (_time_intervals t); simpl; [|discriminate].
      intros Hc. inversion Hc; subst c; clear Hc. simpl.
      rewrite range_shift, length_range, length_replicate.
      split; [reflexivity|]. split; [reflexivity|].
      intros ->. now rewrite length_replicate.
    + destruct (_time_intervals t); simpl; [|discriminate].
      intros Hc. inversion Hc; subst c; clear Hc. simpl.
      rewrite range_shift, length_range, length_replicate.
      split; [reflexivity|]. split; [reflexivity|].
      intros ->. now rewrite length_replicate.
Qed.

End PHAContainers.


(** ** Refitting at a new order *)

Section Refit.

Context `{Collaborators}.

Lemma when_true (c : bool) (m : M unit) : c = true -> when c m = m.
Proof. now intros ->. Qed.

Lemma when_false (c : bool) (m : M unit) : c = false -> when c m = mret tt.
Proof. now intros ->. Qed.

(** What a call that reads at least one interval does, up to the
    recomputation of the active selection. *)
Lemma set_polynomial_fit_interval_runs (w : World)
    (time_intervals : list string) (options : gmap string pyvalue)
    (b : bool) (iv : TimeInterval) (ivs : TimeIntervalSet) :
  options !! "unbinned" = Some (PyBool b) ->
  from_strings time_intervals = Return (iv :: ivs) ->
  exists g polys evs,
    set_polynomial_fit_interval time_intervals options w
      = recompute_active_selection
          (mkWorld
             (set_poly_fit_exists true
                (install_fit (if b then "Unbinned" else "Binned")
                   (if b then unbinned_fit_method else binned_fit_method)
                   g polys
                   (set_unbinned b
                      (set_poly_intervals (iv :: ivs) (self w)))))
             (fs w) (log w ++ evs))
    /\ length polys = Z.to_nat (_n_channels (self w))
    /\ (_user_poly_order (self w) <> -1 -> g = _user_poly_order (self w)).
Proof.
  intros Hopt Hivs.
  destruct (check_intervals_only_warn (iv :: ivs)
              (mkWorld (self w) (fs w)
                 (log w ++ [Entered "set_polynomial_fit_interval"])))
    as (evs & Hloop & _).
  destruct b.
  - destruct (unbinned_fit_polynomials_runs
                (mkWorld (set_unbinned true
                            (set_poly_intervals (iv :: ivs) (self w)))
                   (fs w)
                   ((log w ++ [Entered "set_polynomial_fit_interval"])
                      ++ evs)) iv ivs eq_refl)
      as (g & polys & evs' & Hrun & Hlen & _ & Hev).
    simpl in Hlen, Hev.
    destruct (_verbose (self w)) eqn:V;
      (exists g, polys; eexists; split;
       [ unfold set_polynomial_fit_interval;
         step_ok; rewrite Hopt; step_ok; rewrite Hivs; step_ok;
         step_with ltac:(exact Hloop); step_ok;
         step_with ltac:(step_ok; exact Hrun);
         step_ok; step_ok;
         first
           [ erewrite when_true by exact V;
             step_with ltac:(step_with ltac:(apply attr_Some; reflexivity);
                             reflexivity)
           | erewrite when_false by exact V; step_ok ];
         cbn [self fs log]; flatten_log; reflexivity
       | split; [exact Hlen|];
         destruct (Z.eqb (_user_poly_order (self w)) (-1)) eqn:E;
         [ apply Z.eqb_eq in E; intros; congruence
         | destruct Hev as [_ ->]; reflexivity ] ]).
  - destruct (fit_polynomials_runs
                (mkWorld (set_unbinned false
                            (set_poly_intervals (iv :: ivs) (self w)))
                   (fs w)
                   ((log w ++ [Entered "set_polynomial_fit_interval"])
                      ++ evs)) iv ivs eq_refl)
      as (g & polys & evs' & Hrun & Hlen & _ & Hev).
    simpl in Hlen, Hev.
    destruct (_verbose (self w)) eqn:V;
      (exists g, polys; eexists; split;
       [ unfold set_polynomial_fit_interval;
         step_ok; rewrite Hopt; step_ok; rewrite Hivs; step_ok;
         step_with ltac:(exact Hloop); step_ok;
         step_with ltac:(step_ok; exact Hrun);
         step_ok; step_ok;
         first
           [ erewrite when_true by exact V;
             step_with ltac:(step_with ltac:(apply attr_Some; reflexivity);
                             reflexivity)
           | erewrite when_false by exact V; step_ok ];
         cbn [self fs log]; flatten_log; reflexivity
       | split; [exact Hlen|];
         destruct (Z.eqb (_user_poly_order (self w)) (-1)) eqn:E;
         [ apply Z.eqb_eq in E; intros; congruence
         | destruct Hev as [_ ->]; reflexivity ] ]).
Qed.

End Refit.


Section RefitAtNewOrder.

Context `{Collaborators}.

(** X18. A fit and an active selection exist, and the stored intervals are
    read back from their printed form as they are. Setting the order to a
    value from 0 to 4 then refits: up to the recomputation of the active
    selection, the object holds the new order both as the user's order and
    as the grade in use, the same intervals, the same mode, and one new
    polynomial per channel. *)
Theorem set_poly_order_with_selection_refits_at_the_new_order
    (w : World) (v : Z) (iv : TimeInterval) (ivs : TimeIntervalSet)
    (b : bool) :
  _poly_fit_exists (self w) = true ->
  _time_selection_exists (self w) = true ->
  _poly_intervals (self w) = Some (iv :: ivs) ->
  _unbinned (self w) = Some b ->
  from_strings (split_on comma (to_string (iv :: ivs)))
    = Return (iv :: ivs) ->
  0 <= v <= 4 ->
  exists t evs polys,
    __set_poly_order (PyInt v) w
      = recompute_active_selection (mkWorld t (fs w) (log w ++ evs))
    /\ _user_poly_order t = v
    /\ _optimal_polynomial_grade t = Some v
    /\ _poly_intervals t = Some (iv :: ivs)
    /\ _unbinned t = Some b
    /\ _polynomials t = Some polys
    /\ length polys = Z.to_nat (_n_channels (self w)).
Proof.
  intros Hfit Hsel Hivs Hb Hread Hv.
  rewrite (set_poly_order_with_selection_refits w v (iv :: ivs) b
             Hfit Hsel Hivs Hb ltac:(lia)).
  match goal with
  | |- context [set_polynomial_fit_interval _ _ ?W] => set (w0 := W)
  end.
  destruct (set_polynomial_fit_interval_runs w0
              (split_on comma (to_string (iv :: ivs)))
              {[ "unbinned" := PyBool b ]} b iv ivs
              (lookup_singleton_eq _ _) Hread)
    as (g & polys & evs & Hrun & Hlen & Hg).
  assert (Hgv : g = v).
  { apply Hg. subst w0. cbn [self]. proj_norm. lia. }
  subst g. rewrite Hrun. subst w0. cbn [self fs log] in *.
  eexists _, _, polys. split.
  - rewrite <- app_assoc. reflexivity.
  - unfold install_fit. proj_norm. simpl in Hlen. easy.
Qed.

(** X23. A call with a readable, non-empty list of intervals on an object
    without an active selection returns, and the object then holds the
    intervals exactly as they were read, whatever the bounds of the data,
    the mode that was asked for, the mark that a fit exists, a grade that
    is the stored order unless that is -1, and one polynomial per
    channel. *)
Theorem successful_call_stores_what_it_read
    (w : World) (time_intervals : list string)
    (options : gmap string pyvalue) (b : bool)
    (iv : TimeInterval) (ivs : TimeIntervalSet) :
  options !! "unbinned" = Some (PyBool b) ->
  from_strings time_intervals = Return (iv :: ivs) ->
  _time_selection_exists (self w) = false ->
  exists t evs g polys,
    set_polynomial_fit_interval time_intervals options w
      = (Return tt, mkWorld t (fs w) (log w ++ evs))
    /\ _poly_intervals t = Some (iv :: ivs)
    /\ _unbinned t = Some b
    /\ _poly_fit_exists t = true
    /\ _optimal_polynomial_grade t = Some g
    /\ (_user_poly_order (self w) <> -1 -> g = _user_poly_order (self w))
    /\ _polynomials t = Some polys
    /\ length polys = Z.to_nat (_n_channels (self w)).
Proof.
  intros Hopt Hivs Hsel.
  destruct (set_polynomial_fit_interval_runs w time_intervals options b
              iv ivs Hopt Hivs) as (g & polys & evs & Hrun & Hlen & Hg).
  eexists _, evs, g, polys. split.
  - rewrite Hrun. unfold recompute_active_selection. step_ok.
    unfold install_fit. proj_norm. rewrite Hsel. reflexivity.
  - unfold install_fit. proj_norm. easy.
Qed.

End RefitAtNewOrder.


(** ** Saving twice, restoring twice *)

Lemma restored_rows_coefficients (C : list (list pyfloat))
    (V : list (list (list pyfloat))) :
  length C = length V ->
  Forall (Forall (fun x => isfinite x = true)) C ->
  map coefficients (restored_rows C V) = C.
Proof.
  unfold restored_rows. revert V.
  induction C as [|c C IH]; intros [|v V] Hlen Hfin; simpl in *;
    try discriminate; [reflexivity|].
  inversion Hfin; subst.
  rewrite filter_isfinite_id by assumption. f_equal. apply IH; [lia|easy].
Qed.

Lemma restored_rows_covariance (C : list (list pyfloat))
    (V : list (list (list pyfloat))) :
  length C = length V ->
  map covariance_matrix (restored_rows C V) = V.
Proof.
  unfold restored_rows. revert V.
  induction C as [|c C IH]; intros [|v V] Hlen; simpl in *;
    try discriminate; [reflexivity|].
  f_equal. apply IH. lia.
Qed.

Lemma selections_of_intervals (sels : list (Q * Q)) :
  zip (start_times (from_starts_and_stops (map fst sels) (map snd sels)))
      (stop_times (from_starts_and_stops (map fst sels) (map snd sels)))
  = sels.
Proof.
  unfold start_times, stop_times, from_starts_and_stops.
  induction sels as [|[a b] sels IH]; simpl; [|rewrite IH]; reflexivity.
Qed.

Section Twice.

Context `{Collaborators}.

(** X19. After a save that succeeded, a second save to the same name is
    refused without leave to overwrite, and the file keeps what the first
    save wrote; with leave to overwrite it goes through. *)
Theorem second_save_needs_leave_to_overwrite
    (w : World) (filename : string) (overwrite : bool)
    (polys : list Polynomial) (g : Z) (ivs : TimeIntervalSet) (b : bool) :
  _poly_fit_exists (self w) = true ->
  _polynomials (self w) = Some polys ->
  _optimal_polynomial_grade (self w) = Some g ->
  _poly_intervals (self w) = Some ivs ->
  _unbinned (self w) = Some b ->
  fs w !! saved_path filename = None ->
  let w1 := (save_background filename overwrite w).2 in
  (save_background filename overwrite w).1 = Return tt
  /\ (save_background filename false w1).1
     = Raise (IOError (exists_message (saved_path filename)))
  /\ fs (save_background filename false w1).2 = fs w1
  /\ (save_background filename true w1).1 = Return tt.
Proof.
  intros Hfit Hp Hg Hivs Hb Hfree.
  destruct (save_background_result w filename overwrite polys g ivs b
              Hfit Hp Hg Hivs Hb (or_introl Hfree)) as (evs & Hsave).
  intros w1. subst w1. rewrite Hsave. cbn [fst snd].
  match goal with
  | |- context [save_background filename false ?W] => set (w1 := W)
  end.
  assert (Hfile : fs w1 !! saved_path filename
                  = Some (mkFile (saved_store polys g ivs b
                            (fit_method (_fit_method_info (self w)))) true))
    by apply lookup_insert_eq.
  rewrite (save_background_stops w1 filename false _ Hfile
             (or_introl eq_refl)).
  destruct (save_background_result w1 filename true polys g ivs b
              Hfit Hp Hg Hivs Hb) as (evs' & Hsave').
  { right. split; [reflexivity|]. eexists. split; [exact Hfile|reflexivity]. }
  rewrite Hsave'. easy.
Qed.

(** X20. Restoring the same file a second time changes nothing: the
    object after the second [restore_fit] is the object after the first,
    and the files are never touched. Here no active selection exists. *)
Theorem restore_fit_twice_is_restore_fit_once
    (w : World) (filename : string) (f : file) C V md :
  fs w !! sanitize_filename filename = Some f ->
  contents f = mkHDFStore (Some C) (Some V) (Some md) ->
  length C = length V ->
  md_poly_selections md <> [] ->
  _time_selection_exists (self w) = false ->
  let w1 := (restore_fit filename w).2 in
  (restore_fit filename w).1 = Return tt
  /\ (restore_fit filename w1).1 = Return tt
  /\ self (restore_fit filename w1).2 = self w1
  /\ fs (restore_fit filename w1).2 = fs w.
Proof.
  intros Hfile Hcont Hlen Hsels Hsel.
  assert (Hrun : forall w0,
    fs w0 = fs w -> _time_selection_exists (self w0) = false ->
    restore_fit filename w0
    = (Return tt,
       mkWorld (restored_object C V md (self w0)) (fs w0)
         (log w0 ++ [Entered "restore_fit"]))).
  { intros w0 Hfs Hsel0.
    rewrite (restore_fit_reads_store w0 filename f C V md
               ltac:(now rewrite Hfs) Hcont Hlen).
    destruct (md_poly_selections md) eqn:E; [easy|].
    unfold recompute_active_selection. step_ok.
    unfold restored_object. proj_norm. rewrite Hsel0. reflexivity. }
  intros w1. subst w1. rewrite (Hrun w eq_refl Hsel). cbn [fst snd].
  rewrite Hrun; [|reflexivity|exact Hsel].
  cbn [fst snd self fs]. split; [reflexivity|]. split; [reflexivity|].
  split; [|reflexivity].
  apply restored_object_twice.
Qed.

(** X21. A store whose coefficients are all finite is restored into an
    object without an active selection, and the object is saved to a free
    name: the new file holds the tables and the metadata of the store that
    was read. *)
Theorem save_after_restore_reproduces_the_store
    (w : World) (filename copy : string) (overwrite : bool) (f : file)
    C V md :
  fs w !! sanitize_filename filename = Some f ->
  contents f = mkHDFStore (Some C) (Some V) (Some md) ->
  length C = length V ->
  Forall (Forall (fun x => isfinite x = true)) C ->
  md_poly_selections md <> [] ->
  _time_selection_exists (self w) = false ->
  fs w !! saved_path copy = None ->
  let w1 := (restore_fit filename w).2 in
  let w2 := (save_background copy overwrite w1).2 in
  (restore_fit filename w).1 = Return tt
  /\ (save_background copy overwrite w1).1 = Return tt
  /\ contents <$> (fs w2 !! saved_path copy) = Some (contents f).
Proof.
  intros Hfile Hcont Hlen Hfin Hsels Hsel Hfree.
  assert (Hrun :
    restore_fit filename w
    = (Return tt,
       mkWorld (restored_object C V md (self w)) (fs w)
         (log w ++ [Entered "restore_fit"]))).
  { rewrite (restore_fit_reads_store w filename f C V md Hfile Hcont Hlen).
    destruct (md_poly_selections md) eqn:E; [easy|].
    unfold recompute_active_selection. step_ok.
    unfold restored_object. proj_norm. rewrite Hsel. reflexivity. }
  intros w1 w2. subst w2 w1. rewrite Hrun. cbn [fst snd].
  match goal with
  | |- context [save_background copy overwrite ?W] => set (w1 := W)
  end.
  destruct (save_background_result w1 copy overwrite
              (restored_rows C V) (md_poly_order md)
              (from_starts_and_stops (map fst (md_poly_selections md))
                                     (map snd (md_poly_selections md)))
              (md_unbinned md))
    as (evs & Hsave); try reflexivity; [now left|].
  rewrite Hsave. cbn [fst snd fs].
  split; [reflexivity|]. split; [reflexivity|].
  rewrite lookup_insert_eq. cbn [fmap option_fmap option_map contents].
  f_equal. rewrite Hcont. unfold saved_store.
  rewrite (restored_rows_coefficients C V Hlen Hfin),
    (restored_rows_covariance C V Hlen), selections_of_intervals.
  subst w1. unfold restored_object. proj_norm.
  destruct md. reflexivity.
Qed.

End Twice.

(** ** Construction *)

(** X22. The constructor fails exactly when quality flags are given and
    their number is not the number of channels. Otherwise it returns an
    object without a fit and without a selection, with the order on
    automatic, and it warns once for each of the instrument and mission
    names that is missing, which it sets to UNKNOWN. *)
Theorem constructor_checks_the_quality_flags
    (start stop : Q) (n_channels : Z) (native_quality : option (list Z))
    (first_channel : Z) (rsp_file mission instrument : option string)
    (verbose : bool) (arrival_times : list Q) (energies : list Z) :
  let run := __init__ start stop n_channels native_quality first_channel
               rsp_file mission instrument verbose arrival_times energies in
  ((exists e, run.1 = Raise e)
   <-> exists q, native_quality = Some q
                 /\ Z.of_nat (length q) <> n_channels)
  /\ (forall t, run.1 = Return t ->
        _poly_fit_exists t = false
        /\ _time_selection_exists t = false
        /\ _user_poly_order t = -1
        /\ _polynomials t = None
        /\ _optimal_polynomial_grade t = None
        /\ _instrument t = default "UNKNOWN" instrument
        /\ _mission t = default "UNKNOWN" mission
        /\ length run.2
           = (match instrument with Some _ => 0 | None => 1 end
              + match mission with Some _ => 0 | None => 1 end)%nat).
Proof.
  intros run. subst run. unfold __init__.
  destruct native_quality as [q|]; simpl.
  - destruct (Z.eqb_spec (Z.of_nat (length q)) n_channels) as [Heq|Hne];
      simpl.
    + split.
      * split; [intros (e & He); discriminate|].
        intros (q' & Hq & Hne). inversion Hq; subst. contradiction.
      * intros t Ht. inversion Ht; subst t; clear Ht. simpl.
        rewrite length_app. destruct instrument, mission; easy.
    + split.
      * split; [intros _; eauto|intros _; eauto].
      * intros t Ht. discriminate.
  - split.
    + split; [intros (e & He); discriminate|].
      intros (q' & Hq & _). discriminate.
    + intros t Ht. inversion Ht; subst t; clear Ht. simpl.
      rewrite length_app. destruct instrument, mission; easy.
Qed.

(** ** Binning: which events reach the binner *)

Lemma channel_mask_same_length (energies : list Z) (phas : list Z)
    (g : Z -> bool) :
  channel_mask energies phas (map g energies)
  = inr (map (fun e => g e || existsb (Z.eqb e) phas) energies).
Proof.
  revert g. induction phas as [|channel phas IH]; intros g; simpl.
  - f_equal. apply map_ext. intros e. now rewrite orb_false_r.
  - unfold broadcast_or. rewrite !length_map, Nat.eqb_refl.
    change (np.logical_or (map g energies)
              (map (fun e => Z.eqb e channel) energies))
      with (zip_with orb (map g energies)
              (map (fun e => Z.eqb e channel) energies)).
    rewrite (zip_with_map_same orb g (fun e => Z.eqb e channel) energies).
    rewrite IH. f_equal. apply map_ext. intros e. now rewrite orb_assoc.
Qed.

Lemma replicate_false_map {A} (l : list A) :
  replicate (length l) false = map (fun _ => false) l.
Proof. induction l as [|x l IH]; simpl; [|rewrite IH]; reflexivity. Qed.

Lemma select_zip_fst {A B} (f : A * B -> bool) (a : list A) (b : list B) :
  length a = length b ->
  np.select a (map f (zip a b)) = map fst (List.filter f (zip a b)).
Proof.
  revert b. induction a as [|x a IH]; intros [|y b] Hlen; simpl in *;
    try discriminate; [reflexivity|].
  rewrite (IH b) by lia. now destruct (f (x, y)).
Qed.

Lemma map_zip_snd {A B C} (f : B -> C) (a : list A) (b : list B) :
  length a = length b ->
  map f b = map (fun p => f p.2) (zip a b).
Proof.
  revert b. induction a as [|x a IH]; intros [|y b] Hlen; simpl in *;
    try discriminate; [reflexivity|].
  now rewrite (IH b) by lia.
Qed.

Lemma events_in_window_filter (events : list Q) (start stop : Q) :
  events_in_window events start stop
  = List.filter (fun t => Qleb t stop && Qleb start t) events.
Proof.
  unfold events_in_window.
  change (np.logical_and (map (fun t => Qleb t stop) events)
            (map (fun t => Qleb start t) events))
    with (zip_with andb (map (fun t => Qleb t stop) events)
            (map (fun t => Qleb start t) events)).
  rewrite (zip_with_map_same andb (fun t => Qleb t stop)
             (fun t => Qleb start t) events).
  exact (select_map (fun t => Qleb t stop && Qleb start t) events).
Qed.

Lemma filter_map_fst {A B} (f : A -> bool) (l : list (A * B)) :
  List.filter f (map fst l) = map fst (List.filter (fun p => f p.1) l).
Proof.
  induction l as [|[x y] l IH]; simpl; [reflexivity|].
  rewrite IH. now destruct (f x).
Qed.

Lemma filter_filter_andb {A} (f g : A -> bool) (l : list A) :
  List.filter g (List.filter f l) = List.filter (fun x => f x && g x) l.
Proof.
  induction l as [|x l IH]; simpl; [reflexivity|].
  destruct (f x); simpl; [destruct (g x)|]; now rewrite IH.
Qed.

Lemma in_range (a b z : Z) : In z (range a b) <-> a <= z < b.
Proof.
  unfold range. rewrite in_map_iff. split.
  - intros (i & <- & Hi). apply in_seq in Hi. lia.
  - intros Hz. exists (Z.to_nat (z - a)). split; [lia|].
    apply in_seq. lia.
Qed.

Lemma length_range_between (a b : Z) :
  length (range a b) = Z.to_nat (b - a).
Proof. unfold range. now rewrite length_map, length_seq. Qed.

Lemma in_select {A} (a : list A) (m : list bool) (x : A) :
  In x (np.select a m) -> In x a.
Proof.
  revert m. induction a as [|y a IH]; intros [|b m]; simpl; try tauto.
  destruct b; simpl; [intros [->|Hx]|intros Hx]; eauto.
Qed.

(** X24. With a channel mask, on a stream with one channel per arrival
    time, [bin_by_significance] hands to the binner the events between
    [start] and [stop], ends included, whose channel the mask selects among
    [first_channel, ..., n_channels - 1], in the order of the stream. A
    channel from [n_channels] on is never selected. *)
Theorem significance_events_are_the_masked_channels_in_the_window
    (s : TimeSeries) (start stop : Q) (mask : list bool) :
  length (_arrival_times s) = length (_energies s) ->
  length mask = length (range (_first_channel s) (_n_channels s)) ->
  let phas := np.select (range (_first_channel s) (_n_channels s)) mask in
  let chosen :=
    List.filter
      (fun p => existsb (Z.eqb p.2) phas
                && (Qleb p.1 stop && Qleb start p.1))
      (zip (_arrival_times s) (_energies s)) in
  bin_by_significance_events s start stop (Some mask)
    = inr (map fst chosen)
  /\ forall p, In p chosen ->
       _first_channel s <= p.2 < _n_channels s
       /\ (start <= p.1)%Q /\ (p.1 <= stop)%Q.
Proof.
  intros Hlen Hmask phas chosen. split.
  - unfold bin_by_significance_events, boolean_index.
    rewrite Hmask, Nat.eqb_refl. fold phas.
    rewrite Hlen, replicate_false_map, channel_mask_same_length.
    rewrite length_map, <- Hlen, Nat.eqb_refl.
    cbn [orb]. f_equal.
    rewrite (map_zip_snd (fun e => existsb (Z.eqb e) phas)
               (_arrival_times s) (_energies s) Hlen).
    rewrite (select_zip_fst (fun p => existsb (Z.eqb p.2) phas)
               (_arrival_times s) (_energies s) Hlen).
    rewrite events_in_window_filter, filter_map_fst, filter_filter_andb.
    reflexivity.
  - intros [t e] Hp. apply filter_In in Hp. destruct Hp as [_ Hp].
    apply andb_true_iff in Hp. destruct Hp as [Hch Hwin].
    apply andb_true_iff in Hwin. destruct Hwin as [Hstop Hstart].
    apply existsb_exists in Hch. destruct Hch as (c & Hc & Heq).
    apply Z.eqb_eq in Heq. cbn [fst snd] in *. subst c.
    apply in_select, in_range in Hc.
    split; [exact Hc|]. split; [now apply Qleb_le|now apply Qleb_le].
Qed.

(** X25. Without a mask [bin_by_significance] hands over the events that
    [bin_by_constant] and [bin_by_bayesian_blocks] hand over: the arrival
    times between [start] and [stop], ends included, in the order of the
    stream; no error is possible. *)
Theorem binning_without_mask_takes_the_window
    (s : TimeSeries) (start stop : Q) :
  bin_by_significance_events s start stop None
    = inr (bin_by_constant_events s start stop)
  /\ bin_by_constant_events s start stop
     = List.filter (fun t => Qleb start t && Qleb t stop) (_arrival_times s)
  /\ forall t, In t (bin_by_constant_events s start stop)
               <-> In t (_arrival_times s)
                   /\ (start <= t)%Q /\ (t <= stop)%Q.
Proof.
  assert (Hc : bin_by_constant_events s start stop
               = List.filter (fun t => Qleb start t && Qleb t stop)
                             (_arrival_times s)).
  { unfold bin_by_constant_events.
    change (np.logical_and (map (fun t => Qleb start t) (_arrival_times s))
              (map (fun t => Qleb t stop) (_arrival_times s)))
      with (zip_with andb (map (fun t => Qleb start t) (_arrival_times s))
              (map (fun t => Qleb t stop) (_arrival_times s))).
    rewrite (zip_with_map_same andb (fun t => Qleb start t)
               (fun t => Qleb t stop) (_arrival_times s)).
    exact (select_map (fun t => Qleb start t && Qleb t stop)
             (_arrival_times s)). }
  split; [|split; [exact Hc|]].
  - unfold bin_by_significance_events. f_equal.
    rewrite events_in_window_filter, Hc.
    apply filter_ext. intros t. apply andb_comm.
  - intros t. rewrite Hc, filter_In, andb_true_iff.
    split.
    + intros (Hin & H1 & H2).
      split; [exact Hin|]. split; now apply Qleb_le.
    + intros (Hin & H1 & H2).
      split; [exact Hin|]. split; now apply Qleb_le.
Qed.

Section MaskForBoth.

Context `{Collaborators}.

(** X26. [bin_by_significance] uses its mask twice: to index
    [np.arange(first_channel, n_channels)] and, through the background
    getter, to index the polynomials. After a fit with one polynomial per
    channel and with a positive first channel no mask fits both: either the
    selection of the events or the background getter fails with
    [IndexError]. *)
Theorem significance_mask_cannot_serve_both_uses
    (w : World) (polys : list Polynomial) (start stop a b : Q)
    (mask : list bool) :
  _polynomials (self w) = Some polys ->
  length polys = Z.to_nat (_n_channels (self w)) ->
  0 < _first_channel (self w) ->
  0 < _n_channels (self w) ->
  bin_by_significance_events (self w) start stop (Some mask)
    = inl BooleanIndexError
  \/ (get_total_poly_count a b (Some mask) w).1 = Raise IndexError.
Proof.
  intros Hpolys Hlen Hfirst Hn.
  destruct (Nat.eqb (length mask) (length polys)) eqn:E.
  - left. apply Nat.eqb_eq in E.
    unfold bin_by_significance_events, boolean_index.
    replace (Nat.eqb (length mask)
               (length (range (_first_channel (self w))
                          (_n_channels (self w))))) with false;
      [reflexivity|].
    symmetry. apply Nat.eqb_neq. rewrite length_range_between, E, Hlen. lia.
  - right. eapply run_fst. unfold get_total_poly_count.
    step_ok.
    stop_with ltac:(unfold masked_polynomials; step_ok;
                    step_attr Hpolys; rewrite E; reflexivity).
    reflexivity.
Qed.

End MaskForBoth.

(** ** The default mode (C10) *)

Section DefaultMode.

Context `{Collaborators}.

(** C10. A call without the [unbinned] option stores the mode
    [unbinned = True] and runs the unbinned fit. When no interval was read
    the fit stops with [IndexError], the mode and the label of the unbinned
    fit being stored. Otherwise, up to the recomputation of the active
    selection, the object holds the mode [True], the given intervals, the
    label and the method of the unbinned fit, a grade, and one polynomial
    per channel, each of them a result of the unbinned regression at that
    grade; without an active selection the call returns with this object.
    The call is the call with [unbinned=True]: it enters the unbinned fit
    and never the binned fit. Whatever the options, a run that enters the
    binned fit was given [unbinned=False]. *)
Theorem unbinned_is_the_default (w : World)
    (time_intervals : list string) (options : gmap string pyvalue)
    (ivs : TimeIntervalSet) :
  options !! "unbinned" = None ->
  from_strings time_intervals = Return ivs ->
  (exists t evs,
     set_polynomial_fit_interval time_intervals options w
       = match ivs with
         | [] => (Raise IndexError, mkWorld t (fs w) (log w ++ evs))
         | _ :: _ =>
             recompute_active_selection
               (mkWorld t (fs w) (log w ++ evs))
         end
     /\ _unbinned t = Some true
     /\ _fit_method_info t
        = mkFitMethodInfo (Some "Unbinned") (Some unbinned_fit_method)
     /\ _poly_fit_exists t = true
     /\ _poly_intervals t = Some ivs
     /\ (ivs <> [] ->
         (_time_selection_exists (self w) = false ->
          set_polynomial_fit_interval time_intervals options w
            = (Return tt, mkWorld t (fs w) (log w ++ evs)))
         /\ exists g polys,
              _optimal_polynomial_grade t = Some g
              /\ (_user_poly_order (self w) <> -1 ->
                  g = _user_poly_order (self w))
              /\ _polynomials t = Some polys
              /\ length polys = Z.to_nat (_n_channels (self w))
              /\ Forall (fun p => exists ev ts te x,
                                   p = (unbinned_polyfit ev g ts te x).1)
                        polys))
  /\ set_polynomial_fit_interval time_intervals options w
     = set_polynomial_fit_interval time_intervals
         (<["unbinned" := PyBool true]> options) w
  /\ In (Entered "_unbinned_fit_polynomials")
        (events_during
           (set_polynomial_fit_interval time_intervals options) w)
  /\ ~ In (Entered "_fit_polynomials")
          (events_during
             (set_polynomial_fit_interval time_intervals options) w)
  /\ (forall options' w',
        In (Entered "_fit_polynomials")
           (events_during
              (set_polynomial_fit_interval time_intervals options') w')
        -> options' !! "unbinned" = Some (PyBool false)).
Proof.
  intros Hopt Hivs.
  split;
    [|exact (call_without_option_enters_unbinned_fit w time_intervals
               options ivs Hopt Hivs)].
  destruct ivs as [|iv ivs].
  - exists (start_fit "Unbinned" unbinned_fit_method
              (set_unbinned true (set_poly_intervals [] (self w)))),
           [Entered "set_polynomial_fit_interval";
            Entered "_unbinned_fit_polynomials"].
    split.
    { unfold set_polynomial_fit_interval. step_ok. rewrite Hopt, Hivs.
      do 4 step_ok.
      stop_with ltac:(
        step_ok; apply unbinned_fit_polynomials_no_interval; reflexivity).
      cbn [self fs log]. flatten_log. reflexivity. }
    split; [reflexivity|]. split; [reflexivity|]. split; [reflexivity|].
    split; [reflexivity|]. intros Hne. now contradiction Hne.
  - destruct (check_intervals_only_warn (iv :: ivs)
                (mkWorld (self w) (fs w)
                   (log w ++ [Entered "set_polynomial_fit_interval"])))
      as (evs & Hloop & _).
    destruct (unbinned_fit_polynomials_runs
                (mkWorld (set_unbinned true
                            (set_poly_intervals (iv :: ivs) (self w)))
                   (fs w)
                   ((log w ++ [Entered "set_polynomial_fit_interval"])
                      ++ evs)) iv ivs eq_refl)
      as (g & polys & evs' & Hrun & Hlen & Hall & Hev).
    simpl in Hlen, Hev.
    assert (Hcall : exists evs'',
      set_polynomial_fit_interval time_intervals options w
        = recompute_active_selection
            (mkWorld
               (set_poly_fit_exists true
                  (install_fit "Unbinned" unbinned_fit_method g polys
                     (set_unbinned true
                        (set_poly_intervals (iv :: ivs) (self w)))))
               (fs w) (log w ++ evs''))).
    { destruct (_verbose (self w)) eqn:V;
        (eexists; unfold set_polynomial_fit_interval;
         step_ok; rewrite Hopt; step_ok; rewrite Hivs; step_ok;
         step_with ltac:(exact Hloop); step_ok;
         step_with ltac:(step_ok; exact Hrun);
         step_ok; step_ok;
         first
           [ erewrite when_true by exact V;
             step_with ltac:(step_with ltac:(apply attr_Some; reflexivity);
                             reflexivity)
           | erewrite when_false by exact V; step_ok ];
         cbn [self fs log]; flatten_log; reflexivity). }
    destruct Hcall as (evs'' & Hcall).
    eexists _, evs''. split; [exact Hcall|].
    split; [reflexivity|]. split; [reflexivity|]. split; [reflexivity|].
    split; [reflexivity|]. intros _. split.
    + intros Hsel. rewrite Hcall. unfold recompute_active_selection.
      step_ok. unfold install_fit. proj_norm. rewrite Hsel. reflexivity.
    + exists g, polys. split; [reflexivity|]. split.
      * destruct (Z.eqb (_user_poly_order (self w)) (-1)) eqn:E;
          [ apply Z.eqb_eq in E; intros; congruence
          | destruct Hev as [_ ->]; reflexivity ].
      * split; [reflexivity|]. split; [exact Hlen|exact Hall].
Qed.

End DefaultMode.

(** * The properties on the small instrument *)

Import Demo.
Import DemoStates.

(** C1. Data from 0 to 100; the intervals -10 to 50 and 200 to 300 are
    given. The call warns that the first is changed to 0-50 and that the
    second is dropped, and then stores both as they were given: the
    validation of the design document would store 0-50 alone. *)
Theorem set_polynomial_fit_interval_stores_unclipped_intervals :
  let run := set_polynomial_fit_interval ["-10-50"; "200-300"]
               {[ "unbinned" := PyBool false ]} world0 in
  let given := [mkTimeInterval (-10) 50; mkTimeInterval 200 300] in
  run.1 = Return tt
  /\ _poly_intervals (self run.2) = Some given
  /\ spec_clip_intervals 0 100 given = [mkTimeInterval 0 50]
  /\ _poly_intervals (self run.2) <> Some (spec_clip_intervals 0 100 given)
  /\ filter is_warning_b (log run.2)
     = [Warning
          "The time interval %f-%f started before the first arrival time (%f), so we are changing the intervals to %f-%f"
          [AFloat (-10); AFloat 50; AFloat 0; AFloat 0; AFloat 50];
        Warning
          "The time interval %f-%f ended after the last arrival time (%f), so we are changing the intervals to %f-%f"
          [AFloat 200; AFloat 300; AFloat 100; AFloat 200; AFloat 100];
        Warning
          "The time interval %f-%f is out side of the arrival times and will be dropped"
          [AFloat 200; AFloat 100]].
Proof.
  vm_compute. repeat split; try reflexivity. discriminate.
Qed.



(** C3 on the instrument: the log-likelihoods 100, 90, 80, 79, 78 give the
    statistics 20, 20, 2, 2. *)
Lemma grade_selectors_pick_largest_significant_witness :
  _poly_intervals (self fitted_world)
    = Some [mkTimeInterval 0 50; mkTimeInterval 60 100]
  /\ (exists g,
        (_fit_global_and_determine_optimum_grade [1; 2] [0; 1]%Q [1; 1]%Q
           fitted_world).1 = Return g
        /\ largest_significant
             (fun k => (polyfit [0; 1]%Q [1; 2] (Z.of_nat k) [1; 1]%Q).2) g)
  /\ (exists g,
        (_unbinned_fit_global_and_determine_optimum_grade [5; 6]%Q 90
           fitted_world).1 = Return g
        /\ largest_significant
             (fun k =>
                (unbinned_polyfit [5; 6]%Q (Z.of_nat k)
                   (start_times [mkTimeInterval 0 50; mkTimeInterval 60 100])
                   (stop_times [mkTimeInterval 0 50; mkTimeInterval 60 100])
                   90).2) g).
Proof.
  split; [vm_compute; reflexivity|].
  apply (grade_selectors_pick_largest_significant (H := toy)
           [1; 2] [0; 1]%Q [1; 1]%Q [5; 6]%Q 90 fitted_world
           [mkTimeInterval 0 50; mkTimeInterval 60 100]).
  vm_compute. reflexivity.
Defined.

(** C4 on the instrument: the object as constructed. *)
Lemma get_poly_info_without_fit_returns_None_witness :
  _poly_fit_exists (self world0) = false
  /\ get_poly_info world0
     = (Return None,
        mkWorld (self world0) (fs world0)
          (log world0 ++ [Entered "get_poly_info"])).
Proof.
  split; [reflexivity|].
  apply (get_poly_info_without_fit_returns_None (H := toy) world0).
  reflexivity.
Defined.

(** C5 on the instrument: after a fit and without an active selection, the
    order is set to 1; the grade in use stays 2. *)
Lemma set_poly_order_without_selection_does_not_refit_witness :
  _poly_fit_exists (self fitted_world) = true
  /\ _time_selection_exists (self fitted_world) = false
  /\ __set_poly_order (PyInt 1) fitted_world
     = (Return tt,
        mkWorld (set_user_poly_order 1 (self fitted_world))
          (fs fitted_world)
          (log fitted_world
             ++ [Entered "__set_poly_order"; Printed refit_message [AInt 1]]))
  /\ _optimal_polynomial_grade (self fitted_world) = Some 2.
Proof.
  split; [vm_compute; reflexivity|]. split; [vm_compute; reflexivity|].
  split; [|vm_compute; reflexivity].
  apply (set_poly_order_without_selection_does_not_refit (H := toy)
           fitted_world 1).
  - vm_compute. reflexivity.
  - vm_compute. reflexivity.
  - lia.
Defined.

(** C6 on the instrument: a call that gives no interval leaves an empty
    interval set, and both fits then fail with [IndexError], which is not an
    error with a message of the class. *)
Lemma fit_on_empty_interval_set_is_not_descriptive :
  _poly_intervals (self no_interval_world) = Some []
  /\ ~ (exists e, (_fit_polynomials no_interval_world).1 = Raise e
                  /\ descriptive e = true)
  /\ ~ (exists e, (_unbinned_fit_polynomials no_interval_world).1 = Raise e
                  /\ descriptive e = true)
  /\ (set_polynomial_fit_interval [] ∅ world0).1 = Raise IndexError.
Proof.
  split; [vm_compute; reflexivity|]. split; [|split].
  - intros (e & He & Hd). vm_compute in He. inversion He; subst e.
    discriminate Hd.
  - intros (e & He & Hd). vm_compute in He. inversion He; subst e.
    discriminate Hd.
  - vm_compute. reflexivity.
Qed.

Lemma fit_on_empty_interval_set_raises_IndexError_witness :
  _poly_intervals (self no_interval_world) = Some []
  /\ (_fit_polynomials no_interval_world).1 = Raise IndexError
  /\ (_unbinned_fit_polynomials no_interval_world).1 = Raise IndexError
  /\ _polynomials (self (_fit_polynomials no_interval_world).2)
     = _polynomials (self no_interval_world).
Proof.
  split; [vm_compute; reflexivity|].
  destruct (fit_on_empty_interval_set_raises_IndexError (H := toy)
              no_interval_world) as [(Hb & Hp & _) (Hu & _)];
    [vm_compute; reflexivity|].
  repeat split; assumption.
Defined.

(** C7 on the instrument: the first of the two channels, from 0 to 10. *)
Lemma total_poly_count_and_error_over_selected_witness :
  let polys :=
    [mkPolynomial [Fin 4; Fin 0; Fin 0] [[Fin 1]];
     mkPolynomial [Fin 2; Fin 0; Fin 0] [[Fin 1]]] in
  let mask := Some [true; false] in
  let selected := np.select polys (default (np.ones_like polys) mask) in
  _polynomials (self fitted_world) = Some polys
  /\ (exists total,
        (get_total_poly_count 0 10 mask fitted_world).1 = Return total
        /\ (total == Qsum (map (fun p => integral p 0 10) selected))%Q)
  /\ (exists squares,
        (get_total_poly_error 0 10 mask fitted_world).1
          = Return (np_sqrt squares)
        /\ (squares ==
            Qsum (map (fun p => integral_error p 0 10 ^ 2) selected))%Q).
Proof.
  intros polys mask selected.
  split; [vm_compute; reflexivity|].
  destruct (total_poly_count_and_error_over_selected (H := toy)
              fitted_world polys 0 10 mask) as (_ & Hc & He).
  - vm_compute. reflexivity.
  - intros m Hm. inversion Hm. reflexivity.
  - split; assumption.
Defined.

(** C8 on the instrument: "bkg.h5" exists and cannot be removed. *)
Lemma save_background_refuses_existing_destination_witness :
  fs locked_world !! saved_path "bkg" = Some (mkFile empty_store false)
  /\ save_background "bkg" true locked_world
     = (Raise (IOError (cannot_remove_message "bkg.h5")),
        mkWorld (self locked_world) (fs locked_world)
          (log locked_world ++ [Entered "save_background"]))
  /\ save_background "bkg" false locked_world
     = (Raise (IOError (exists_message "bkg.h5")),
        mkWorld (self locked_world) (fs locked_world)
          (log locked_world ++ [Entered "save_background"])).
Proof.
  split; [vm_compute; reflexivity|]. split.
  - apply (save_background_refuses_existing_destination (H := toy)
             locked_world "bkg" true (mkFile empty_store false)).
    + vm_compute. reflexivity.
    + right. reflexivity.
  - apply (save_background_refuses_existing_destination (H := toy)
             locked_world "bkg" false (mkFile empty_store false)).
    + vm_compute. reflexivity.
    + left. reflexivity.
Defined.

(** C9 on the instrument: order 2, one interval. *)
Lemma explicit_degree_skips_grade_selection_witness :
  0 <= 2 <= 4
  /\ _user_poly_order (self order2_world) = 2
  /\ _poly_intervals (self order2_world) = Some [mkTimeInterval 0 50]
  /\ events_during _fit_polynomials order2_world
     = [Entered "_fit_polynomials"]
  /\ _optimal_polynomial_grade (self (_fit_polynomials order2_world).2)
     = Some 2
  /\ events_during _unbinned_fit_polynomials order2_world
     = [Entered "_unbinned_fit_polynomials"]
  /\ _optimal_polynomial_grade
       (self (_unbinned_fit_polynomials order2_world).2) = Some 2.
Proof.
  split; [lia|]. split; [reflexivity|]. split; [reflexivity|].
  destruct (explicit_degree_skips_grade_selection (H := toy)
              order2_world 2 (mkTimeInterval 0 50) [])
    as ((_ & Hev & Hg & _) & (_ & Hev' & Hg' & _) & _);
    [lia|reflexivity|reflexivity|].
  repeat split; assumption.
Defined.

(** C10 on the instrument: one interval and no option. *)
Lemma unbinned_is_the_default_witness :
  (∅ : gmap string pyvalue) !! "unbinned" = None
  /\ from_strings ["0-50"] = Return [mkTimeInterval 0 50]
  /\ (exists t evs g polys,
        set_polynomial_fit_interval ["0-50"] ∅ world0
          = (Return tt, mkWorld t (fs world0) (log world0 ++ evs))
        /\ _unbinned t = Some true
        /\ _fit_method_info t
           = mkFitMethodInfo (Some "Unbinned") (Some "mle")
        /\ _poly_intervals t = Some [mkTimeInterval 0 50]
        /\ _optimal_polynomial_grade t = Some g
        /\ _polynomials t = Some polys
        /\ length polys = 2%nat)
  /\ set_polynomial_fit_interval ["0-50"] ∅ world0
     = set_polynomial_fit_interval ["0-50"]
         (<["unbinned" := PyBool true]> ∅) world0
  /\ In (Entered "_unbinned_fit_polynomials")
        (events_during (set_polynomial_fit_interval ["0-50"] ∅) world0)
  /\ ~ In (Entered "_fit_polynomials")
          (events_during (set_polynomial_fit_interval ["0-50"] ∅) world0).
Proof.
  split; [reflexivity|]. split; [vm_compute; reflexivity|].
  destruct (unbinned_is_the_default (H := toy) world0 ["0-50"] ∅
              [mkTimeInterval 0 50])
    as ((t & evs & _ & Hmode & Hinfo & _ & Hivs & Hmore)
        & Heq & Hin & Hout & _);
    [reflexivity|vm_compute; reflexivity|].
  destruct Hmore as (Hret & g & polys & Hg & _ & Hp & Hlen & _);
    [discriminate|].
  split.
  - exists t, evs, g, polys.
    exact (conj (Hret eq_refl)
             (conj Hmode (conj Hinfo (conj Hivs (conj Hg (conj Hp Hlen)))))).
  - exact (conj Heq (conj Hin Hout)).
Defined.

(** ** The further properties on the small instrument *)

(** X1 on 7 and 2: four chunks. *)
Lemma ceildiv_rounds_up_witness :
  ceildiv 7 2 = Some 4
  /\ exists q, ceildiv 7 2 = Some q
               /\ 7 <= q * 2 < 7 + 2
               /\ (forall q', 7 <= q' * 2 -> q <= q').
Proof.
  split; [reflexivity|]. apply (ceildiv_rounds_up 7 2). lia.
Defined.

(** X2 on the instrument: the order 7. *)
Lemma set_poly_order_refuses_invalid_value_witness :
  ~ valid_order (PyInt 7)
  /\ exists message,
       __set_poly_order (PyInt 7) world0
         = (Raise (AssertionError message),
            mkWorld (self world0) (fs world0)
              (log world0 ++ [Entered "__set_poly_order"])).
Proof.
  assert (Hbad : ~ valid_order (PyInt 7)).
  { intros (z & Hz & Hr). inversion Hz; subst z. lia. }
  split; [exact Hbad|].
  apply (set_poly_order_refuses_invalid_value (H := toy) world0 (PyInt 7)).
  exact Hbad.
Defined.

(** X3 on the instrument: the order 2 on the object as constructed. *)
Lemma poly_order_set_then_get_before_fit_witness :
  _poly_fit_exists (self world0) = false
  /\ _optimal_polynomial_grade (self world0) = None
  /\ (__set_poly_order (PyInt 2);; __get_poly_order) world0
     = (Raise (AttributeError "_optimal_polynomial_grade"),
        mkWorld (set_user_poly_order 2 (self world0)) (fs world0)
          (log world0 ++ [Entered "__set_poly_order"])).
Proof.
  split; [reflexivity|]. split; [reflexivity|].
  apply (poly_order_set_then_get_before_fit (H := toy) world0 2).
  - reflexivity.
  - reflexivity.
  - lia.
Defined.


(** X5 on the instrument: the seven events and the two intervals of the
    fit; the events at 55 and at 60 differ. *)
Lemma background_events_lie_in_some_interval_witness :
  exists mask,
    union_mask (map (interval_mask [5; 6; 20; 55; 60; 70; 99]%Q)
                    fitted_intervals) world0
      = (Return mask, world0)
    /\ np.select [5; 6; 20; 55; 60; 70; 99]%Q mask
       = [5; 6; 20; 60; 70; 99]%Q
    /\ np.select [0; 1; 0; 1; 0; 0; 1] mask = [0; 1; 0; 0; 0; 1].
Proof.
  destruct (background_events_lie_in_some_interval world0
              [5; 6; 20; 55; 60; 70; 99]%Q [0; 1; 0; 1; 0; 0; 1]
              (mkTimeInterval 0 50) [mkTimeInterval 60 100])
    as (mask & Hrun & Ht & He & _).
  - reflexivity.
  - exists mask. split; [exact Hrun|]. split.
    + rewrite Ht. vm_compute. reflexivity.
    + rewrite He. vm_compute. reflexivity.
Defined.

(** X7 on the instrument: a string for the option, and an interval that
    cannot be read. *)
Lemma set_polynomial_fit_interval_fails_before_storing_witness :
  (exists e,
     set_polynomial_fit_interval ["0-50"]
       {[ "unbinned" := PyStr "yes" ]} world0
       = (Raise e,
          mkWorld (self world0) (fs world0)
            (log world0 ++ [Entered "set_polynomial_fit_interval"])))
  /\ (exists e,
        set_polynomial_fit_interval ["soon"] ∅ world0
          = (Raise e,
             mkWorld (self world0) (fs world0)
               (log world0 ++ [Entered "set_polynomial_fit_interval"]))).
Proof.
  split.
  - apply (set_polynomial_fit_interval_fails_before_storing (H := toy)
             world0 ["0-50"] {[ "unbinned" := PyStr "yes" ]}).
    left. exists (PyStr "yes"). split; [reflexivity|].
    intros b. discriminate.
  - apply (set_polynomial_fit_interval_fails_before_storing (H := toy)
             world0 ["soon"] ∅).
    right. split; [left; reflexivity|].
    exists (RuntimeError "cannot read the interval"). reflexivity.
Defined.

(** X8 on the instrument: a call without intervals on the object as
    constructed. *)
Lemma failed_fit_leaves_fit_flag_set_witness :
  let w' := (set_polynomial_fit_interval [] ∅ world0).2 in
  from_strings [] = Return []
  /\ _polynomials (self world0) = None
  /\ (set_polynomial_fit_interval [] ∅ world0).1 = Raise IndexError
  /\ _poly_fit_exists (self w') = true
  /\ _poly_intervals (self w') = Some []
  /\ (get_poly_info w').1 = Raise (AttributeError "_polynomials").
Proof.
  intros w'. split; [reflexivity|]. split; [reflexivity|].
  destruct (failed_fit_leaves_fit_flag_set (H := toy) world0 [] ∅)
    as (Hrun & Hflag & Hivs & _ & Hinfo).
  - left. reflexivity.
  - reflexivity.
  - split; [exact Hrun|]. split; [exact Hflag|]. split; [exact Hivs|].
    apply Hinfo. reflexivity.
Defined.

(** X9 on the instrument: saving the object as constructed. *)
Lemma save_background_without_fit_leaves_empty_store_witness :
  let w1 :=
    mkWorld (self world0)
      (<[saved_path "bkg" := mkFile empty_store true]> (fs world0))
      (log world0 ++ [Entered "save_background"]) in
  _poly_fit_exists (self world0) = false
  /\ save_background "bkg" true world0
     = (Raise (RuntimeError not_fitted_message), w1)
  /\ (save_background "bkg" false w1).1
     = Raise (IOError (exists_message (saved_path "bkg"))).
Proof.
  intros w1. split; [reflexivity|].
  apply (save_background_without_fit_leaves_empty_store (H := toy)
           world0 "bkg" true).
  - reflexivity.
  - vm_compute. reflexivity.
Defined.

(** X10 on the instrument: no file at all. *)
Lemma restore_fit_of_missing_file_witness :
  fs world0 !! "bkg.h5" = None
  /\ restore_fit "bkg.h5" world0
     = (Raise (KeyError "coefficients"),
        mkWorld (self world0)
          (<["bkg.h5" := mkFile empty_store true]> (fs world0))
          (log world0 ++ [Entered "restore_fit"])).
Proof.
  split; [reflexivity|].
  apply (restore_fit_of_missing_file (H := toy) world0 "bkg.h5").
  reflexivity.
Defined.

(** X11 on the instrument: the fitted object is saved to "bkg.h5". *)
Lemma save_background_writes_only_the_destination_witness :
  _polynomials (self fitted_world) = Some fitted_polynomials
  /\ (save_background "bkg" false fitted_world).1 = Return tt
  /\ fs (save_background "bkg" false fitted_world).2 !! "bkg.h5"
     = Some saved_file
  /\ forall other, other <> "bkg.h5" ->
       fs (save_background "bkg" false fitted_world).2 !! other
       = fs fitted_world !! other.
Proof.
  split; [vm_compute; reflexivity|].
  destruct (save_background_writes_only_the_destination (H := toy)
              fitted_world "bkg" false fitted_polynomials 2
              fitted_intervals false)
    as (evs & Hrun & Hother).
  - vm_compute. reflexivity.
  - vm_compute. reflexivity.
  - vm_compute. reflexivity.
  - vm_compute. reflexivity.
  - vm_compute. reflexivity.
  - left. vm_compute. reflexivity.
  - split; [rewrite Hrun; reflexivity|].
    split; [vm_compute; reflexivity|]. exact Hother.
Defined.

(** X12 on the instrument: after a fit, a call without intervals fails,
    the object is saved, and a fresh object cannot read the file. *)
Lemma save_after_failed_refit_cannot_be_restored_witness :
  let w1 := (set_polynomial_fit_interval [] ∅ fitted_world).2 in
  let w2 := (save_background "bkg" false w1).2 in
  (set_polynomial_fit_interval [] ∅ fitted_world).1 = Raise IndexError
  /\ (save_background "bkg" false w1).1 = Return tt
  /\ (restore_fit "bkg.h5" (mkWorld fresh (fs w2) [])).1 = Raise IndexError.
Proof.
  intros w1 w2.
  destruct (save_after_failed_refit_cannot_be_restored (H := toy)
              fitted_world [] ∅ "bkg" fitted_polynomials 2 fresh [])
    as (Hfail & Hsave & Hread).
  - vm_compute. reflexivity.
  - vm_compute. reflexivity.
  - left. reflexivity.
  - reflexivity.
  - vm_compute. reflexivity.
  - split; [exact Hfail|]. split; [exact Hsave|].
    apply (Hread "bkg.h5"). reflexivity.
Defined.

(** X13 on the instrument: the totals of the first channel between 0 and
    10, before the save and after the restore. *)
Lemma totals_survive_save_and_restore_witness :
  let w1 := (save_background "bkg" false fitted_world).2 in
  let w2 := (restore_fit "bkg.h5" (mkWorld fresh (fs w1) [])).2 in
  (restore_fit "bkg.h5" (mkWorld fresh (fs w1) [])).1 = Return tt
  /\ (get_total_poly_count 0 10 (Some [true; false]) w2).1
     = (get_total_poly_count 0 10 (Some [true; false]) fitted_world).1
  /\ (get_total_poly_error 0 10 (Some [true; false]) w2).1
     = (get_total_poly_error 0 10 (Some [true; false]) fitted_world).1.
Proof.
  intros w1 w2.
  apply (totals_survive_save_and_restore (H := toy)
           fitted_world "bkg" "bkg.h5" false fitted_polynomials 2
           (mkTimeInterval 0 50) [mkTimeInterval 60 100] false fresh []
           0%Q 10%Q (Some [true; false])).
  - vm_compute. reflexivity.
  - vm_compute. reflexivity.
  - vm_compute. reflexivity.
  - vm_compute. reflexivity.
  - vm_compute. reflexivity.
  - repeat constructor.
  - vm_compute. reflexivity.
  - reflexivity.
  - reflexivity.
Defined.

(** X15 on the instrument: two channels. *)
Lemma get_poly_info_after_fit_has_a_row_per_channel_witness :
  _poly_intervals (self order2_world) = Some [mkTimeInterval 0 50]
  /\ (exists panel,
        ((_fit_polynomials;; get_poly_info) order2_world).1
          = Return (Some panel)
        /\ length (panel_coefficients panel) = 2%nat
        /\ length (panel_error panel) = 2%nat)
  /\ (exists panel,
        ((_unbinned_fit_polynomials;; get_poly_info) order2_world).1
          = Return (Some panel)
        /\ length (panel_coefficients panel) = 2%nat
        /\ length (panel_error panel) = 2%nat).
Proof.
  split; [reflexivity|].
  apply (get_poly_info_after_fit_has_a_row_per_channel (H := toy)
           order2_world (mkTimeInterval 0 50) []).
  reflexivity.
Defined.

(** X16 on the instrument: the second channel has a negative polynomial
    count; its rate and its rate error are 0. *)
Lemma pha_rates_from_polynomials_are_not_negative_witness :
  _time_selection_exists (self selected_world) = true
  /\ exists c errors,
       (get_pha_information products true selected_world).1 = Return c
       /\ pha_rate_error c = Some errors
       /\ Forall (fun r => negative r = false) (pha_rate c)
       /\ pha_rate c !! 1%nat = Some (Fin 0)
       /\ errors !! 1%nat = Some (Fin 0).
Proof.
  split; [vm_compute; reflexivity|].
  destruct (pha_rates_from_polynomials_are_not_negative (H := toy_bounds)
              selected_world products [mkTimeInterval 10 20])
    as (c & errors & Hrun & Herr & Hpos & Hrows).
  - vm_compute. reflexivity.
  - vm_compute. reflexivity.
  - reflexivity.
  - exists c, errors. split; [exact Hrun|]. split; [exact Herr|].
    split; [exact Hpos|].
    exact (Hrows 1%nat (-20)%Q 1%Q eq_refl eq_refl).
Defined.

(** X17 on the instrument: the channels 0 and 1. *)
Lemma pha_channels_are_the_fitted_channels_witness :
  (get_pha_information products false world0).1
    = Raise (RuntimeError no_selection_message)
  /\ exists c,
       (get_pha_information products false selected_world).1 = Return c
       /\ pha_channel c = [0; 1]
       /\ length (pha_grouping c) = 2%nat
       /\ length (pha_quality c) = length (pha_rate c).
Proof.
  split.
  - apply (pha_channels_are_the_fitted_channels (H := toy_bounds)
             world0 products false). reflexivity.
  - destruct (pha_channels_are_the_fitted_channels (H := toy_bounds)
                selected_world products false) as [_ Hc].
    eexists. split; [vm_compute; reflexivity|].
    match goal with
    | |- pha_channel ?c = _ /\ _ =>
        destruct (Hc c) as (Hch & Hg & Hq); [vm_compute; reflexivity|]
    end.
    split; [vm_compute; reflexivity|]. split; [vm_compute; reflexivity|].
    apply Hq. vm_compute. reflexivity.
Defined.

(** X18 on the instrument: with the selection 10-20 active the order is
    set to 1 and the fit is redone at grade 1. *)
Lemma set_poly_order_with_selection_refits_at_the_new_order_witness :
  _time_selection_exists (self selected_world) = true
  /\ _optimal_polynomial_grade (self selected_world) = Some 2
  /\ exists t evs polys,
       __set_poly_order (PyInt 1) selected_world
         = recompute_active_selection
             (mkWorld t (fs selected_world) (log selected_world ++ evs))
       /\ _user_poly_order t = 1
       /\ _optimal_polynomial_grade t = Some 1
       /\ _polynomials t = Some polys
       /\ length polys = 2%nat.
Proof.
  split; [vm_compute; reflexivity|]. split; [vm_compute; reflexivity|].
  destruct (set_poly_order_with_selection_refits_at_the_new_order
              (H := toy) selected_world 1 (mkTimeInterval 0 50)
              [mkTimeInterval 60 100] false)
    as (t & evs & polys & Hrun & Hu & Hg & _ & _ & Hp & Hlen).
  - vm_compute. reflexivity.
  - vm_compute. reflexivity.
  - vm_compute. reflexivity.
  - vm_compute. reflexivity.
  - vm_compute. reflexivity.
  - lia.
  - exists t, evs, polys.
    exact (conj Hrun (conj Hu (conj Hg (conj Hp Hlen)))).
Defined.

(** X19 on the instrument: the fitted object is saved twice to the same
    name. *)
Lemma second_save_needs_leave_to_overwrite_witness :
  let w1 := (save_background "bkg" false fitted_world).2 in
  fs fitted_world !! saved_path "bkg" = None
  /\ (save_background "bkg" false fitted_world).1 = Return tt
  /\ (save_background "bkg" false w1).1
     = Raise (IOError (exists_message (saved_path "bkg")))
  /\ fs (save_background "bkg" false w1).2 = fs w1
  /\ (save_background "bkg" true w1).1 = Return tt.
Proof.
  intros w1. split; [vm_compute; reflexivity|].
  apply (second_save_needs_leave_to_overwrite (H := toy) fitted_world
           "bkg" false fitted_polynomials 2 fitted_intervals false).
  - vm_compute. reflexivity.
  - vm_compute. reflexivity.
  - vm_compute. reflexivity.
  - vm_compute. reflexivity.
  - vm_compute. reflexivity.
  - vm_compute. reflexivity.
Defined.

(** X20 on the instrument: a fresh object reads "bkg.h5" twice. *)
Lemma restore_fit_twice_is_restore_fit_once_witness :
  let w1 := (restore_fit "bkg.h5" reader_world).2 in
  fs reader_world !! "bkg.h5" = Some saved_file
  /\ (restore_fit "bkg.h5" reader_world).1 = Return tt
  /\ (restore_fit "bkg.h5" w1).1 = Return tt
  /\ self (restore_fit "bkg.h5" w1).2 = self w1
  /\ fs (restore_fit "bkg.h5" w1).2 = fs reader_world.
Proof.
  intros w1. split; [vm_compute; reflexivity|].
  apply (restore_fit_twice_is_restore_fit_once (H := toy) reader_world
           "bkg.h5" saved_file
           (map coefficients fitted_polynomials)
           (map covariance_matrix fitted_polynomials) saved_metadata).
  - vm_compute. reflexivity.
  - reflexivity.
  - reflexivity.
  - discriminate.
  - reflexivity.
Defined.

(** X21 on the instrument: a fresh object reads "bkg.h5" and is saved to
    "copy.h5". *)
Lemma save_after_restore_reproduces_the_store_witness :
  let w1 := (restore_fit "bkg.h5" reader_world).2 in
  let w2 := (save_background "copy" false w1).2 in
  fs reader_world !! "bkg.h5" = Some saved_file
  /\ (restore_fit "bkg.h5" reader_world).1 = Return tt
  /\ (save_background "copy" false w1).1 = Return tt
  /\ contents <$> (fs w2 !! saved_path "copy") = Some (contents saved_file).
Proof.
  intros w1 w2. split; [vm_compute; reflexivity|].
  apply (save_after_restore_reproduces_the_store (H := toy) reader_world
           "bkg.h5" "copy" false saved_file
           (map coefficients fitted_polynomials)
           (map covariance_matrix fitted_polynomials) saved_metadata).
  - vm_compute. reflexivity.
  - reflexivity.
  - reflexivity.
  - repeat constructor.
  - discriminate.
  - reflexivity.
  - vm_compute. reflexivity.
Defined.

(** X23 on the instrument: a binned fit on two intervals. *)
Lemma successful_call_stores_what_it_read_witness :
  from_strings ["0-50"; "60-100"] = Return fitted_intervals
  /\ exists t evs g polys,
       set_polynomial_fit_interval ["0-50"; "60-100"]
         {[ "unbinned" := PyBool false ]} world0
         = (Return tt, mkWorld t (fs world0) (log world0 ++ evs))
       /\ _poly_intervals t = Some fitted_intervals
       /\ _unbinned t = Some false
       /\ _poly_fit_exists t = true
       /\ _optimal_polynomial_grade t = Some g
       /\ _polynomials t = Some polys
       /\ length polys = 2%nat.
Proof.
  split; [vm_compute; reflexivity|].
  destruct (successful_call_stores_what_it_read (H := toy) world0
              ["0-50"; "60-100"] {[ "unbinned" := PyBool false ]} false
              (mkTimeInterval 0 50) [mkTimeInterval 60 100])
    as (t & evs & g & polys & Hrun & Hivs & Hb & Hfit & Hg & _ & Hp & Hlen).
  - reflexivity.
  - vm_compute. reflexivity.
  - reflexivity.
  - exists t, evs, g, polys.
    exact (conj Hrun (conj Hivs (conj Hb (conj Hfit
             (conj Hg (conj Hp Hlen)))))).
Defined.

(** X24 on the instrument: the second channel between 0 and 60. *)
Lemma significance_events_are_the_masked_channels_in_the_window_witness :
  length (_arrival_times fresh) = length (_energies fresh)
  /\ bin_by_significance_events fresh 0 60 (Some [false; true])
     = inr [6; 55]%Q.
Proof.
  split; [reflexivity|].
  destruct (significance_events_are_the_masked_channels_in_the_window
              fresh 0 60 [false; true]) as [Hrun _].
  - reflexivity.
  - reflexivity.
  - rewrite Hrun. vm_compute. reflexivity.
Defined.

(** X26 on the instrument: two channels numbered from 1. A mask with an
    entry per channel is refused by the selection of the events, and a mask
    with one entry by the background getter. *)
Lemma significance_mask_cannot_serve_both_uses_witness :
  _first_channel (self fitted_from_one) = 1
  /\ (exists polys, _polynomials (self fitted_from_one) = Some polys
                    /\ length polys = 2%nat)
  /\ (bin_by_significance_events (self fitted_from_one) 0 100
        (Some [true; false]) = inl BooleanIndexError
      \/ (get_total_poly_count 0 10 (Some [true; false])
            fitted_from_one).1 = Raise IndexError)
  /\ bin_by_significance_events (self fitted_from_one) 0 100
       (Some [true; false]) = inl BooleanIndexError
  /\ bin_by_significance_events (self fitted_from_one) 0 100 (Some [true])
     = inr [5; 20; 60; 70]%Q
  /\ (get_total_poly_count 0 10 (Some [true]) fitted_from_one).1
     = Raise IndexError.
Proof.
  split; [vm_compute; reflexivity|].
  split; [eexists; split; vm_compute; reflexivity|].
  split; [|split; [vm_compute; reflexivity|
                   split; vm_compute; reflexivity]].
  apply (significance_mask_cannot_serve_both_uses (H := toy)
           fitted_from_one
           [mkPolynomial [Fin 4; Fin 0; Fin 0] [[Fin 1]];
            mkPolynomial [Fin 2; Fin 0; Fin 0] [[Fin 1]]]
           0%Q 100%Q 0%Q 10%Q [true; false]).
  - vm_compute. reflexivity.
  - reflexivity.
  - vm_compute. reflexivity.
  - vm_compute. reflexivity.
Defined.
